(** * DFD threat-model generator: validator, pattern library, generator

    A shallow embedding of [src/threatLibrary.js], [src/dfdValidator.js] and
    [src/threatGenerator.js].

    Conventions of the embedding.
    - A JavaScript property that may be missing is an [option]; [None] is
      [undefined].  Property types are the ones [dfdValidator.schema]
      declares (strings, booleans, arrays of objects).
    - JavaScript truthiness is written out: a string is truthy when it is
      present and not empty, a boolean when it is present and [true], an
      array whenever it is present.
    - [Set] objects are [gset]s, [options.customRules] is a [gmap]; objects
      whose key order is observable ([library.patterns], the STRIDE
      breakdown) are association lists in insertion order.
    - Exceptions are the [Throw] outcome of [Completion].
    - [uuidv4()] and [new Date().toISOString()] are read from an explicit
      environment; the n-th call of [uuidv4] returns [uuidv4 env n]. *)

From Stdlib Require Import Ascii String Sorted.
From stdpp Require Import gmap strings list pretty.

Local Open Scope string_scope.
Local Open Scope list_scope.

(** ** JavaScript helpers *)

(** Outcome of a call: a value or a thrown [TypeError]. *)
Inductive Completion (A : Type) : Type :=
| Return (a : A)
| Throw (message : string).
Arguments Return {A} a.
Arguments Throw {A} message.

(** [!!s] for a string property. *)
Definition truthyStr (s : option string) : bool :=
  match s with
  | Some s => negb (String.eqb s "")
  | None => false
  end.

(** [!!b] for a boolean property. *)
Definition truthyBool (b : option bool) : bool :=
  match b with
  | Some b => b
  | None => false
  end.

(** [s || d] for a string property. *)
Definition orStr (s : option string) (d : string) : string :=
  match s with
  | Some s => if String.eqb s "" then d else s
  | None => d
  end.

(** [l || []] for an array property. *)
Definition orEmpty {A : Type} (l : option (list A)) : list A :=
  match l with
  | Some l => l
  | None => []
  end.

(** [a === b] for string properties, either of which may be [undefined]. *)
Definition strictEq (a b : option string) : bool :=
  match a, b with
  | Some a, Some b => String.eqb a b
  | None, None => true
  | _, _ => false
  end.

(** [arr.includes(x)] on an array of strings. *)
Definition includes (arr : list string) (x : option string) : bool :=
  existsb (fun y => strictEq (Some y) x) arr.

(** Interpolation [${x}] of a string property inside a template literal. *)
Definition interp (x : option string) : string :=
  match x with
  | Some s => s
  | None => "undefined"
  end.

Definition lowerAscii (c : ascii) : ascii :=
  let n := nat_of_ascii c in
  if (65 <=? n)%nat && (n <=? 90)%nat then ascii_of_nat (n + 32) else c.

(** [s.toLowerCase()].  Strings are byte sequences here; the letters A-Z are
    mapped, which is all that a comparison with an ASCII literal without
    'k' can observe: the Kelvin sign is the only other character whose
    lower case is an ASCII letter. *)
Fixpoint toLowerCase (s : string) : string :=
  match s with
  | EmptyString => EmptyString
  | String c s' => String (lowerAscii c) (toLowerCase s')
  end.

(** The own property names of [Object.prototype]: what [obj[key]] finds on a
    plain object literal besides its own keys. *)
Definition objectPrototypeKeys : list string :=
  [ "constructor"; "hasOwnProperty"; "isPrototypeOf"; "propertyIsEnumerable";
    "toLocaleString"; "toString"; "valueOf"; "__proto__";
    "__defineGetter__"; "__defineSetter__"; "__lookupGetter__";
    "__lookupSetter__" ].

(** Own-property lookup in an object written as an association list. *)
Fixpoint lookupKey {A : Type} (k : string) (o : list (string * A)) : option A :=
  match o with
  | [] => None
  | (k', v) :: o' => if String.eqb k' k then Some v else lookupKey k o'
  end.

(** [set.add(x)] on the insertion-ordered contents of a [Set] whose elements
    are read back with [Array.from]. *)
Definition setAdd (x : string) (s : list string) : list string :=
  if existsb (String.eqb x) s then s else s ++ [x].

(** ** Data model *)

Inductive Severity : Type := Critical | High | Medium | Low.

Definition severityEqb (a b : Severity) : bool :=
  match a, b with
  | Critical, Critical | High, High | Medium, Medium | Low, Low => true
  | _, _ => false
  end.

Record Pattern : Type := {
  pat_id : string;
  pat_title : string;
  pat_description : string;
  pat_category : string;
  pat_stride : option (list string);
  pat_severity : option Severity;
  pat_impact : option string;
  pat_targets : option (list string);
  pat_appliesToDataflow : option bool;
  pat_protocols : option (list string);
  pat_mitigations : option (list string);
  pat_references : option (list string);
  pat_owaspCategory : option string
}.

Record Element : Type := {
  el_id : option string;
  el_name : option string;
  el_type : option string;
  el_description : option string;
  el_trustLevel : option string;
  el_isExternalEntity : option bool;
  el_isDatastore : option bool;
  el_isProcess : option bool
}.

Record Dataflow : Type := {
  df_id : option string;
  df_name : option string;
  df_from : option string;
  df_to : option string;
  df_protocol : option string;
  df_hasSensitiveData : option bool;
  df_isCrossNetwork : option bool;
  df_isEncrypted : option bool;
  df_authentication : option string;
  df_type : option string
}.

Record TrustBoundary : Type := {
  tb_id : option string;
  tb_name : option string;
  tb_elements : option (list string)
}.

Record Dfd : Type := {
  dfd_id : option string;
  dfd_name : option string;
  dfd_description : option string;
  dfd_elements : option (list Element);
  dfd_dataflows : option (list Dataflow);
  dfd_trustBoundaries : option (list TrustBoundary)
}.

(** The object returned by [validate]; the early return for a missing DFD
    has only [valid] and [errors]. *)
Record ValidationResult : Type := {
  valid : bool;
  errors : list string;
  warnings : option (list string);
  elementCount : option nat;
  dataflowCount : option nat;
  trustBoundaryCount : option nat
}.

(** A threat object as [analyzeElement] and [analyzeDataflow] build it and
    [generateThreatModel] stamps it. *)
Record Threat : Type := {
  th_id : option string;
  th_title : string;
  th_description : string;
  th_category : string;
  th_stride : option (list string);
  th_severity : Severity;
  th_likelihood : string;
  th_impact : string;
  th_mitigations : list string;
  th_references : option (list string);
  th_owaspCategory : string;
  th_elementId : option string;
  th_elementName : option string;
  th_elementType : option string;
  th_dataflowId : option string;
  th_dataflowName : option string;
  th_dataflowType : option string
}.

Record RiskSummary : Type := {
  critical : nat;
  high : nat;
  medium : nat;
  low : nat
}.

Record ThreatModel : Type := {
  tm_id : string;
  tm_dfdId : option string;
  tm_dfdName : option string;
  tm_threats : list Threat;
  tm_totalThreats : nat;
  tm_riskSummary : RiskSummary;
  tm_createdAt : string;
  tm_owasp_mapped : bool
}.

Record Options : Type := {
  customRules : option (gmap string (list string))
}.

Record Env : Type := {
  uuidv4 : nat -> string;
  now : string
}.

Record LibraryMetadata : Type := {
  md_version : string;
  md_source : string;
  md_categories : list string;
  md_totalPatterns : nat;
  md_strideCoverage : list string;
  md_supportedElementTypes : list string
}.

Record Library : Type := {
  version : string;
  source : string;
  patterns : list (string * list Pattern)
}.

(** ** The pattern library ([threatLibrary.js]) *)

Module threatLibrary.

Definition ACT01 : Pattern := {|
  pat_id := "ACT01";
  pat_title := "Malicious External Actor";
  pat_description := "External entities may be compromised or act with malicious intent";
  pat_category := "Actor Threat";
  pat_stride := Some ["Spoofing"; "Repudiation"];
  pat_severity := Some High;
  pat_impact := Some "Critical";
  pat_targets := Some ["external_entity"; "user"; "actor"];
  pat_appliesToDataflow := None;
  pat_protocols := None;
  pat_mitigations := Some
    [ "Implement multi-factor authentication";
      "Use digital signatures and certificates";
      "Implement continuous monitoring and anomaly detection";
      "Maintain detailed audit logs";
      "Implement rate limiting and CAPTCHA" ];
  pat_references := Some ["A07:2021 – Identification and Authentication Failures"];
  pat_owaspCategory := Some "A07:2021 – Identification and Authentication Failures"
|}.

Definition ACT02 : Pattern := {|
  pat_id := "ACT02";
  pat_title := "Account Compromise";
  pat_description := "Actor credentials may be stolen or compromised";
  pat_category := "Authentication";
  pat_stride := Some ["Spoofing"];
  pat_severity := Some High;
  pat_impact := Some "High";
  pat_targets := Some ["external_entity"; "actor"];
  pat_appliesToDataflow := None;
  pat_protocols := None;
  pat_mitigations := Some
    [ "Enforce strong password policies";
      "Implement MFA/2FA";
      "Monitor for suspicious login patterns";
      "Session timeout policies";
      "Password reset procedures" ];
  pat_references := None;
  pat_owaspCategory := Some "A07:2021 – Identification and Authentication Failures"
|}.

Definition PROC01 : Pattern := {|
  pat_id := "PROC01";
  pat_title := "Input Validation Bypass";
  pat_description := "Process may not properly validate input, leading to injection attacks";
  pat_category := "Input Validation";
  pat_stride := Some ["Tampering"];
  pat_severity := Some Critical;
  pat_impact := Some "Critical";
  pat_targets := Some ["process"];
  pat_appliesToDataflow := None;
  pat_protocols := None;
  pat_mitigations := Some
    [ "Implement strict input validation";
      "Use parameterized queries";
      "Whitelist acceptable input patterns";
      "Use security frameworks (ESAPI, Spring Security)";
      "Regular security testing (SAST)" ];
  pat_references := None;
  pat_owaspCategory := Some "A03:2021 – Injection"
|}.

Definition PROC02 : Pattern := {|
  pat_id := "PROC02";
  pat_title := "Privilege Escalation";
  pat_description := "Process running with excessive privileges may be exploited";
  pat_category := "Authorization";
  pat_stride := Some ["Elevation of Privilege"];
  pat_severity := Some High;
  pat_impact := Some "Critical";
  pat_targets := Some ["process"];
  pat_appliesToDataflow := None;
  pat_protocols := None;
  pat_mitigations := Some
    [ "Apply principle of least privilege";
      "Use role-based access control (RBAC)";
      "Regular privilege audits";
      "Separate user and admin interfaces";
      "Monitor privilege usage" ];
  pat_references := None;
  pat_owaspCategory := Some "A01:2021 – Broken Access Control"
|}.

Definition PROC03 : Pattern := {|
  pat_id := "PROC03";
  pat_title := "Broken Authentication";
  pat_description := "Process authentication mechanisms may be bypassed or compromised";
  pat_category := "Authentication";
  pat_stride := Some ["Spoofing"];
  pat_severity := Some Critical;
  pat_impact := Some "Critical";
  pat_targets := Some ["process"];
  pat_appliesToDataflow := None;
  pat_protocols := None;
  pat_mitigations := Some
    [ "Implement secure authentication protocols (OAuth 2.0, OIDC)";
      "Use hardware security modules for key storage";
      "Implement account lockout mechanisms";
      "Use secure session management";
      "Regular authentication testing" ];
  pat_references := None;
  pat_owaspCategory := Some "A07:2021 – Identification and Authentication Failures"
|}.

Definition PROC04 : Pattern := {|
  pat_id := "PROC04";
  pat_title := "Business Logic Bypass";
  pat_description := "Application business logic may be bypassed or exploited";
  pat_category := "Business Logic";
  pat_stride := Some ["Tampering"];
  pat_severity := Some High;
  pat_impact := Some "High";
  pat_targets := Some ["process"];
  pat_appliesToDataflow := None;
  pat_protocols := None;
  pat_mitigations := Some
    [ "Comprehensive business logic testing";
      "State machine validation";
      "Rate limiting on critical operations";
      "Transaction integrity checks";
      "Fraud detection systems" ];
  pat_references := None;
  pat_owaspCategory := Some "A04:2021 – Insecure Design"
|}.

Definition DS01 : Pattern := {|
  pat_id := "DS01";
  pat_title := "Unauthorized Data Access";
  pat_description := "Sensitive data in datastore may be accessed without proper authorization";
  pat_category := "Information Disclosure";
  pat_stride := Some ["Information Disclosure"];
  pat_severity := Some Critical;
  pat_impact := Some "Critical";
  pat_targets := Some ["datastore"; "database"];
  pat_appliesToDataflow := None;
  pat_protocols := None;
  pat_mitigations := Some
    [ "Implement database encryption (TDE, field-level encryption)";
      "Use access control lists and row-level security";
      "Implement database auditing and monitoring";
      "Use data masking for sensitive fields";
      "Regular backup and recovery testing";
      "Implement principle of least privilege for DB access" ];
  pat_references := None;
  pat_owaspCategory := Some "A01:2021 – Broken Access Control"
|}.

Definition DS02 : Pattern := {|
  pat_id := "DS02";
  pat_title := "Data Tampering";
  pat_description := "Data in datastore may be modified without detection";
  pat_category := "Data Integrity";
  pat_stride := Some ["Tampering"];
  pat_severity := Some High;
  pat_impact := Some "High";
  pat_targets := Some ["datastore"; "database"];
  pat_appliesToDataflow := None;
  pat_protocols := None;
  pat_mitigations := Some
    [ "Implement database integrity checks (hash verification)";
      "Use digital signatures for critical data";
      "Enable transaction logging";
      "Implement audit trails";
      "Regular integrity audits";
      "Backup and version control" ];
  pat_references := None;
  pat_owaspCategory := Some "A06:2021 – Vulnerable and Outdated Components"
|}.

Definition DS03 : Pattern := {|
  pat_id := "DS03";
  pat_title := "Data Loss";
  pat_description := "Data in datastore may be lost due to failure or attack";
  pat_category := "Availability";
  pat_stride := Some ["Denial of Service"];
  pat_severity := Some High;
  pat_impact := Some "Critical";
  pat_targets := Some ["datastore"; "database"];
  pat_appliesToDataflow := None;
  pat_protocols := None;
  pat_mitigations := Some
    [ "Implement automated backups";
      "Use database replication and clustering";
      "Disaster recovery planning";
      "Regular backup testing and restore drills";
      "Implement redundancy";
      "Geographic data distribution" ];
  pat_references := None;
  pat_owaspCategory := Some "A06:2021 – Vulnerable and Outdated Components"
|}.

Definition DS04 : Pattern := {|
  pat_id := "DS04";
  pat_title := "SQL Injection via Database";
  pat_description := "Database may be vulnerable to SQL injection attacks";
  pat_category := "Injection";
  pat_stride := Some ["Tampering"];
  pat_severity := Some Critical;
  pat_impact := Some "Critical";
  pat_targets := Some ["datastore"; "database"];
  pat_appliesToDataflow := None;
  pat_protocols := None;
  pat_mitigations := Some
    [ "Use parameterized queries and prepared statements";
      "Input validation and sanitization";
      "Principle of least privilege for database accounts";
      "Web Application Firewall (WAF)";
      "Regular security testing (DAST)";
      "Database activity monitoring" ];
  pat_references := None;
  pat_owaspCategory := Some "A03:2021 – Injection"
|}.

Definition DF01 : Pattern := {|
  pat_id := "DF01";
  pat_title := "Man-in-the-Middle Attack";
  pat_description := "Unencrypted dataflow is vulnerable to interception and modification";
  pat_category := "Network Attack";
  pat_stride := Some ["Tampering"; "Information Disclosure"; "Spoofing"];
  pat_severity := Some Critical;
  pat_impact := Some "Critical";
  pat_targets := None;
  pat_appliesToDataflow := Some true;
  pat_protocols := Some ["HTTP"; "FTP"; "SMTP"; "TELNET"];
  pat_mitigations := Some
    [ "Use TLS 1.2+ for all communications";
      "Implement certificate pinning";
      "HSTS headers";
      "Perfect forward secrecy";
      "Regular certificate updates";
      "Monitor for suspicious certificates" ];
  pat_references := None;
  pat_owaspCategory := Some "A02:2021 – Cryptographic Failures"
|}.

Definition DF02 : Pattern := {|
  pat_id := "DF02";
  pat_title := "Eavesdropping";
  pat_description := "Sensitive data in dataflow may be eavesdropped";
  pat_category := "Information Disclosure";
  pat_stride := Some ["Information Disclosure"];
  pat_severity := Some High;
  pat_impact := Some "High";
  pat_targets := None;
  pat_appliesToDataflow := Some true;
  pat_protocols := None;
  pat_mitigations := Some
    [ "End-to-end encryption";
      "Use VPN for sensitive communications";
      "Message-level encryption";
      "Perfect forward secrecy";
      "Regular encryption audits" ];
  pat_references := None;
  pat_owaspCategory := Some "A02:2021 – Cryptographic Failures"
|}.

Definition DF03 : Pattern := {|
  pat_id := "DF03";
  pat_title := "Replay Attack";
  pat_description := "Legitimate dataflow messages may be captured and replayed";
  pat_category := "Network Attack";
  pat_stride := Some ["Spoofing"; "Tampering"];
  pat_severity := Some High;
  pat_impact := Some "High";
  pat_targets := None;
  pat_appliesToDataflow := Some true;
  pat_protocols := None;
  pat_mitigations := Some
    [ "Implement message timestamps";
      "Use nonce/challenge-response";
      "Session tokens with expiration";
      "Message sequence numbers";
      "MAC codes on messages" ];
  pat_references := None;
  pat_owaspCategory := Some "A02:2021 – Cryptographic Failures"
|}.

Definition DF04 : Pattern := {|
  pat_id := "DF04";
  pat_title := "Denial of Service";
  pat_description := "Dataflow may be targeted by DoS attacks";
  pat_category := "Availability";
  pat_stride := Some ["Denial of Service"];
  pat_severity := Some Medium;
  pat_impact := Some "High";
  pat_targets := None;
  pat_appliesToDataflow := Some true;
  pat_protocols := None;
  pat_mitigations := Some
    [ "Rate limiting";
      "Load balancing";
      "DDoS protection services";
      "Input validation";
      "Connection timeouts";
      "Resource quotas" ];
  pat_references := None;
  pat_owaspCategory := Some "A05:2021 – Broken Access Control"
|}.

Definition EXT01 : Pattern := {|
  pat_id := "EXT01";
  pat_title := "Compromised Third-Party";
  pat_description := "External entity may be compromised or unreliable";
  pat_category := "Third-Party Risk";
  pat_stride := Some ["Spoofing"; "Tampering"];
  pat_severity := Some High;
  pat_impact := Some "High";
  pat_targets := Some ["external_entity"];
  pat_appliesToDataflow := None;
  pat_protocols := None;
  pat_mitigations := Some
    [ "Vendor security assessments";
      "Contract security requirements";
      "API authentication and rate limiting";
      "Monitor third-party communications";
      "Incident response plans";
      "Business continuity planning" ];
  pat_references := None;
  pat_owaspCategory := Some "A06:2021 – Vulnerable and Outdated Components"
|}.

Definition library : Library := {|
  version := "1.0.0";
  source := "OWASP Threat Model Library";
  patterns :=
    [ ("actor", [ACT01; ACT02]);
      ("process", [PROC01; PROC02; PROC03; PROC04]);
      ("datastore", [DS01; DS02; DS03; DS04]);
      ("dataflow", [DF01; DF02; DF03; DF04]);
      ("external_entity", [EXT01]) ]
|}.

(** The [typeMap] object literal of [getThreatPatterns]. *)
Definition typeMap : list (string * string) :=
  [ ("process", "process");
    ("datastore", "datastore");
    ("database", "datastore");
    ("actor", "actor");
    ("external_entity", "external_entity");
    ("user", "actor");
    ("dataflow", "dataflow") ].

(** [getThreatPatterns(elementType)]: [typeMap[elementType] || elementType],
    then [patterns[mappedType] || []].  A missing type is the property key
    "undefined".  A name inherited from [Object.prototype] is found on
    [typeMap] as a function, which names no bucket of [library]; the result
    is the empty list, as for an own-property lookup of that name. *)
Definition getThreatPatterns (this : Library) (elementType : option string)
  : list Pattern :=
  let key := interp elementType in
  let mappedType :=
    match lookupKey key typeMap with
    | Some m => m
    | None => key
    end in
  orEmpty (lookupKey mappedType (patterns this)).

(** The accumulators of [getLibraryMetadata]: [metadata.categories],
    [metadata.totalPatterns], [metadata.strideCoverage] and [types]. *)
Record MetadataState : Type := {
  ms_categories : list string;
  ms_totalPatterns : nat;
  ms_strideCoverage : list string;
  ms_types : list string
}.

(** Body of the inner [forEach(pattern => ...)]. *)
Definition metadataPattern (st : MetadataState) (pattern : Pattern)
  : MetadataState :=
  {| ms_categories := setAdd (pat_category pattern) (ms_categories st);
     ms_totalPatterns := S (ms_totalPatterns st);
     ms_strideCoverage :=
       fold_left (fun acc s => setAdd s acc) (orEmpty (pat_stride pattern))
                 (ms_strideCoverage st);
     ms_types := ms_types st |}.

(** Body of [for (const category in this.library.patterns)]. *)
Definition metadataCategory (st : MetadataState)
  (entry : string * list Pattern) : MetadataState :=
  let st' :=
    {| ms_categories := ms_categories st;
       ms_totalPatterns := ms_totalPatterns st;
       ms_strideCoverage := ms_strideCoverage st;
       ms_types := setAdd (fst entry) (ms_types st) |} in
  fold_left metadataPattern (snd entry) st'.

Definition getLibraryMetadata (this : Library) : LibraryMetadata :=
  let st :=
    fold_left metadataCategory (patterns this)
      {| ms_categories := []; ms_totalPatterns := 0;
         ms_strideCoverage := []; ms_types := [] |} in
  {| md_version := version this;
     md_source := source this;
     md_categories := ms_categories st;
     md_totalPatterns := ms_totalPatterns st;
     md_strideCoverage := ms_strideCoverage st;
     md_supportedElementTypes := ms_types st |}.

(** The loop of [getThreatById] over the buckets:
    [patterns[category].find(p => p.id === id)], returned when found. *)
Fixpoint findInBuckets (id : option string)
  (entries : list (string * list Pattern)) : option Pattern :=
  match entries with
  | [] => None
  | (_, bucket) :: rest =>
      match List.find (fun p => strictEq (Some (pat_id p)) id) bucket with
      | Some found => Some found
      | None => findInBuckets id rest
      end
  end.

(** [getThreatById(id)]; [None] is [null]. *)
Definition getThreatById (this : Library) (id : option string)
  : option Pattern :=
  findInBuckets id (patterns this).

(** [pattern.stride && pattern.stride.includes(strideCategory)]. *)
Definition hasStride (strideCategory : option string) (pattern : Pattern)
  : bool :=
  match pat_stride pattern with
  | Some stride => includes stride strideCategory
  | None => false
  end.

(** [getThreatsBySTRIDE(strideCategory)]. *)
Definition getThreatsBySTRIDE (this : Library) (strideCategory : option string)
  : list Pattern :=
  flat_map (fun entry => List.filter (hasStride strideCategory) (snd entry))
           (patterns this).

(** All patterns of a library, bucket after bucket. *)
Definition allPatterns (this : Library) : list Pattern :=
  flat_map snd (patterns this).

End threatLibrary.

(** ** The validator ([dfdValidator.js]) *)

Module dfdValidator.

Definition validTypes : list string :=
  [ "actor"; "process"; "datastore"; "external_entity"; "user"; "database" ].

(** [if (c) arr.push(x)]. *)
Definition pushIf {A : Type} (c : bool) (x : A) (arr : list A) : list A :=
  if c then arr ++ [x] else arr.

(** What the loops of [validate] read and write. *)
Record ValidateState : Type := {
  vs_errors : list string;
  vs_warnings : list string;
  vs_ids : gset (option string)
}.

Definition setExternalEntity (e : Element) : Element :=
  {| el_id := el_id e; el_name := el_name e; el_type := el_type e;
     el_description := el_description e; el_trustLevel := el_trustLevel e;
     el_isExternalEntity := Some true;
     el_isDatastore := el_isDatastore e; el_isProcess := el_isProcess e |}.

Definition setDatastore (e : Element) : Element :=
  {| el_id := el_id e; el_name := el_name e; el_type := el_type e;
     el_description := el_description e; el_trustLevel := el_trustLevel e;
     el_isExternalEntity := el_isExternalEntity e;
     el_isDatastore := Some true; el_isProcess := el_isProcess e |}.

Definition setProcess (e : Element) : Element :=
  {| el_id := el_id e; el_name := el_name e; el_type := el_type e;
     el_description := el_description e; el_trustLevel := el_trustLevel e;
     el_isExternalEntity := el_isExternalEntity e;
     el_isDatastore := el_isDatastore e; el_isProcess := Some true |}.

Definition isDatastoreType (t : option string) : bool :=
  strictEq t (Some "datastore") || strictEq t (Some "database").

Definition isExternalType (t : option string) : bool :=
  strictEq t (Some "external_entity") || strictEq t (Some "actor")
  || strictEq t (Some "user").

Definition isProcessType (t : option string) : bool :=
  strictEq t (Some "process").

(** The derived role flags that the element loop writes into the element. *)
Definition annotate (element : Element) : Element :=
  let e1 := if isDatastoreType (el_type element)
            then setDatastore element else element in
  let e2 := if isExternalType (el_type e1) then setExternalEntity e1 else e1 in
  if isProcessType (el_type e2) then setProcess e2 else e2.

(** Body of [dfd.elements.forEach((element, index) => ...)]: the updated
    accumulators and the element as the body leaves it. *)
Definition validateElement (index : nat) (element : Element)
  (st : ValidateState) : ValidateState * Element :=
  let idx := pretty index in
  let errors := vs_errors st in
  let errors := pushIf (negb (truthyStr (el_id element)))
      ("Element " +:+ idx +:+ " missing required field: id") errors in
  let errors := pushIf (negb (truthyStr (el_name element)))
      ("Element " +:+ idx +:+ " missing required field: name") errors in
  let errors :=
    if negb (truthyStr (el_type element))
    then errors ++ ["Element " +:+ idx +:+ " missing required field: type"]
    else pushIf (negb (includes validTypes (el_type element)))
           ("Element " +:+ idx +:+ " has invalid type: "
            +:+ interp (el_type element)) errors in
  let errors :=
    pushIf (truthyStr (el_id element)
            && bool_decide (el_id element ∈ vs_ids st))
      ("Duplicate element ID: " +:+ interp (el_id element)) errors in
  let ids := if truthyStr (el_id element)
             then vs_ids st ∪ {[ el_id element ]} else vs_ids st in
  let warnings :=
    pushIf (isDatastoreType (el_type element)
            && negb (truthyStr (el_description element)))
      ("Datastore '" +:+ interp (el_name element)
       +:+ "' should have description") (vs_warnings st) in
  ({| vs_errors := errors; vs_warnings := warnings; vs_ids := ids |},
   annotate element).

(** [dfd.elements.forEach], from index [index] on. *)
Fixpoint validateElements (index : nat) (elements : list Element)
  (st : ValidateState) : ValidateState * list Element :=
  match elements with
  | [] => (st, [])
  | element :: rest =>
      let '(st1, element') := validateElement index element st in
      let '(st2, rest') := validateElements (S index) rest st1 in
      (st2, element' :: rest')
  end.

Definition insecureProtocols : list string := [ "http"; "ftp"; "telnet"; "smtp" ].

(** Body of [dfd.dataflows.forEach((dataflow, index) => ...)];
    [elementIds] is the set built from [dfd.elements] before the loop and
    [vs_ids] is [dataflowIds]. *)
Definition validateDataflow (elementIds : gset (option string))
  (index : nat) (dataflow : Dataflow) (st : ValidateState) : ValidateState :=
  let idx := pretty index in
  let name := interp (df_name dataflow) in
  let errors := vs_errors st in
  let errors := pushIf (negb (truthyStr (df_id dataflow)))
      ("Dataflow " +:+ idx +:+ " missing required field: id") errors in
  let errors := pushIf (negb (truthyStr (df_from dataflow)))
      ("Dataflow " +:+ idx +:+ " missing required field: from") errors in
  let errors := pushIf (negb (truthyStr (df_to dataflow)))
      ("Dataflow " +:+ idx +:+ " missing required field: to") errors in
  let errors := pushIf (negb (truthyStr (df_name dataflow)))
      ("Dataflow " +:+ idx +:+ " missing required field: name") errors in
  let errors :=
    pushIf (truthyStr (df_id dataflow)
            && bool_decide (df_id dataflow ∈ vs_ids st))
      ("Duplicate dataflow ID: " +:+ interp (df_id dataflow)) errors in
  let ids := if truthyStr (df_id dataflow)
             then vs_ids st ∪ {[ df_id dataflow ]} else vs_ids st in
  let errors :=
    pushIf (truthyStr (df_from dataflow)
            && negb (bool_decide (df_from dataflow ∈ elementIds)))
      ("Dataflow '" +:+ name +:+ "': source element '"
       +:+ interp (df_from dataflow) +:+ "' not found") errors in
  let errors :=
    pushIf (truthyStr (df_to dataflow)
            && negb (bool_decide (df_to dataflow ∈ elementIds)))
      ("Dataflow '" +:+ name +:+ "': destination element '"
       +:+ interp (df_to dataflow) +:+ "' not found") errors in
  let warnings := vs_warnings st in
  let warnings :=
    pushIf (truthyBool (df_hasSensitiveData dataflow)
            && negb (truthyBool (df_isEncrypted dataflow)))
      ("Dataflow '" +:+ name
       +:+ "' carries sensitive data but is not encrypted") warnings in
  let warnings :=
    pushIf (truthyStr (df_protocol dataflow)
            && includes insecureProtocols
                 (toLowerCase <$> df_protocol dataflow))
      ("Dataflow '" +:+ name +:+ "' uses unencrypted protocol: "
       +:+ interp (df_protocol dataflow)) warnings in
  let warnings :=
    pushIf (negb (truthyStr (df_authentication dataflow))
            && truthyBool (df_isCrossNetwork dataflow))
      ("Dataflow '" +:+ name
       +:+ "' crosses network boundary but lacks authentication") warnings in
  {| vs_errors := errors; vs_warnings := warnings; vs_ids := ids |}.

Fixpoint validateDataflows (elementIds : gset (option string)) (index : nat)
  (dataflows : list Dataflow) (st : ValidateState) : ValidateState :=
  match dataflows with
  | [] => st
  | dataflow :: rest =>
      validateDataflows elementIds (S index) rest
        (validateDataflow elementIds index dataflow st)
  end.

(** [connectedElements] after the loop over the dataflows. *)
Definition connectedElements (dataflows : list Dataflow)
  : gset (option string) :=
  fold_left (fun acc df => acc ∪ {[ df_from df ]} ∪ {[ df_to df ]})
            dataflows ∅.

(** The warnings of the orphaned-element loop. *)
Definition orphanWarnings (connected : gset (option string))
  (elements : list Element) (warnings : list string) : list string :=
  fold_left
    (fun acc element =>
       pushIf (negb (bool_decide (el_id element ∈ connected)))
         ("Element '" +:+ interp (el_name element)
          +:+ "' is not connected to any dataflow") acc)
    elements warnings.

Definition withElements (dfd : Dfd) (elements : option (list Element)) : Dfd :=
  {| dfd_id := dfd_id dfd; dfd_name := dfd_name dfd;
     dfd_description := dfd_description dfd;
     dfd_elements := elements;
     dfd_dataflows := dfd_dataflows dfd;
     dfd_trustBoundaries := dfd_trustBoundaries dfd |}.

(** [validate(dfd)] on a DFD object that is present.  The second component
    is the DFD as the call leaves it: the elements carry the role flags. *)
Definition validateObject (dfd : Dfd) : ValidationResult * Dfd :=
  let errors := [] in
  let warnings := [] in
  let errors := pushIf (negb (truthyStr (dfd_id dfd)))
                  "DFD ID is required" errors in
  let errors := pushIf (negb (truthyStr (dfd_name dfd)))
                  "DFD name is required" errors in
  let errors :=
    pushIf (match dfd_elements dfd with
            | Some elements => (length elements =? 0)%nat
            | None => true
            end)
      "DFD must have at least one element" errors in
  let errors :=
    pushIf (match dfd_dataflows dfd with Some _ => false | None => true end)
      "DFD must have dataflows array" errors in
  let '(st, elements') :=
    match dfd_elements dfd with
    | Some elements =>
        let '(st, elements') :=
          validateElements 0 elements
            {| vs_errors := errors; vs_warnings := warnings; vs_ids := ∅ |} in
        (st, Some elements')
    | None =>
        ({| vs_errors := errors; vs_warnings := warnings; vs_ids := ∅ |},
         None)
    end in
  let st :=
    match dfd_dataflows dfd with
    | Some dataflows =>
        let elementIds : gset (option string) :=
          list_to_set (el_id <$> orEmpty elements') in
        validateDataflows elementIds 0 dataflows
          {| vs_errors := vs_errors st; vs_warnings := vs_warnings st;
             vs_ids := ∅ |}
    | None => st
    end in
  let errors := vs_errors st in
  let warnings := vs_warnings st in
  let warnings :=
    match elements', dfd_dataflows dfd with
    | Some elements, Some dataflows =>
        orphanWarnings (connectedElements dataflows) elements warnings
    | _, _ => warnings
    end in
  let warnings :=
    pushIf (match dfd_trustBoundaries dfd with
            | Some tbs => (length tbs =? 0)%nat
            | None => true
            end)
      "No trust boundaries defined. Consider adding trust boundaries to your DFD"
      warnings in
  ({| valid := (length errors =? 0)%nat;
      errors := errors;
      warnings := Some warnings;
      elementCount := Some (length (orEmpty elements'));
      dataflowCount := Some (length (orEmpty (dfd_dataflows dfd)));
      trustBoundaryCount := Some (length (orEmpty (dfd_trustBoundaries dfd))) |},
   withElements dfd elements').

(** [validate(dfd)]; [None] is a DFD that is [null] or [undefined]. *)
Definition validate (dfd : option Dfd) : ValidationResult * option Dfd :=
  match dfd with
  | None =>
      ({| valid := false;
          errors := [ "DFD object is required" ];
          warnings := None;
          elementCount := None;
          dataflowCount := None;
          trustBoundaryCount := None |}, None)
  | Some dfd =>
      let '(result, dfd') := validateObject dfd in (result, Some dfd')
  end.

(** The DFD as [validate] leaves it. *)
Definition validated (dfd : Dfd) : Dfd := snd (validateObject dfd).

(** ** [validateSecurity] and [getSummary] *)

Record SecurityIssue : Type := {
  si_severity : string;
  si_message : string;
  si_recommendation : string
}.

Record SecurityValidation : Type := {
  hasSecurityIssues : bool;
  issues : list SecurityIssue
}.

(** Body of [dfd.dataflows.forEach(dataflow => ...)] in [validateSecurity]:
    the issues it pushes. *)
Definition dataflowSecurityIssues (dataflow : Dataflow) : list SecurityIssue :=
  (if truthyBool (df_hasSensitiveData dataflow)
      && negb (truthyBool (df_isEncrypted dataflow))
   then [ {| si_severity := "high";
             si_message := "Sensitive data in unencrypted dataflow: "
                           +:+ interp (df_name dataflow);
             si_recommendation :=
               "Enable encryption (TLS 1.2+) for this dataflow" |} ]
   else [])
  ++ (if strictEq (toLowerCase <$> df_protocol dataflow) (Some "http")
      then [ {| si_severity := "high";
                si_message := "Insecure protocol HTTP used in dataflow: "
                              +:+ interp (df_name dataflow);
                si_recommendation := "Use HTTPS instead of HTTP" |} ]
      else []).

(** Body of [dfd.elements.forEach(element => ...)] in [validateSecurity]. *)
Definition elementSecurityIssues (element : Element) : list SecurityIssue :=
  (if truthyBool (el_isDatastore element)
      && negb (truthyStr (el_trustLevel element))
   then [ {| si_severity := "medium";
             si_message := "Datastore '" +:+ interp (el_name element)
                           +:+ "' has no trust level defined";
             si_recommendation :=
               "Define appropriate trust level (trusted/partially-trusted/untrusted)" |} ]
   else [])
  ++ (if truthyBool (el_isExternalEntity element)
         && strictEq (el_trustLevel element) (Some "trusted")
      then [ {| si_severity := "medium";
                si_message := "External entity '" +:+ interp (el_name element)
                              +:+ "' marked as trusted";
                si_recommendation :=
                  "External entities should be marked as untrusted by default" |} ]
      else []).

(** [validateSecurity(dfd)]; reading [dfd.dataflows] of a missing DFD
    throws. *)
Definition validateSecurity (dfd : option Dfd)
  : Completion SecurityValidation :=
  match dfd with
  | None => Throw "Cannot read properties of undefined (reading 'dataflows')"
  | Some dfd =>
      let securityIssues :=
        flat_map dataflowSecurityIssues (orEmpty (dfd_dataflows dfd))
        ++ flat_map elementSecurityIssues (orEmpty (dfd_elements dfd)) in
      Return {| hasSecurityIssues := (0 <? length securityIssues)%nat;
                issues := securityIssues |}
  end.

(** [hay.includes(needle)] on strings. *)
Fixpoint includesStr (needle hay : string) : bool :=
  String.prefix needle hay
  || match hay with
     | EmptyString => false
     | String _ hay' => includesStr needle hay'
     end.

Record Completeness : Type := {
  hasDescription : bool;
  hasTrustBoundaries : bool;
  allElementsConnected : bool;
  allDataflowsSecured : bool
}.

(** The object [getSummary] returns: the properties of the validation
    result, [security] and [completeness]. *)
Record Summary : Type := {
  sm_validation : ValidationResult;
  sm_security : SecurityValidation;
  sm_completeness : Completeness
}.

(** [getSummary(dfd)], with the DFD as the call leaves it.
    [validateSecurity] runs on the object [validate] has annotated. *)
Definition getSummary (dfd : option Dfd) : Completion (Summary * option Dfd) :=
  let '(validation, dfd') := validate dfd in
  match validateSecurity dfd', dfd', warnings validation with
  | Throw message, _, _ => Throw message
  | Return securityValidation, Some d, Some w =>
      Return
        ({| sm_validation := validation;
            sm_security := securityValidation;
            sm_completeness :=
              {| hasDescription := truthyStr (dfd_description d);
                 hasTrustBoundaries :=
                   match dfd_trustBoundaries d with
                   | Some tbs => (0 <? length tbs)%nat
                   | None => false
                   end;
                 allElementsConnected :=
                   (length (List.filter (includesStr "not connected") w)
                    =? 0)%nat;
                 allDataflowsSecured :=
                   (length (issues securityValidation) =? 0)%nat |} |},
         dfd')
  | Return _, _, _ => Throw "Cannot read properties of undefined"
  end.

(** ** What [validate] checks *)

(** The checks of the element loop that do not depend on other elements. *)
Definition elementFieldsOk (e : Element) : Prop :=
  truthyStr (el_id e) = true
  /\ truthyStr (el_name e) = true
  /\ includes validTypes (el_type e) = true.

(** The checks of the dataflow loop on one dataflow, for the ids of the
    elements. *)
Definition dataflowFieldsOk (elementIds : list (option string))
  (d : Dataflow) : Prop :=
  truthyStr (df_id d) = true
  /\ truthyStr (df_from d) = true
  /\ truthyStr (df_to d) = true
  /\ truthyStr (df_name d) = true
  /\ In (df_from d) elementIds
  /\ In (df_to d) elementIds.

(** A DFD without structural errors. *)
Definition wellFormed (dfd : Dfd) : Prop :=
  truthyStr (dfd_id dfd) = true
  /\ truthyStr (dfd_name dfd) = true
  /\ exists elements dataflows,
      dfd_elements dfd = Some elements
      /\ dfd_dataflows dfd = Some dataflows
      /\ elements <> []
      /\ Forall elementFieldsOk elements
      /\ NoDup (map el_id elements)
      /\ Forall (dataflowFieldsOk (map el_id elements)) dataflows
      /\ NoDup (map df_id dataflows).

(** The element is the source or the destination of some dataflow. *)
Definition connected (dataflows : list Dataflow) (e : Element) : Prop :=
  exists d, In d dataflows /\ (df_from d = el_id e \/ df_to d = el_id e).


(** The result has all six properties of the documented shape. *)
Definition fullShape (r : ValidationResult) : Prop :=
  is_Some (warnings r) /\ is_Some (elementCount r)
  /\ is_Some (dataflowCount r) /\ is_Some (trustBoundaryCount r).

End dfdValidator.

(** ** The generator ([threatGenerator.js]) *)

Module threatGenerator.

Import threatLibrary.

(** Sequencing of calls that may throw, with stdpp's [x ← c; k]. *)
#[global] Instance Completion_bind : MBind Completion :=
  fun A B k c =>
    match c with
    | Return a => k a
    | Throw m => Throw m
    end.

(** [matchesElement(element, pattern)]. *)
Definition matchesElement (element : Element) (pattern : Pattern) : bool :=
  match pat_targets pattern with
  | None => true
  | Some targets => includes targets (el_type element)
  end.

(** [matchesDataflow(dataflow, pattern)]. *)
Definition matchesDataflow (dataflow : Dataflow) (pattern : Pattern) : bool :=
  if negb (truthyBool (pat_appliesToDataflow pattern)) then false
  else
    match pat_protocols pattern with
    | Some protocols =>
        if negb (includes protocols (df_protocol dataflow)) then false
        else true
    | None => true
    end.

(** [pattern.severity || 'Medium']. *)
Definition baseSeverity (pattern : Pattern) : Severity :=
  match pat_severity pattern with
  | Some s => s
  | None => Medium
  end.

(** [calculateSeverity(pattern, element)]. *)
Definition calculateSeverity (pattern : Pattern) (element : Element)
  : Severity :=
  let baseSeverity := baseSeverity pattern in
  if strictEq (el_trustLevel element) (Some "untrusted") then Critical
  else if strictEq (el_trustLevel element) (Some "partially-trusted") then
    (if severityEqb baseSeverity Low then Medium else baseSeverity)
  else baseSeverity.

(** [calculateSeverityForDataflow(pattern, dataflow)]. *)
Definition calculateSeverityForDataflow (pattern : Pattern)
  (dataflow : Dataflow) : Severity :=
  let severity := baseSeverity pattern in
  if truthyBool (df_hasSensitiveData dataflow) then Critical
  else if truthyBool (df_isCrossNetwork dataflow) then
    (if severityEqb severity Low then Medium else High)
  else severity.

(** The object literal built for a pattern that matches an element. *)
Definition elementThreat (element : Element) (pattern : Pattern) : Threat :=
  {| th_id := None;
     th_title := pat_title pattern;
     th_description := pat_description pattern;
     th_category := pat_category pattern;
     th_stride := pat_stride pattern;
     th_severity := calculateSeverity pattern element;
     th_likelihood := "Medium";
     th_impact := orStr (pat_impact pattern) "High";
     th_mitigations := orEmpty (pat_mitigations pattern);
     th_references := Some (orEmpty (pat_references pattern));
     th_owaspCategory :=
       orStr (pat_owaspCategory pattern) "A01:2021 – Broken Access Control";
     th_elementId := None; th_elementName := None; th_elementType := None;
     th_dataflowId := None; th_dataflowName := None;
     th_dataflowType := None |}.

(** The object literal built for a pattern that matches a dataflow. *)
Definition dataflowThreat (dataflow : Dataflow) (pattern : Pattern) : Threat :=
  {| th_id := None;
     th_title := pat_title pattern;
     th_description := pat_description pattern;
     th_category := pat_category pattern;
     th_stride := pat_stride pattern;
     th_severity := calculateSeverityForDataflow pattern dataflow;
     th_likelihood := "High";
     th_impact := orStr (pat_impact pattern) "High";
     th_mitigations := orEmpty (pat_mitigations pattern);
     th_references := Some (orEmpty (pat_references pattern));
     th_owaspCategory :=
       orStr (pat_owaspCategory pattern) "A02:2021 – Cryptographic Failures";
     th_elementId := None; th_elementName := None; th_elementType := None;
     th_dataflowId := None; th_dataflowName := None;
     th_dataflowType := None |}.

(** An object literal of the role-based and characteristic-based findings;
    none of them has a [references] key. *)
Definition fixedThreat (title description category : string)
  (stride : list string) (severity : Severity)
  (likelihood impact : string) (mitigations : list string)
  (owaspCategory : string) : Threat :=
  {| th_id := None;
     th_title := title;
     th_description := description;
     th_category := category;
     th_stride := Some stride;
     th_severity := severity;
     th_likelihood := likelihood;
     th_impact := impact;
     th_mitigations := mitigations;
     th_references := None;
     th_owaspCategory := owaspCategory;
     th_elementId := None; th_elementName := None; th_elementType := None;
     th_dataflowId := None; th_dataflowName := None;
     th_dataflowType := None |}.

Definition maliciousExternalActor : Threat :=
  fixedThreat "Malicious External Actor"
    "External entity may be compromised or act maliciously"
    "Actor Threat" [ "Spoofing"; "Repudiation" ] High "Medium" "High"
    [ "Implement authentication mechanisms";
      "Use digital signatures for verification";
      "Monitor for anomalous behavior";
      "Implement audit logging" ]
    "A07:2021 – Identification and Authentication Failures".

Definition unauthorizedDataAccess : Threat :=
  fixedThreat "Unauthorized Data Access"
    "Sensitive data in datastore may be accessed without authorization"
    "Information Disclosure" [ "Information Disclosure"; "Tampering" ]
    Critical "High" "Critical"
    [ "Implement encryption at rest";
      "Use access control lists";
      "Implement database auditing";
      "Use data masking for sensitive fields";
      "Regular backup and recovery testing" ]
    "A01:2021 – Broken Access Control".

Definition privilegeEscalation : Threat :=
  fixedThreat "Privilege Escalation"
    "Process may be exploited to escalate privileges"
    "Authorization Bypass" [ "Elevation of Privilege" ] High "Medium"
    "Critical"
    [ "Run with least privilege principle";
      "Input validation and sanitization";
      "Use security frameworks";
      "Implement RBAC";
      "Regular security testing" ]
    "A04:2021 – Insecure Design".

Definition manInTheMiddle : Threat :=
  fixedThreat "Man-in-the-Middle Attack"
    "Unencrypted HTTP dataflow is vulnerable to MITM attacks"
    "Network Attack" [ "Tampering"; "Information Disclosure" ] Critical
    "High" "Critical"
    [ "Use HTTPS/TLS encryption";
      "Implement certificate pinning";
      "Use HSTS headers";
      "Implement perfect forward secrecy";
      "Regular security updates" ]
    "A02:2021 – Cryptographic Failures".

Definition dataExposure : Threat :=
  fixedThreat "Data Exposure During Transit"
    "Sensitive data may be exposed if not properly protected in transit"
    "Data Protection" [ "Information Disclosure" ] Critical "High" "Critical"
    [ "Encrypt data in transit (TLS 1.2+)";
      "Use strong encryption algorithms";
      "Implement key management";
      "Data classification policy";
      "Regular encryption audits" ]
    "A02:2021 – Cryptographic Failures".

(** The findings pushed by [patterns.forEach] in [analyzeElement]. *)
Definition elementPatternThreats (element : Element) : list Threat :=
  map (elementThreat element)
      (List.filter (matchesElement element)
         (getThreatPatterns library (el_type element))).

(** The findings pushed by the three role tests of [analyzeElement]. *)
Definition elementRoleThreats (element : Element) : list Threat :=
  (if truthyBool (el_isExternalEntity element)
   then [ maliciousExternalActor ] else [])
  ++ (if truthyBool (el_isDatastore element)
      then [ unauthorizedDataAccess ] else [])
  ++ (if truthyBool (el_isProcess element)
      then [ privilegeEscalation ] else []).

(** [analyzeElement(element, dfd)]; [dfd] is not read. *)
Definition analyzeElement (element : Element) : list Threat :=
  elementPatternThreats element ++ elementRoleThreats element.

(** The findings pushed by [dataflowPatterns.forEach] in [analyzeDataflow]. *)
Definition dataflowPatternThreats (dataflow : Dataflow) : list Threat :=
  map (dataflowThreat dataflow)
      (List.filter (matchesDataflow dataflow)
         (getThreatPatterns library (Some "dataflow"))).

(** The findings pushed by the two characteristic tests of
    [analyzeDataflow]. *)
Definition dataflowFixedThreats (dataflow : Dataflow) : list Threat :=
  (if truthyStr (df_protocol dataflow)
      && strictEq (toLowerCase <$> df_protocol dataflow) (Some "http")
   then [ manInTheMiddle ] else [])
  ++ (if truthyBool (df_hasSensitiveData dataflow)
      then [ dataExposure ] else []).

(** [analyzeDataflow(dataflow, dfd)]; [dfd] is not read. *)
Definition analyzeDataflow (dataflow : Dataflow) : list Threat :=
  dataflowPatternThreats dataflow ++ dataflowFixedThreats dataflow.

(** ** [generateThreatModel] *)

(** [threat.id = ...; threat.elementId = ...; threat.elementName = ...;
    threat.elementType = ...]. *)
Definition stampElement (id : string) (element : Element) (t : Threat)
  : Threat :=
  {| th_id := Some id;
     th_title := th_title t; th_description := th_description t;
     th_category := th_category t; th_stride := th_stride t;
     th_severity := th_severity t; th_likelihood := th_likelihood t;
     th_impact := th_impact t; th_mitigations := th_mitigations t;
     th_references := th_references t;
     th_owaspCategory := th_owaspCategory t;
     th_elementId := el_id element;
     th_elementName := el_name element;
     th_elementType := el_type element;
     th_dataflowId := th_dataflowId t;
     th_dataflowName := th_dataflowName t;
     th_dataflowType := th_dataflowType t |}.

(** [threat.id = ...; threat.dataflowId = ...; threat.dataflowName = ...;
    threat.dataflowType = ...]. *)
Definition stampDataflow (id : string) (dataflow : Dataflow) (t : Threat)
  : Threat :=
  {| th_id := Some id;
     th_title := th_title t; th_description := th_description t;
     th_category := th_category t; th_stride := th_stride t;
     th_severity := th_severity t; th_likelihood := th_likelihood t;
     th_impact := th_impact t; th_mitigations := th_mitigations t;
     th_references := th_references t;
     th_owaspCategory := th_owaspCategory t;
     th_elementId := th_elementId t;
     th_elementName := th_elementName t;
     th_elementType := th_elementType t;
     th_dataflowId := df_id dataflow;
     th_dataflowName := df_name dataflow;
     th_dataflowType := df_type dataflow |}.

(** [threat.mitigations = ...]. *)
Definition withMitigations (t : Threat) (mitigations : list string) : Threat :=
  {| th_id := th_id t;
     th_title := th_title t; th_description := th_description t;
     th_category := th_category t; th_stride := th_stride t;
     th_severity := th_severity t; th_likelihood := th_likelihood t;
     th_impact := th_impact t; th_mitigations := mitigations;
     th_references := th_references t;
     th_owaspCategory := th_owaspCategory t;
     th_elementId := th_elementId t;
     th_elementName := th_elementName t;
     th_elementType := th_elementType t;
     th_dataflowId := th_dataflowId t;
     th_dataflowName := th_dataflowName t;
     th_dataflowType := th_dataflowType t |}.

(** [riskSummary[severity.toLowerCase()]++]. *)
Definition bump (severity : Severity) (r : RiskSummary) : RiskSummary :=
  match severity with
  | Critical => {| critical := S (critical r); high := high r;
                   medium := medium r; low := low r |}
  | High => {| critical := critical r; high := S (high r);
               medium := medium r; low := low r |}
  | Medium => {| critical := critical r; high := high r;
                 medium := S (medium r); low := low r |}
  | Low => {| critical := critical r; high := high r;
              medium := medium r; low := S (low r) |}
  end.

(** The variables the two loops of [generateThreatModel] update: the
    [threats] array, [riskSummary], and the number of [uuidv4()] calls made
    so far.  The maps [elementThreats] and [dataflowThreats] are written and
    never read; they are left out. *)
Record GenState : Type := {
  gs_threats : list Threat;
  gs_riskSummary : RiskSummary;
  gs_calls : nat
}.

(** Body of the inner [forEach(threat => ...)], for a stamping function. *)
Definition pushThreat (env : Env) (stamp : string -> Threat -> Threat)
  (st : GenState) (threat : Threat) : GenState :=
  let threat' := stamp (uuidv4 env (gs_calls st)) threat in
  {| gs_threats := gs_threats st ++ [ threat' ];
     gs_riskSummary := bump (th_severity threat') (gs_riskSummary st);
     gs_calls := S (gs_calls st) |}.

(** Body of [dfd.elements.forEach(element => ...)]. *)
Definition elementStep (env : Env) (st : GenState) (element : Element)
  : GenState :=
  fold_left (pushThreat env (fun id => stampElement id element))
            (analyzeElement element) st.

(** Body of [dfd.dataflows.forEach(dataflow => ...)]. *)
Definition dataflowStep (env : Env) (st : GenState) (dataflow : Dataflow)
  : GenState :=
  fold_left (pushThreat env (fun id => stampDataflow id dataflow))
            (analyzeDataflow dataflow) st.

(** The [customRules] pass over [threats]. *)
Definition applyCustomRules (options : Options) (threats : list Threat)
  : list Threat :=
  match customRules options with
  | Some rules =>
      map (fun threat =>
             match th_id threat ≫= (fun id => rules !! id) with
             | Some customMitigations =>
                 withMitigations threat
                   (th_mitigations threat ++ customMitigations)
             | None => threat
             end) threats
  | None => threats
  end.

(** The [severityOrder] object literal of the comparator. *)
Definition severityOrder (s : Severity) : Z :=
  match s with
  | Critical => 0
  | High => 1
  | Medium => 2
  | Low => 3
  end.

(** The comparator passed to [threats.sort]. *)
Definition compareThreats (a b : Threat) : Z :=
  (severityOrder (th_severity a) - severityOrder (th_severity b))%Z.

(** [Array.prototype.sort] is a stable sort, so its result is determined by
    the comparator; it is written as an insertion sort.  [insertSorted]
    puts [x], which precedes all of [l] in the array, after the elements
    that compare strictly below it. *)
Fixpoint insertSorted {A : Type} (cmp : A -> A -> Z) (x : A) (l : list A)
  : list A :=
  match l with
  | [] => [ x ]
  | y :: l' =>
      if (0 <? cmp x y)%Z then y :: insertSorted cmp x l' else x :: l
  end.

Definition sort {A : Type} (cmp : A -> A -> Z) (l : list A) : list A :=
  fold_right (insertSorted cmp) [] l.

Definition initialState : GenState :=
  {| gs_threats := [];
     gs_riskSummary := {| critical := 0; high := 0; medium := 0; low := 0 |};
     gs_calls := 0 |}.

(** [generateThreatModel(dfd, options)].  [forEach] on a missing array
    throws. *)
Definition generateThreatModel (env : Env) (dfd : Dfd) (options : Options)
  : Completion ThreatModel :=
  st1 ← match dfd_elements dfd with
         | Some elements =>
             Return (fold_left (elementStep env) elements initialState)
         | None =>
             Throw "Cannot read properties of undefined (reading 'forEach')"
         end;
  st2 ← match dfd_dataflows dfd with
         | Some dataflows => Return (fold_left (dataflowStep env) dataflows st1)
         | None =>
             Throw "Cannot read properties of undefined (reading 'forEach')"
         end;
  let threats := applyCustomRules options (gs_threats st2) in
  let threats := sort compareThreats threats in
  Return {| tm_id := uuidv4 env (gs_calls st2);
            tm_dfdId := dfd_id dfd;
            tm_dfdName := dfd_name dfd;
            tm_threats := threats;
            tm_totalThreats := length threats;
            tm_riskSummary := gs_riskSummary st2;
            tm_createdAt := now env;
            tm_owasp_mapped := true |}.

(** ** [breakdownBySTRIDE] *)

(** The [breakdown] object literal. *)
Definition emptyBreakdown : list (string * list Threat) :=
  [ ("Spoofing", []);
    ("Tampering", []);
    ("Repudiation", []);
    ("Information Disclosure", []);
    ("Denial of Service", []);
    ("Elevation of Privilege", []) ].

(** [breakdown[category].push(threat)] for an own key [category]. *)
Fixpoint pushTo (category : string) (threat : Threat)
  (breakdown : list (string * list Threat)) : list (string * list Threat) :=
  match breakdown with
  | [] => []
  | (k, l) :: rest =>
      if String.eqb k category then (k, l ++ [ threat ]) :: rest
      else (k, l) :: pushTo category threat rest
  end.

(** Body of [threat.stride.forEach(category => ...)].  An own key holds an
    array, which is truthy.  A name inherited from [Object.prototype] holds
    a truthy value without a [push] method, and the call throws. *)
Definition addToCategory (threat : Threat)
  (breakdown : list (string * list Threat)) (category : string)
  : Completion (list (string * list Threat)) :=
  match lookupKey category breakdown with
  | Some _ => Return (pushTo category threat breakdown)
  | None =>
      if includes objectPrototypeKeys (Some category)
      then Throw "breakdown[category].push is not a function"
      else Return breakdown
  end.

(** [arr.forEach(f)] for a body that may throw. *)
Fixpoint forEachM {A S : Type} (f : S -> A -> Completion S) (arr : list A)
  (s : S) : Completion S :=
  match arr with
  | [] => Return s
  | a :: arr' => s' ← f s a; forEachM f arr' s'
  end.

(** Body of [threats.forEach(threat => ...)]. *)
Definition addThreat (breakdown : list (string * list Threat))
  (threat : Threat) : Completion (list (string * list Threat)) :=
  match th_stride threat with
  | Some stride => forEachM (addToCategory threat) stride breakdown
  | None => Return breakdown
  end.

(** [breakdownBySTRIDE(threats)]. *)
Definition breakdownBySTRIDE (threats : list Threat)
  : Completion (list (string * list Threat)) :=
  breakdown ← forEachM addThreat threats emptyBreakdown;
  Return (List.filter (fun entry => (0 <? length (snd entry))%nat) breakdown).

(** ** Discovery order *)

(** The findings in the order the two loops discover them: for each element
    in input order the findings of [analyzeElement], then for each dataflow
    in input order the findings of [analyzeDataflow]; each one still waits
    for its identifier. *)
Definition discoveredThreats (elements : list Element)
  (dataflows : list Dataflow) : list (string -> Threat) :=
  flat_map (fun element =>
              map (fun t id => stampElement id element t)
                  (analyzeElement element)) elements
  ++ flat_map (fun dataflow =>
                 map (fun t id => stampDataflow id dataflow t)
                     (analyzeDataflow dataflow)) dataflows.

(** The k-th finding gets the result of the (n+k)-th call of [uuidv4]. *)
Fixpoint assignIds (env : Env) (n : nat) (fs : list (string -> Threat))
  : list Threat :=
  match fs with
  | [] => []
  | f :: fs' => f (uuidv4 env n) :: assignIds env (S n) fs'
  end.

(** The [threats] array just before [threats.sort]. *)
Definition discoveryOrder (env : Env) (options : Options)
  (elements : list Element) (dataflows : list Dataflow) : list Threat :=
  applyCustomRules options
    (assignIds env 0 (discoveredThreats elements dataflows)).

(** Tally of the severities of a list of findings. *)
Definition tally (threats : list Threat) (r : RiskSummary) : RiskSummary :=
  fold_left (fun r t => bump (th_severity t) r) threats r.

(** The keys of the [breakdown] object literal. *)
Definition strideCategories : list string := map fst emptyBreakdown.

(** The loop invariant of [generateThreatModel]: the state reached after
    discovering the findings [fs]. *)
Definition Collected (env : Env) (st : GenState)
  (fs : list (string -> Threat)) : Prop :=
  gs_threats st = assignIds env 0 fs
  /\ gs_calls st = length fs
  /\ gs_riskSummary st = tally (gs_threats st) (gs_riskSummary initialState).

(** [critical + high + medium + low]. *)
Definition total (r : RiskSummary) : nat :=
  critical r + high r + medium r + low r.

(** [later] has the keys of [earlier], and each of its arrays extends the
    array [earlier] has under that key. *)
Definition Grows (earlier later : list (string * list Threat)) : Prop :=
  map fst later = map fst earlier
  /\ forall k l0,
      lookupKey k earlier = Some l0 ->
      exists l, lookupKey k later = Some l /\ incl l0 l.

(** [category] is no property name of [Object.prototype]. *)
Definition plainKey (category : string) : Prop :=
  includes objectPrototypeKeys (Some category) = false.

(** Every STRIDE tag of every finding is a plain key. *)
Definition plainTags (threats : list Threat) : Prop :=
  forall t tags c,
    In t threats -> th_stride t = Some tags -> In c tags -> plainKey c.

(** Order of two array elements by a numeric key. *)
Definition keyLe {A : Type} (key : A -> Z) (a b : A) : Prop :=
  (key a <= key b)%Z.

Definition hasSeverity (s : Severity) (t : Threat) : bool :=
  severityEqb (th_severity t) s.

(** ** [generateReport] and [generateRecommendations] *)

Record ExecutiveSummary : Type := {
  total_threats : nat;
  critical_threats : nat;
  high_threats : nat;
  medium_threats : nat;
  low_threats : nat;
  overall_risk : Severity
}.

Record ElementAnalysis : Type := {
  ea_element_id : option string;
  ea_element_name : option string;
  ea_element_type : option string;
  ea_threat_count : nat;
  ea_threats : list Threat
}.

Record DataflowAnalysis : Type := {
  da_dataflow_id : option string;
  da_dataflow_name : option string;
  da_from : option string;
  da_to : option string;
  da_threat_count : nat;
  da_threats : list Threat
}.

Record Recommendation : Type := {
  rec_priority : string;
  rec_action : string;
  rec_details : string;
  rec_timeline : string
}.

Record Report : Type := {
  rp_title : string;
  rp_description : option string;
  rp_generatedAt : string;
  rp_executive_summary : ExecutiveSummary;
  rp_elements_analysis : list ElementAnalysis;
  rp_dataflow_analysis : list DataflowAnalysis;
  rp_recommendations : list Recommendation;
  rp_stride_breakdown : list (string * list Threat)
}.

(** The two recommendations pushed in every call. *)
Definition standingRecommendations : list Recommendation :=
  [ {| rec_priority := "Medium";
       rec_action := "Implement security best practices";
       rec_details :=
         "Follow OWASP top 10 principles and secure coding standards";
       rec_timeline := "Ongoing" |};
    {| rec_priority := "Low";
       rec_action := "Conduct security awareness training";
       rec_details := "Train team on threat modeling and secure development";
       rec_timeline := "Quarterly" |} ].

(** [generateRecommendations(threatModel, dfd)]; [dfd] is not read. *)
Definition generateRecommendations (threatModel : ThreatModel)
  : list Recommendation :=
  let criticalThreats :=
    List.filter (hasSeverity Critical) (tm_threats threatModel) in
  let highThreats := List.filter (hasSeverity High) (tm_threats threatModel) in
  (if (0 <? length criticalThreats)%nat
   then [ {| rec_priority := "Critical";
             rec_action := "Address " +:+ pretty (length criticalThreats)
                           +:+ " critical threats immediately";
             rec_details :=
               "Critical threats pose immediate risk to system security and data integrity";
             rec_timeline := "Immediate (within 24-48 hours)" |} ]
   else [])
  ++ (if (0 <? length highThreats)%nat
      then [ {| rec_priority := "High";
                rec_action := "Implement mitigations for "
                              +:+ pretty (length highThreats)
                              +:+ " high-severity threats";
                rec_details :=
                  "High threats should be addressed in the next development cycle";
                rec_timeline := "Within 1-2 sprints" |} ]
      else [])
  ++ standingRecommendations.

(** [threatModel.threats.filter(t => t.elementId === element.id)]. *)
Definition threatsOfElement (threats : list Threat) (element : Element)
  : list Threat :=
  List.filter (fun t => strictEq (th_elementId t) (el_id element)) threats.

(** [threatModel.threats.filter(t => t.dataflowId === dataflow.id)]. *)
Definition threatsOfDataflow (threats : list Threat) (dataflow : Dataflow)
  : list Threat :=
  List.filter (fun t => strictEq (th_dataflowId t) (df_id dataflow)) threats.

(** The entries pushed by [dfd.elements.forEach] in [generateReport]. *)
Definition elementsAnalysis (threats : list Threat) (elements : list Element)
  : list ElementAnalysis :=
  flat_map (fun element =>
              let elementThreats := threatsOfElement threats element in
              if (0 <? length elementThreats)%nat
              then [ {| ea_element_id := el_id element;
                        ea_element_name := el_name element;
                        ea_element_type := el_type element;
                        ea_threat_count := length elementThreats;
                        ea_threats := elementThreats |} ]
              else []) elements.

(** The entries pushed by [dfd.dataflows.forEach] in [generateReport]. *)
Definition dataflowAnalysis (threats : list Threat)
  (dataflows : list Dataflow) : list DataflowAnalysis :=
  flat_map (fun dataflow =>
              let dataflowThreats := threatsOfDataflow threats dataflow in
              if (0 <? length dataflowThreats)%nat
              then [ {| da_dataflow_id := df_id dataflow;
                        da_dataflow_name := df_name dataflow;
                        da_from := df_from dataflow;
                        da_to := df_to dataflow;
                        da_threat_count := length dataflowThreats;
                        da_threats := dataflowThreats |} ]
              else []) dataflows.

(** The [executive_summary] object literal. *)
Definition executiveSummary (threatModel : ThreatModel) : ExecutiveSummary :=
  let r := tm_riskSummary threatModel in
  {| total_threats := tm_totalThreats threatModel;
     critical_threats := critical r;
     high_threats := high r;
     medium_threats := medium r;
     low_threats := low r;
     overall_risk :=
       if (0 <? critical r)%nat then Critical
       else if (0 <? high r)%nat then High
       else Medium |}.

(** [generateReport(threatModel, dfd)].  The object literal calls
    [breakdownBySTRIDE] first; the two [forEach] calls follow. *)
Definition generateReport (env : Env) (threatModel : ThreatModel) (dfd : Dfd)
  : Completion Report :=
  stride ← breakdownBySTRIDE (tm_threats threatModel);
  elements ← match dfd_elements dfd with
             | Some elements => Return elements
             | None =>
                 Throw "Cannot read properties of undefined (reading 'forEach')"
             end;
  dataflows ← match dfd_dataflows dfd with
              | Some dataflows => Return dataflows
              | None =>
                  Throw "Cannot read properties of undefined (reading 'forEach')"
              end;
  Return {| rp_title := "Threat Model Report: " +:+ interp (dfd_name dfd);
            rp_description := dfd_description dfd;
            rp_generatedAt := now env;
            rp_executive_summary := executiveSummary threatModel;
            rp_elements_analysis :=
              elementsAnalysis (tm_threats threatModel) elements;
            rp_dataflow_analysis :=
              dataflowAnalysis (tm_threats threatModel) dataflows;
            rp_recommendations := generateRecommendations threatModel;
            rp_stride_breakdown := stride |}.

(** The number of findings of a severity. *)
Definition countSeverity (s : Severity) (threats : list Threat) : nat :=
  length (List.filter (hasSeverity s) threats).

(** The rule that [customRules] holds for a finding, or no mitigation. *)
Definition customMitigations (options : Options) (t : Threat) : list string :=
  match customRules options with
  | Some rules =>
      match th_id t ≫= (fun id => rules !! id) with
      | Some m => m
      | None => []
      end
  | None => []
  end.

(** A finding as the [customRules] pass leaves it. *)
Definition customised (options : Options) (t : Threat) : Threat :=
  withMitigations t (th_mitigations t ++ customMitigations options t).

(** [t] is a finding that [analyzeElement] returned for one of the
    elements, as the first loop stamps it with the result of a [uuidv4()]
    call and the [customRules] pass leaves it. *)
Definition elementFinding (env : Env) (options : Options)
  (elements : list Element) (t : Threat) : Prop :=
  exists element t0 n,
    In element elements
    /\ In t0 (analyzeElement element)
    /\ t = customised options (stampElement (uuidv4 env n) element t0).

(** The same for [analyzeDataflow] and the second loop. *)
Definition dataflowFinding (env : Env) (options : Options)
  (dataflows : list Dataflow) (t : Threat) : Prop :=
  exists dataflow t0 n,
    In dataflow dataflows
    /\ In t0 (analyzeDataflow dataflow)
    /\ t = customised options (stampDataflow (uuidv4 env n) dataflow t0).

End threatGenerator.

(** ** Normalisation of recognised diagrams ([diagram-recognizer.js]) *)

Module diagramRecognizer.

(** The parsed answer of the recognition service, typed as the prompt
    describes it; [confidence] is a number that is only passed on. *)
Record RawElement : Type := {
  re_id : option string;
  re_name : option string;
  re_type : option string;
  re_description : option string;
  re_confidence : option Z
}.

Record RawDataflow : Type := {
  rf_id : option string;
  rf_from : option string;
  rf_to : option string;
  rf_label : option string;
  rf_data : option string;
  rf_confidence : option Z
}.

Record RawDfd : Type := {
  rd_name : option string;
  rd_description : option string;
  rd_type : option string;
  rd_elements : option (list RawElement);
  rd_dataflows : option (list RawDataflow);
  rd_trustBoundaries : option (list TrustBoundary)
}.

(** What [normalizeElementType] returns: a type name, or the value that
    [Object.prototype] holds under the looked-up key. *)
Inductive TypeValue : Type :=
| TypeName (name : string)
| Inherited (key : string).

Record NormElement : Type := {
  ne_id : string;
  ne_name : string;
  ne_type : TypeValue;
  ne_description : string;
  ne_confidence : option Z
}.

Record NormDataflow : Type := {
  nf_id : string;
  nf_from : option string;
  nf_to : option string;
  nf_label : string;
  nf_data : string;
  nf_confidence : option Z
}.

Record NormDfd : Type := {
  nd_name : string;
  nd_description : string;
  nd_type : string;
  nd_elements : list NormElement;
  nd_dataflows : list NormDataflow;
  nd_trustBoundaries : list TrustBoundary
}.

(** The [typeMap] object literal of [normalizeElementType]. *)
Definition typeMap : list (string * string) :=
  [ ("process", "process");
    ("proc", "process");
    ("function", "process");
    ("datastore", "datastore");
    ("data store", "datastore");
    ("database", "datastore");
    ("db", "datastore");
    ("actor", "actor");
    ("user", "actor");
    ("person", "actor");
    ("external_system", "external_system");
    ("external system", "external_system");
    ("system", "external_system");
    ("service", "external_system") ].

(** [normalizeElementType(type)]: [typeMap[type?.toLowerCase()] ||
    'process'].  A missing type is the key "undefined"; a key inherited
    from [Object.prototype] yields a truthy value, which is returned. *)
Definition normalizeElementType (type : option string) : TypeValue :=
  let key := interp (toLowerCase <$> type) in
  match lookupKey key typeMap with
  | Some name => TypeName name
  | None =>
      if includes objectPrototypeKeys (Some key) then Inherited key
      else TypeName "process"
  end.

(** [s || uuidv4()], with the number of [uuidv4()] calls made so far. *)
Definition orUuid (env : Env) (s : option string) (calls : nat)
  : string * nat :=
  if truthyStr s then (interp s, calls) else (uuidv4 env calls, S calls).

(** Body of [dfdData.elements.map(el => ...)]. *)
Definition normalizeElement (env : Env) (el : RawElement) (calls : nat)
  : NormElement * nat :=
  let '(id, calls') := orUuid env (re_id el) calls in
  ({| ne_id := id;
      ne_name := orStr (re_name el) "Unnamed Element";
      ne_type := normalizeElementType (re_type el);
      ne_description := orStr (re_description el) "";
      ne_confidence := re_confidence el |}, calls').

(** Body of [dfdData.dataflows.map(flow => ...)]. *)
Definition normalizeDataflow (env : Env) (flow : RawDataflow) (calls : nat)
  : NormDataflow * nat :=
  let '(id, calls') := orUuid env (rf_id flow) calls in
  ({| nf_id := id;
      nf_from := rf_from flow;
      nf_to := rf_to flow;
      nf_label := orStr (rf_label flow) (orStr (rf_data flow) "Data");
      nf_data := orStr (rf_data flow) "Unknown Data Type";
      nf_confidence := rf_confidence flow |}, calls').

(** [arr.map(f)] for a body that counts its [uuidv4()] calls. *)
Fixpoint mapCounting {A B : Type} (f : A -> nat -> B * nat) (arr : list A)
  (calls : nat) : list B * nat :=
  match arr with
  | [] => ([], calls)
  | a :: arr' =>
      let '(b, calls1) := f a calls in
      let '(bs, calls2) := mapCounting f arr' calls1 in
      (b :: bs, calls2)
  end.

(** [validateAndNormalizeDFD(dfdData)] for a parsed object. *)
Definition validateAndNormalizeDFD (env : Env) (dfdData : RawDfd) : NormDfd :=
  let '(elements, calls) :=
    mapCounting (normalizeElement env) (orEmpty (rd_elements dfdData)) 0 in
  let '(dataflows, _) :=
    mapCounting (normalizeDataflow env) (orEmpty (rd_dataflows dfdData))
                calls in
  {| nd_name := orStr (rd_name dfdData) "Imported Diagram";
     nd_description := orStr (rd_description dfdData) "";
     nd_type := orStr (rd_type dfdData) "dfd";
     nd_elements := elements;
     nd_dataflows := dataflows;
     nd_trustBoundaries := orEmpty (rd_trustBoundaries dfdData) |}.

(** [`${value}`] for a value of [normalizeElementType]: the prototype
    object, or a built-in function. *)
Definition typeString (v : TypeValue) : string :=
  match v with
  | TypeName name => name
  | Inherited key =>
      if String.eqb key "__proto__" then "[object Object]"
      else if String.eqb key "constructor"
           then "function Object() { [native code] }"
           else "function " +:+ key +:+ "() { [native code] }"
  end.

(** The normalised object as [dfdValidator.validate] reads it in the import
    routes.  It has no [id]; its dataflows have no [name], [protocol] or
    flags; its elements have no [trustLevel].  A type that is no string is
    truthy, equal to no type name, and interpolated as [typeString]. *)
Definition asDfd (d : NormDfd) : Dfd :=
  {| dfd_id := None;
     dfd_name := Some (nd_name d);
     dfd_description := Some (nd_description d);
     dfd_elements :=
       Some (map (fun e =>
                    {| el_id := Some (ne_id e);
                       el_name := Some (ne_name e);
                       el_type := Some (typeString (ne_type e));
                       el_description := Some (ne_description e);
                       el_trustLevel := None;
                       el_isExternalEntity := None;
                       el_isDatastore := None;
                       el_isProcess := None |}) (nd_elements d));
     dfd_dataflows :=
       Some (map (fun f =>
                    {| df_id := Some (nf_id f);
                       df_name := None;
                       df_from := nf_from f;
                       df_to := nf_to f;
                       df_protocol := None;
                       df_hasSensitiveData := None;
                       df_isCrossNetwork := None;
                       df_isEncrypted := None;
                       df_authentication := None;
                       df_type := None |}) (nd_dataflows d));
     dfd_trustBoundaries := Some (nd_trustBoundaries d) |}.

(** The type names [normalizeElementType] maps to. *)
Definition standardTypes : list string :=
  [ "process"; "datastore"; "actor"; "external_system" ].

End diagramRecognizer.

(** ** Sample inputs *)

Module Samples.

(** [options = {}]. *)
Definition noOptions : Options := {| customRules := None |}.

Definition sampleEnv : Env :=
  {| uuidv4 := fun n => "uuid-" +:+ pretty n;
     now := "2024-01-01T00:00:00.000Z" |}.

(** [{ id, name, type, trustLevel }]. *)
Definition mkElement (id name type : string) (trustLevel : option string)
  : Element :=
  {| el_id := Some id; el_name := Some name; el_type := Some type;
     el_description := None; el_trustLevel := trustLevel;
     el_isExternalEntity := None; el_isDatastore := None;
     el_isProcess := None |}.

Definition customer : Element :=
  mkElement "e1" "Customer" "actor" (Some "untrusted").

Definition webServer : Element := mkElement "e2" "Web Server" "process" None.

(** A pattern with the baseline [Low], as a library entry is written. *)
Definition auditGap : Pattern :=
  {| pat_id := "ACT90";
     pat_title := "Missing Audit Trail";
     pat_description := "Actions of the actor may not be traceable";
     pat_category := "Logging";
     pat_stride := Some [ "Repudiation" ];
     pat_severity := Some Low;
     pat_impact := Some "Low";
     pat_targets := Some [ "actor" ];
     pat_appliesToDataflow := None;
     pat_protocols := None;
     pat_mitigations := Some [ "Keep an audit log" ];
     pat_references := None;
     pat_owaspCategory := None |}.

Definition partner : Element :=
  mkElement "e3" "Partner" "actor" (Some "partially-trusted").

(** [{ id: 'df1', name: 'Login', from: 'e1', to: 'e2', protocol: 'http',
       hasSensitiveData: true }]. *)
Definition login : Dataflow :=
  {| df_id := Some "df1"; df_name := Some "Login";
     df_from := Some "e1"; df_to := Some "e2";
     df_protocol := Some "http";
     df_hasSensitiveData := Some true; df_isCrossNetwork := None;
     df_isEncrypted := None; df_authentication := None; df_type := None |}.

(** As [login], with [isEncrypted: false] written out. *)
Definition loginPlain : Dataflow :=
  {| df_id := Some "df1"; df_name := Some "Login";
     df_from := Some "e1"; df_to := Some "e2";
     df_protocol := Some "http";
     df_hasSensitiveData := Some true; df_isCrossNetwork := None;
     df_isEncrypted := Some false; df_authentication := None;
     df_type := None |}.

(** [{ id: 'df2', name: 'Feed', from: 'e1', to: 'e2', protocol: 'HTTP',
       hasSensitiveData: false, isCrossNetwork: true }]. *)
Definition feed : Dataflow :=
  {| df_id := Some "df2"; df_name := Some "Feed";
     df_from := Some "e1"; df_to := Some "e2";
     df_protocol := Some "HTTP";
     df_hasSensitiveData := Some false; df_isCrossNetwork := Some true;
     df_isEncrypted := None; df_authentication := None; df_type := None |}.

(** One untrusted actor, one process, one sensitive HTTP dataflow between
    them. *)
Definition scenario : Dfd :=
  {| dfd_id := Some "dfd1"; dfd_name := Some "Shop";
     dfd_description := None;
     dfd_elements := Some [ customer; webServer ];
     dfd_dataflows := Some [ login ];
     dfd_trustBoundaries := None |}.

Definition scenarioPlain : Dfd :=
  {| dfd_id := Some "dfd1"; dfd_name := Some "Shop";
     dfd_description := None;
     dfd_elements := Some [ customer; webServer ];
     dfd_dataflows := Some [ loginPlain ];
     dfd_trustBoundaries := None |}.

(** The two elements with the dataflow [feed] between them. *)
Definition feedScenario : Dfd :=
  {| dfd_id := Some "dfd2"; dfd_name := Some "Feed reader";
     dfd_description := None;
     dfd_elements := Some [ customer; webServer ];
     dfd_dataflows := Some [ feed ];
     dfd_trustBoundaries := None |}.

Definition emptyModel : ThreatModel :=
  {| tm_id := ""; tm_dfdId := None; tm_dfdName := None; tm_threats := [];
     tm_totalThreats := 0;
     tm_riskSummary := {| critical := 0; high := 0; medium := 0; low := 0 |};
     tm_createdAt := ""; tm_owasp_mapped := true |}.

(** The value a call returned, for reading its fields. *)
Definition returned (c : Completion ThreatModel) : ThreatModel :=
  match c with
  | Return tm => tm
  | Throw _ => emptyModel
  end.

Definition scenarioModel : ThreatModel :=
  returned (threatGenerator.generateThreatModel sampleEnv
              (dfdValidator.validated scenario) noOptions).

Definition scenarioPlainModel : ThreatModel :=
  returned (threatGenerator.generateThreatModel sampleEnv
              (dfdValidator.validated scenarioPlain) noOptions).

(** [{ customRules: { 'uuid-12': ['Pin the certificate'] } }]: a rule for
    the thirteenth identifier that [sampleEnv] hands out. *)
Definition loginRule : Options :=
  {| customRules := Some {[ "uuid-12" := [ "Pin the certificate" ] ]} |}.

Definition scenarioRuleModel : ThreatModel :=
  returned (threatGenerator.generateThreatModel sampleEnv
              (dfdValidator.validated scenario) loginRule).

(** A second element that reuses the id of [customer]. *)
Definition clerk : Element := mkElement "e1" "Clerk" "actor" None.

Definition duplicateIds : Dfd :=
  {| dfd_id := Some "dfd3"; dfd_name := Some "Twins";
     dfd_description := None;
     dfd_elements := Some [ customer; clerk ];
     dfd_dataflows := Some [];
     dfd_trustBoundaries := None |}.

(** A dataflow to an element 'e9' that does not exist. *)
Definition dangling : Dataflow :=
  {| df_id := Some "df3"; df_name := Some "Export";
     df_from := Some "e2"; df_to := Some "e9";
     df_protocol := None;
     df_hasSensitiveData := None; df_isCrossNetwork := None;
     df_isEncrypted := None; df_authentication := None; df_type := None |}.

Definition danglingScenario : Dfd :=
  {| dfd_id := Some "dfd4"; dfd_name := Some "Export";
     dfd_description := None;
     dfd_elements := Some [ customer; webServer ];
     dfd_dataflows := Some [ login; dangling ];
     dfd_trustBoundaries := None |}.

(** [partner] takes part in no dataflow. *)
Definition lonelyScenario : Dfd :=
  {| dfd_id := Some "dfd5"; dfd_name := Some "Shop with partner";
     dfd_description := None;
     dfd_elements := Some [ customer; webServer; partner ];
     dfd_dataflows := Some [ login ];
     dfd_trustBoundaries := None |}.

(** A datastore without description and trust level, and a dataflow into
    it. *)
Definition orders : Element := mkElement "e4" "Orders" "database" None.

Definition store : Dataflow :=
  {| df_id := Some "df4"; df_name := Some "Store order";
     df_from := Some "e2"; df_to := Some "e4";
     df_protocol := Some "tcp";
     df_hasSensitiveData := None; df_isCrossNetwork := None;
     df_isEncrypted := None; df_authentication := None; df_type := None |}.

Definition storeScenario : Dfd :=
  {| dfd_id := Some "dfd6"; dfd_name := Some "Shop with orders";
     dfd_description := Some "A small shop";
     dfd_elements := Some [ customer; webServer; orders ];
     dfd_dataflows := Some [ login; store ];
     dfd_trustBoundaries := None |}.

Import threatGenerator.

Definition emptyReport : Report :=
  {| rp_title := ""; rp_description := None; rp_generatedAt := "";
     rp_executive_summary :=
       {| total_threats := 0; critical_threats := 0; high_threats := 0;
          medium_threats := 0; low_threats := 0; overall_risk := Medium |};
     rp_elements_analysis := []; rp_dataflow_analysis := [];
     rp_recommendations := []; rp_stride_breakdown := [] |}.

Definition scenarioReport : Report :=
  match threatGenerator.generateReport sampleEnv scenarioModel
          (dfdValidator.validated scenario) with
  | Return report => report
  | Throw _ => emptyReport
  end.

End Samples.

(** * Properties *)

Import threatLibrary dfdValidator threatGenerator.

(** ** JavaScript helpers *)

Lemma strictEq_Some (a : option string) (s : string) :
  strictEq a (Some s) = true <-> a = Some s.
Proof.
  destruct a as [a|]; simpl.
  - rewrite String.eqb_eq. split; congruence.
  - split; discriminate.
Qed.

Lemma severityEqb_eq (a b : Severity) : severityEqb a b = true <-> a = b.
Proof. destruct a, b; simpl; split; congruence. Qed.

Lemma severityEqb_refl (a : Severity) : severityEqb a a = true.
Proof. by destruct a. Qed.

Lemma lookupKey_In {A : Type} (k : string) (o : list (string * A)) (v : A) :
  lookupKey k o = Some v -> In (k, v) o.
Proof.
  induction o as [|[k' v'] o IH]; simpl; [discriminate|].
  destruct (String.eqb k' k) eqn:E.
  - apply String.eqb_eq in E. intros [= ->]. left. by subst.
  - intros H. right. by apply IH.
Qed.

(** ** Severity escalation *)

Lemma calculateSeverity_untrusted (pattern : Pattern) (element : Element) :
  el_trustLevel element = Some "untrusted" ->
  calculateSeverity pattern element = Critical.
Proof. intros H. unfold calculateSeverity. by rewrite H. Qed.

Lemma calculateSeverity_partially (pattern : Pattern) (element : Element) :
  el_trustLevel element = Some "partially-trusted" ->
  calculateSeverity pattern element
  = if severityEqb (baseSeverity pattern) Low then Medium
    else baseSeverity pattern.
Proof. intros H. unfold calculateSeverity. by rewrite H. Qed.

Lemma calculateSeverity_other (pattern : Pattern) (element : Element) :
  el_trustLevel element <> Some "untrusted" ->
  el_trustLevel element <> Some "partially-trusted" ->
  calculateSeverity pattern element = baseSeverity pattern.
Proof.
  intros H1 H2. unfold calculateSeverity.
  destruct (strictEq _ (Some "untrusted")) eqn:E1.
  { by apply strictEq_Some in E1. }
  destruct (strictEq _ (Some "partially-trusted")) eqn:E2.
  { by apply strictEq_Some in E2. }
  done.
Qed.

Lemma elementPatternThreats_inv (element : Element) (t : Threat) :
  In t (elementPatternThreats element) ->
  exists pattern,
    In pattern (getThreatPatterns library (el_type element))
    /\ matchesElement element pattern = true
    /\ t = elementThreat element pattern.
Proof.
  unfold elementPatternThreats. rewrite in_map_iff.
  intros (pattern & <- & Hin). apply filter_In in Hin as [Hin Hm].
  by exists pattern.
Qed.

(** C4: the finding built for a pattern and an element starts from the
    pattern's baseline, [pattern.severity] or [Medium] without one, and is
    escalated by the trust level of the element: [Critical] for an
    untrusted element; for a partially trusted one [Medium] when the
    baseline is [Low] and the baseline otherwise; the baseline for any
    other trust level, also a missing one.  This holds for every pattern,
    whatever its baseline.  The pattern-derived findings of an element are
    the findings so built for the patterns of its bucket that match it, so
    all of them are [Critical] for an untrusted element. *)
Theorem element_finding_severity (element : Element) :
  (forall pattern : Pattern,
      let t := elementThreat element pattern in
      (forall s, pat_severity pattern = Some s -> baseSeverity pattern = s)
      /\ (pat_severity pattern = None -> baseSeverity pattern = Medium)
      /\ (el_trustLevel element = Some "untrusted" ->
          th_severity t = Critical)
      /\ (el_trustLevel element = Some "partially-trusted" ->
          (baseSeverity pattern = Low -> th_severity t = Medium)
          /\ (baseSeverity pattern <> Low ->
              th_severity t = baseSeverity pattern))
      /\ (el_trustLevel element <> Some "untrusted" ->
          el_trustLevel element <> Some "partially-trusted" ->
          th_severity t = baseSeverity pattern))
  /\ (forall t : Threat,
         In t (elementPatternThreats element) ->
         exists pattern,
           In pattern (getThreatPatterns library (el_type element))
           /\ matchesElement element pattern = true
           /\ t = elementThreat element pattern)
  /\ (el_trustLevel element = Some "untrusted" ->
      Forall (fun t => th_severity t = Critical)
             (elementPatternThreats element)).
Proof.
  split; [|split].
  - intros pattern t. unfold t. cbn [th_severity elementThreat].
    split; [|split; [|split; [|split]]].
    + intros s Hs. unfold baseSeverity. by rewrite Hs.
    + intros Hs. unfold baseSeverity. by rewrite Hs.
    + apply calculateSeverity_untrusted.
    + intros Hpt. rewrite calculateSeverity_partially by done. split.
      * by intros ->.
      * intros Hnl. destruct (severityEqb _ Low) eqn:E; [|done].
        by apply severityEqb_eq in E.
    + apply calculateSeverity_other.
  - apply elementPatternThreats_inv.
  - intros Hu. apply List.Forall_forall. intros t Hin.
    destruct (elementPatternThreats_inv _ _ Hin) as (pattern & _ & _ & ->).
    by apply calculateSeverity_untrusted.
Qed.

Lemma element_finding_severity_witness :
  el_trustLevel Samples.partner = Some "partially-trusted"
  /\ pat_severity Samples.auditGap = Some Low
  /\ baseSeverity Samples.auditGap = Low
  /\ th_severity (elementThreat Samples.partner Samples.auditGap) = Medium.
Proof.
  split; [reflexivity|]. split; [reflexivity|]. split; [reflexivity|].
  exact (proj1
           (proj1
              (proj2 (proj2 (proj2
                 (proj1 (element_finding_severity Samples.partner)
                    Samples.auditGap))))
              eq_refl)
           eq_refl).
Defined.

(** C1, at the input on which the code departs from it: [DF01] has the
    baseline [Critical] and matches the dataflow [feed], which crosses a
    network and carries no sensitive data; the severity computed for the
    finding is [High], below the baseline.  The DFD [feedScenario] with
    that dataflow passes validation, and its model holds the finding with
    severity [High]. *)
Theorem dataflow_severity_lowers_critical :
  baseSeverity DF01 = Critical
  /\ truthyBool (df_hasSensitiveData Samples.feed) = false
  /\ truthyBool (df_isCrossNetwork Samples.feed) = true
  /\ matchesDataflow Samples.feed DF01 = true
  /\ calculateSeverityForDataflow DF01 Samples.feed = High
  /\ (severityOrder (baseSeverity DF01)
      < severityOrder (calculateSeverityForDataflow DF01 Samples.feed))%Z
  /\ In (dataflowThreat Samples.feed DF01)
        (dataflowPatternThreats Samples.feed)
  /\ valid (fst (validate (Some Samples.feedScenario))) = true
  /\ forall env : Env,
      exists tm t,
        generateThreatModel env (validated Samples.feedScenario)
          Samples.noOptions = Return tm
        /\ In t (tm_threats tm)
        /\ th_description t = pat_description DF01
        /\ th_dataflowId t = df_id Samples.feed
        /\ th_severity t = High.
Proof.
  do 6 (split; [reflexivity|]).
  split; [vm_compute; left; reflexivity|].
  split; [reflexivity|].
  intros env. eexists.
  exists (stampDataflow (uuidv4 env 8) Samples.feed
            (dataflowThreat Samples.feed DF01)).
  split; [by vm_compute|]. split; [|done].
  cbn [tm_threats]. do 9 right. left. reflexivity.
Qed.

(** What [calculateSeverityForDataflow] computes on every input. *)
Lemma calculateSeverityForDataflow_cases (pattern : Pattern)
  (dataflow : Dataflow) :
  calculateSeverityForDataflow pattern dataflow
  = if truthyBool (df_hasSensitiveData dataflow) then Critical
    else if truthyBool (df_isCrossNetwork dataflow) then
      match baseSeverity pattern with
      | Low => Medium
      | _ => High
      end
    else baseSeverity pattern.
Proof.
  unfold calculateSeverityForDataflow.
  destruct (truthyBool (df_hasSensitiveData dataflow)); [done|].
  destruct (truthyBool (df_isCrossNetwork dataflow)); [|done].
  by destruct (baseSeverity pattern).
Qed.

(** ** The stable sort *)

Section Sort.
Context {A : Type} (key : A -> Z) (cmp : A -> A -> Z).
Hypothesis cmp_key : forall a b, cmp a b = (key a - key b)%Z.

Lemma insertSorted_Permutation (x : A) (l : list A) :
  insertSorted cmp x l ≡ₚ x :: l.
Proof.
  induction l as [|y l IH]; simpl; [done|].
  destruct (0 <? cmp x y)%Z; [|done].
  rewrite IH. apply Permutation_swap.
Qed.

Lemma sort_Permutation (l : list A) : sort cmp l ≡ₚ l.
Proof.
  induction l as [|x l IH]; simpl; [done|].
  by rewrite insertSorted_Permutation, IH.
Qed.

Lemma sort_length (l : list A) : length (sort cmp l) = length l.
Proof. apply Permutation_length, sort_Permutation. Qed.

Lemma sort_In (l : list A) (x : A) : In x (sort cmp l) <-> In x l.
Proof.
  split; apply Permutation_in; [|symmetry]; apply sort_Permutation.
Qed.

Lemma insertSorted_sorted (x : A) (l : list A) :
  StronglySorted (keyLe key) l -> StronglySorted (keyLe key) (insertSorted cmp x l).
Proof.
  induction 1 as [|y l Hl IH Hy]; simpl.
  { repeat constructor. }
  rewrite cmp_key. destruct (Z.ltb_spec 0 (key x - key y)) as [Hlt|Hge].
  - constructor; [done|].
    rewrite List.Forall_forall in Hy |- *. intros z Hz.
    apply (Permutation_in _ (insertSorted_Permutation x l)) in Hz.
    destruct Hz as [<-|Hz]; [unfold keyLe; lia | by apply Hy].
  - constructor; [by constructor|].
    constructor; [unfold keyLe; lia|].
    rewrite List.Forall_forall in Hy |- *. intros z Hz.
    specialize (Hy z Hz). unfold keyLe in *. lia.
Qed.

Lemma sort_sorted (l : list A) : StronglySorted (keyLe key) (sort cmp l).
Proof.
  induction l as [|x l IH]; simpl; [constructor|].
  by apply insertSorted_sorted.
Qed.

(** Elements with the same key keep their relative order. *)
Lemma insertSorted_filter (p : A -> bool) (x : A) (l : list A) :
  (forall a b, p a = true -> p b = true -> key a = key b) ->
  List.filter p (insertSorted cmp x l) = List.filter p (x :: l).
Proof.
  intros Hp. induction l as [|y l IH]; [done|].
  cbn [insertSorted]. rewrite cmp_key.
  destruct (Z.ltb_spec 0 (key x - key y)) as [Hlt|Hge]; [|done].
  cbn [List.filter] in *. rewrite IH.
  destruct (p x) eqn:Ex, (p y) eqn:Ey; try done.
  specialize (Hp x y Ex Ey). lia.
Qed.

Lemma sort_filter (p : A -> bool) (l : list A) :
  (forall a b, p a = true -> p b = true -> key a = key b) ->
  List.filter p (sort cmp l) = List.filter p l.
Proof.
  intros Hp. induction l as [|x l IH]; [done|].
  cbn [sort fold_right]. rewrite insertSorted_filter by done.
  cbn [List.filter]. fold (sort cmp l). by rewrite IH.
Qed.
End Sort.

(** ** The loops of [generateThreatModel] *)

Lemma assignIds_app (env : Env) (fs gs : list (string -> Threat)) (n : nat) :
  assignIds env n (fs ++ gs)
  = assignIds env n fs ++ assignIds env (n + length fs) gs.
Proof.
  revert n. induction fs as [|f fs IH]; intros n; simpl.
  - by rewrite Nat.add_0_r.
  - rewrite IH. do 3 f_equal. lia.
Qed.

Lemma assignIds_length (env : Env) (fs : list (string -> Threat)) (n : nat) :
  length (assignIds env n fs) = length fs.
Proof. revert n. induction fs as [|f fs IH]; intros n; simpl; auto. Qed.

Lemma assignIds_In (env : Env) (fs : list (string -> Threat)) (n : nat)
  (f : string -> Threat) :
  In f fs -> exists id, In (f id) (assignIds env n fs).
Proof.
  revert n. induction fs as [|g fs IH]; intros n; simpl; [done|].
  intros [->|Hin].
  - eexists. by left.
  - destruct (IH (S n) Hin) as [id Hid]. exists id. by right.
Qed.

Lemma assignIds_inv (env : Env) (fs : list (string -> Threat)) (n : nat)
  (t : Threat) :
  In t (assignIds env n fs) -> exists f id, In f fs /\ t = f id.
Proof.
  revert n. induction fs as [|g fs IH]; intros n; simpl; [done|].
  intros [<-|Hin].
  - exists g. eexists. split; [by left|done].
  - destruct (IH _ Hin) as (f & id & Hf & ->). exists f, id. split; auto.
Qed.

Lemma Collected_initial (env : Env) : Collected env initialState [].
Proof. by repeat split. Qed.

Lemma Collected_pushThreat (env : Env) (stamp : string -> Threat -> Threat)
  (threats : list Threat) :
  forall st fs,
    Collected env st fs ->
    Collected env (fold_left (pushThreat env stamp) threats st)
      (fs ++ map (fun t id => stamp id t) threats).
Proof.
  induction threats as [|t threats IH]; intros st fs Hc; simpl.
  - by rewrite app_nil_r.
  - replace (fs ++ (fun id => stamp id t) :: map (fun t id => stamp id t) threats)
      with ((fs ++ [fun id => stamp id t])
              ++ map (fun t id => stamp id t) threats)
      by (by rewrite <- app_assoc).
    apply IH. destruct Hc as (Ht & Hn & Hr).
    unfold Collected, pushThreat; simpl. repeat split.
    + rewrite assignIds_app, Ht, Hn. done.
    + rewrite length_app, Hn. simpl. lia.
    + unfold tally. rewrite fold_left_app. simpl. by rewrite Hr.
Qed.

Lemma Collected_elements (env : Env) (elements : list Element) :
  forall st fs,
    Collected env st fs ->
    Collected env (fold_left (elementStep env) elements st)
      (fs ++ flat_map (fun element =>
                         map (fun t id => stampElement id element t)
                             (analyzeElement element)) elements).
Proof.
  induction elements as [|e elements IH]; intros st fs Hc; simpl.
  - by rewrite app_nil_r.
  - rewrite app_assoc. apply IH.
    apply (Collected_pushThreat env (fun id => stampElement id e)), Hc.
Qed.

Lemma Collected_dataflows (env : Env) (dataflows : list Dataflow) :
  forall st fs,
    Collected env st fs ->
    Collected env (fold_left (dataflowStep env) dataflows st)
      (fs ++ flat_map (fun dataflow =>
                         map (fun t id => stampDataflow id dataflow t)
                             (analyzeDataflow dataflow)) dataflows).
Proof.
  induction dataflows as [|d dataflows IH]; intros st fs Hc; simpl.
  - by rewrite app_nil_r.
  - rewrite app_assoc. apply IH.
    apply (Collected_pushThreat env (fun id => stampDataflow id d)), Hc.
Qed.

(** What a call that returns has computed. *)
Lemma generateThreatModel_inv (env : Env) (dfd : Dfd) (options : Options)
  (tm : ThreatModel) :
  generateThreatModel env dfd options = Return tm ->
  exists elements dataflows,
    dfd_elements dfd = Some elements
    /\ dfd_dataflows dfd = Some dataflows
    /\ tm_threats tm
       = sort compareThreats (discoveryOrder env options elements dataflows)
    /\ tm_totalThreats tm = length (tm_threats tm)
    /\ tm_riskSummary tm
       = tally (assignIds env 0 (discoveredThreats elements dataflows))
               (gs_riskSummary initialState).
Proof.
  unfold generateThreatModel.
  destruct (dfd_elements dfd) as [elements|]; [|discriminate].
  destruct (dfd_dataflows dfd) as [dataflows|]; [|discriminate].
  cbn. intros [= <-]. exists elements, dataflows. cbn.
  pose proof (Collected_dataflows env dataflows _ _
                (Collected_elements env elements _ _ (Collected_initial env)))
    as (Ht & Hn & Hr).
  cbn [app] in Ht, Hr. fold (discoveredThreats elements dataflows) in Ht.
  repeat split; try done.
  - unfold discoveryOrder. by rewrite Ht.
  - by rewrite Hr, Ht.
Qed.

(** A DFD whose [elements] and [dataflows] are arrays is accepted. *)
Lemma generateThreatModel_returns (env : Env) (dfd : Dfd) (options : Options)
  (elements : list Element) (dataflows : list Dataflow) :
  dfd_elements dfd = Some elements ->
  dfd_dataflows dfd = Some dataflows ->
  exists tm, generateThreatModel env dfd options = Return tm.
Proof.
  intros He Hd. unfold generateThreatModel. rewrite He, Hd. cbn. eauto.
Qed.

Lemma withMitigations_same (t : Threat) :
  withMitigations t (th_mitigations t) = t.
Proof. by destruct t. Qed.

Lemma applyCustomRules_length (options : Options) (threats : list Threat) :
  length (applyCustomRules options threats) = length threats.
Proof.
  unfold applyCustomRules. destruct (customRules options); [|done].
  apply length_map.
Qed.

Lemma applyCustomRules_In (options : Options) (threats : list Threat)
  (t : Threat) :
  In t threats ->
  exists m, In (withMitigations t m) (applyCustomRules options threats).
Proof.
  intros Hin. unfold applyCustomRules.
  destruct (customRules options) as [rules|].
  - destruct (th_id t ≫= (fun id => rules !! id)) as [cm|] eqn:E.
    + exists (th_mitigations t ++ cm). apply in_map_iff. exists t.
      by rewrite E.
    + exists (th_mitigations t). apply in_map_iff. exists t.
      by rewrite E, withMitigations_same.
  - exists (th_mitigations t). by rewrite withMitigations_same.
Qed.

Lemma applyCustomRules_inv (options : Options) (threats : list Threat)
  (t' : Threat) :
  In t' (applyCustomRules options threats) ->
  exists t m, In t threats /\ t' = withMitigations t m.
Proof.
  unfold applyCustomRules. destruct (customRules options) as [rules|].
  - rewrite in_map_iff. intros (t & <- & Hin). exists t.
    destruct (th_id t ≫= _).
    + eexists. eauto.
    + exists (th_mitigations t). by rewrite withMitigations_same.
  - intros Hin. exists t', (th_mitigations t').
    by rewrite withMitigations_same.
Qed.

Lemma applyCustomRules_severity (options : Options) (threats : list Threat) :
  map th_severity (applyCustomRules options threats) = map th_severity threats.
Proof.
  unfold applyCustomRules. destruct (customRules options) as [rules|]; [|done].
  rewrite map_map. apply map_ext. intros t. by destruct (th_id t ≫= _).
Qed.

(** Every discovered finding is in the model, with an identifier and
    possibly extended mitigations. *)
Lemma discovered_in_model (env : Env) (dfd : Dfd) (options : Options)
  (tm : ThreatModel) (elements : list Element) (dataflows : list Dataflow)
  (f : string -> Threat) :
  generateThreatModel env dfd options = Return tm ->
  dfd_elements dfd = Some elements ->
  dfd_dataflows dfd = Some dataflows ->
  In f (discoveredThreats elements dataflows) ->
  exists id m, In (withMitigations (f id) m) (tm_threats tm).
Proof.
  intros Hgen He Hd Hin.
  destruct (generateThreatModel_inv _ _ _ _ Hgen)
    as (es & ds & He' & Hd' & Ht & _).
  rewrite He in He'. rewrite Hd in Hd'. injection He' as <-.
  injection Hd' as <-.
  destruct (assignIds_In env _ 0 f Hin) as [id Hid].
  destruct (applyCustomRules_In options _ _ Hid) as [m Hm].
  exists id, m. rewrite Ht.
  by apply (proj2 (sort_In compareThreats _ _)).
Qed.

(** Every finding of the model was discovered. *)
Lemma model_threat_discovered (env : Env) (dfd : Dfd) (options : Options)
  (tm : ThreatModel) (t : Threat) :
  generateThreatModel env dfd options = Return tm ->
  In t (tm_threats tm) ->
  exists elements dataflows f id m,
    dfd_elements dfd = Some elements
    /\ dfd_dataflows dfd = Some dataflows
    /\ In f (discoveredThreats elements dataflows)
    /\ t = withMitigations (f id) m.
Proof.
  intros Hgen Hin.
  destruct (generateThreatModel_inv _ _ _ _ Hgen)
    as (es & ds & He & Hd & Ht & _).
  rewrite Ht in Hin. apply (proj1 (sort_In compareThreats _ _)) in Hin.
  apply applyCustomRules_inv in Hin as (t0 & m & Hin & ->).
  apply assignIds_inv in Hin as (f & id & Hf & ->).
  by exists es, ds, f, id, m.
Qed.

Lemma tally_total (threats : list Threat) (r : RiskSummary) :
  total (tally threats r) = total r + length threats.
Proof.
  revert r. induction threats as [|t threats IH]; intros r; simpl.
  - lia.
  - unfold tally in *. simpl. rewrite IH.
    unfold total. destruct (th_severity t); simpl; lia.
Qed.

(** C2: in the model that [generateThreatModel] returns, the four counts of
    [riskSummary] add up to [totalThreats], which is the length of the
    list of findings. *)
Theorem risk_summary_totals (env : Env) (dfd : Dfd) (options : Options)
  (tm : ThreatModel) :
  generateThreatModel env dfd options = Return tm ->
  critical (tm_riskSummary tm) + high (tm_riskSummary tm)
  + medium (tm_riskSummary tm) + low (tm_riskSummary tm)
  = tm_totalThreats tm
  /\ tm_totalThreats tm = length (tm_threats tm).
Proof.
  intros Hgen.
  destruct (generateThreatModel_inv _ _ _ _ Hgen)
    as (es & ds & _ & _ & Ht & Hn & Hr).
  split; [|done].
  change (total (tm_riskSummary tm) = tm_totalThreats tm).
  rewrite Hn, Hr, tally_total, Ht.
  rewrite (sort_length compareThreats). unfold discoveryOrder.
  by rewrite applyCustomRules_length.
Qed.

Lemma risk_summary_totals_witness :
  generateThreatModel Samples.sampleEnv (validated Samples.scenario)
    Samples.noOptions = Return Samples.scenarioModel
  /\ critical (tm_riskSummary Samples.scenarioModel)
     + high (tm_riskSummary Samples.scenarioModel)
     + medium (tm_riskSummary Samples.scenarioModel)
     + low (tm_riskSummary Samples.scenarioModel)
     = tm_totalThreats Samples.scenarioModel
  /\ tm_totalThreats Samples.scenarioModel
     = length (tm_threats Samples.scenarioModel).
Proof.
  assert (H : generateThreatModel Samples.sampleEnv
                (validated Samples.scenario) Samples.noOptions
              = Return Samples.scenarioModel) by (vm_compute; reflexivity).
  split; [exact H|]. exact (risk_summary_totals _ _ _ _ H).
Defined.

Lemma hasSeverity_key (s : Severity) (a b : Threat) :
  hasSeverity s a = true -> hasSeverity s b = true ->
  severityOrder (th_severity a) = severityOrder (th_severity b).
Proof.
  unfold hasSeverity. rewrite !severityEqb_eq. by intros -> ->.
Qed.

(** C3: the findings of the returned model are sorted by non-decreasing
    severity rank, with the ranks [Critical] 0, [High] 1, [Medium] 2 and
    [Low] 3, and the findings of each severity appear in discovery order:
    those of the elements in input order, then those of the dataflows in
    input order. *)
Theorem threats_sorted_stable (env : Env) (dfd : Dfd) (options : Options)
  (tm : ThreatModel) :
  generateThreatModel env dfd options = Return tm ->
  let rank (t : Threat) : Z :=
    match th_severity t with
    | Critical => 0%Z
    | High => 1%Z
    | Medium => 2%Z
    | Low => 3%Z
    end in
  exists elements dataflows,
    dfd_elements dfd = Some elements
    /\ dfd_dataflows dfd = Some dataflows
    /\ StronglySorted (fun a b => (rank a <= rank b)%Z) (tm_threats tm)
    /\ tm_threats tm ≡ₚ discoveryOrder env options elements dataflows
    /\ forall s,
        List.filter (hasSeverity s) (tm_threats tm)
        = List.filter (hasSeverity s)
            (discoveryOrder env options elements dataflows).
Proof.
  intros Hgen rank.
  destruct (generateThreatModel_inv _ _ _ _ Hgen)
    as (es & ds & He & Hd & Ht & _).
  exists es, ds. rewrite Ht. repeat split; try done.
  - apply (sort_sorted rank compareThreats).
    intros a b. unfold compareThreats, rank.
    by destruct (th_severity a), (th_severity b).
  - apply sort_Permutation.
  - intros s.
    apply (sort_filter (fun t => severityOrder (th_severity t))); [done|].
    apply hasSeverity_key.
Qed.

Lemma threats_sorted_stable_witness :
  generateThreatModel Samples.sampleEnv (validated Samples.scenario)
    Samples.noOptions = Return Samples.scenarioModel
  /\ let rank (t : Threat) : Z :=
       match th_severity t with
       | Critical => 0%Z
       | High => 1%Z
       | Medium => 2%Z
       | Low => 3%Z
       end in
     exists elements dataflows,
       dfd_elements (validated Samples.scenario) = Some elements
       /\ dfd_dataflows (validated Samples.scenario) = Some dataflows
       /\ StronglySorted (fun a b => (rank a <= rank b)%Z)
            (tm_threats Samples.scenarioModel)
       /\ tm_threats Samples.scenarioModel
          ≡ₚ discoveryOrder Samples.sampleEnv Samples.noOptions elements
               dataflows
       /\ forall s,
           List.filter (hasSeverity s) (tm_threats Samples.scenarioModel)
           = List.filter (hasSeverity s)
               (discoveryOrder Samples.sampleEnv Samples.noOptions elements
                  dataflows).
Proof.
  assert (H : generateThreatModel Samples.sampleEnv
                (validated Samples.scenario) Samples.noOptions
              = Return Samples.scenarioModel) by (vm_compute; reflexivity).
  split; [exact H|]. exact (threats_sorted_stable _ _ _ _ H).
Defined.

Lemma dataExposure_discovered (elements : list Element)
  (dataflows : list Dataflow) (dataflow : Dataflow) :
  In dataflow dataflows ->
  df_hasSensitiveData dataflow = Some true ->
  In (fun id => stampDataflow id dataflow dataExposure)
     (discoveredThreats elements dataflows).
Proof.
  intros Hin Hs. unfold discoveredThreats. apply in_or_app. right.
  apply in_flat_map. exists dataflow. split; [done|].
  apply (in_map (fun t id => stampDataflow id dataflow t)).
  unfold analyzeDataflow, dataflowFixedThreats. rewrite Hs. simpl.
  apply in_or_app. right. apply in_or_app. right. by left.
Qed.

(** C6: a dataflow of an accepted DFD that carries sensitive data and is
    not encrypted has a [Critical] finding in the model whose dataflow
    reference is that dataflow: the fixed "Data Exposure During Transit"
    finding. *)
Theorem sensitive_unencrypted_dataflow_critical (env : Env) (dfd : Dfd)
  (options : Options) (tm : ThreatModel) (dataflows : list Dataflow)
  (dataflow : Dataflow) :
  generateThreatModel env dfd options = Return tm ->
  dfd_dataflows dfd = Some dataflows ->
  In dataflow dataflows ->
  df_hasSensitiveData dataflow = Some true ->
  truthyBool (df_isEncrypted dataflow) = false ->
  exists t,
    In t (tm_threats tm)
    /\ th_severity t = Critical
    /\ th_title t = "Data Exposure During Transit"
    /\ th_dataflowId t = df_id dataflow
    /\ th_dataflowName t = df_name dataflow.
Proof.
  intros Hgen Hd Hin Hs _.
  destruct (generateThreatModel_inv _ _ _ _ Hgen)
    as (es & ds & He & Hd' & _).
  rewrite Hd in Hd'. injection Hd' as <-.
  destruct (discovered_in_model _ _ _ _ es dataflows _ Hgen He Hd
              (dataExposure_discovered es dataflows dataflow Hin Hs))
    as (id & m & Ht).
  eexists. split; [exact Ht|]. by repeat split.
Qed.

Lemma sensitive_unencrypted_dataflow_critical_witness :
  generateThreatModel Samples.sampleEnv
    (validated Samples.scenarioPlain) Samples.noOptions
  = Return Samples.scenarioPlainModel
  /\ dfd_dataflows (validated Samples.scenarioPlain)
     = Some [ Samples.loginPlain ]
  /\ In Samples.loginPlain [ Samples.loginPlain ]
  /\ df_hasSensitiveData Samples.loginPlain = Some true
  /\ truthyBool (df_isEncrypted Samples.loginPlain) = false
  /\ exists t,
    In t (tm_threats Samples.scenarioPlainModel)
    /\ th_severity t = Critical
    /\ th_title t = "Data Exposure During Transit"
    /\ th_dataflowId t = df_id Samples.loginPlain
    /\ th_dataflowName t = df_name Samples.loginPlain.
Proof.
  assert (H : generateThreatModel Samples.sampleEnv
                (validated Samples.scenarioPlain) Samples.noOptions
              = Return Samples.scenarioPlainModel)
    by (vm_compute; reflexivity).
  assert (Hd : dfd_dataflows (validated Samples.scenarioPlain)
               = Some [ Samples.loginPlain ]) by reflexivity.
  assert (Hin : In Samples.loginPlain [ Samples.loginPlain ])
    by (left; reflexivity).
  repeat (split; [first [exact H | exact Hd | exact Hin | reflexivity]|]).
  exact (sensitive_unencrypted_dataflow_critical _ _ _ _ _ _ H Hd Hin
           eq_refl eq_refl).
Defined.

(** ** Library metadata *)

Lemma setAdd_In (x k : string) (s : list string) :
  In k (setAdd x s) <-> In k s \/ k = x.
Proof.
  unfold setAdd. destruct (existsb (String.eqb x) s) eqn:E.
  - apply existsb_exists in E as (y & Hy & Exy).
    apply String.eqb_eq in Exy as ->. split; [auto|].
    by intros [H| ->].
  - rewrite in_app_iff. simpl. intuition congruence.
Qed.

Lemma setAdd_NoDup (x : string) (s : list string) :
  NoDup s -> NoDup (setAdd x s).
Proof.
  intros Hs. unfold setAdd. destruct (existsb (String.eqb x) s) eqn:E; [done|].
  apply NoDup_app. split; [done|]. split; [|apply NoDup_singleton].
  intros y Hy Hx. apply list_elem_of_In in Hy.
  apply list_elem_of_In in Hx as [<-|[]].
  assert (existsb (String.eqb x) s = true); [|congruence].
  apply existsb_exists. exists x. split; [done|apply String.eqb_refl].
Qed.

(** On a [Set] that holds no key yet, adding distinct keys in turn keeps
    them in order. *)
Lemma setAdd_fresh (x : string) (s : list string) :
  ~ In x s -> setAdd x s = s ++ [x].
Proof.
  intros Hx. unfold setAdd. destruct (existsb (String.eqb x) s) eqn:E; [|done].
  apply existsb_exists in E as (y & Hy & Exy).
  apply String.eqb_eq in Exy as ->. done.
Qed.

Lemma metadataPattern_types (ps : list Pattern) (st : MetadataState) :
  ms_types (fold_left metadataPattern ps st) = ms_types st.
Proof. revert st. induction ps as [|p ps IH]; intros st; simpl; [done|]. by rewrite IH. Qed.

Lemma metadataCategory_types (entries : list (string * list Pattern))
  (st : MetadataState) :
  ms_types (fold_left metadataCategory entries st)
  = fold_left (fun acc k => setAdd k acc) (map fst entries) (ms_types st).
Proof.
  revert st. induction entries as [|e entries IH]; intros st; simpl; [done|].
  rewrite IH. unfold metadataCategory. by rewrite metadataPattern_types.
Qed.

Lemma setAdd_fold_In (keys acc : list string) (k : string) :
  In k (fold_left (fun acc k => setAdd k acc) keys acc)
  <-> In k acc \/ In k keys.
Proof.
  revert acc. induction keys as [|x keys IH]; intros acc; simpl.
  - tauto.
  - rewrite IH, setAdd_In. intuition congruence.
Qed.

Lemma setAdd_fold_NoDup (keys acc : list string) :
  NoDup acc -> NoDup (fold_left (fun acc k => setAdd k acc) keys acc).
Proof.
  revert acc. induction keys as [|x keys IH]; intros acc H; simpl; [done|].
  by apply IH, setAdd_NoDup.
Qed.

Lemma setAdd_fold_distinct (keys acc : list string) :
  NoDup (acc ++ keys) ->
  fold_left (fun acc k => setAdd k acc) keys acc = acc ++ keys.
Proof.
  revert acc. induction keys as [|x keys IH]; intros acc H; simpl.
  - by rewrite app_nil_r.
  - assert (Hx : ~ In x acc).
    { apply NoDup_app in H as (_ & H & _). intros Hin.
      apply (H x); [by apply list_elem_of_In|]. by left. }
    rewrite setAdd_fresh by done.
    rewrite IH; rewrite <- app_assoc; done.
Qed.

(** For an object literal, whose keys are distinct, the reported types come
    in the order of the keys. *)
Lemma supported_types_in_key_order (this : Library) :
  NoDup (map fst (patterns this)) ->
  md_supportedElementTypes (getLibraryMetadata this) = map fst (patterns this).
Proof.
  intros Hnd. unfold getLibraryMetadata. simpl.
  rewrite metadataCategory_types. by apply setAdd_fold_distinct.
Qed.

(** C9: the subject types that [getLibraryMetadata] reports are exactly
    the keys of the [patterns] object, each once; for the library of the
    source they are its five bucket names, in the order of the buckets. *)
Theorem supported_types_are_bucket_keys :
  (forall (this : Library) (k : string),
      In k (md_supportedElementTypes (getLibraryMetadata this))
      <-> In k (map fst (patterns this)))
  /\ (forall this : Library,
         NoDup (md_supportedElementTypes (getLibraryMetadata this)))
  /\ md_supportedElementTypes (getLibraryMetadata library)
     = map fst (patterns library)
  /\ map fst (patterns library)
     = [ "actor"; "process"; "datastore"; "dataflow"; "external_entity" ].
Proof.
  split; [|split; [|split]].
  - intros this k. unfold getLibraryMetadata. simpl.
    rewrite metadataCategory_types, setAdd_fold_In. simpl. tauto.
  - intros this. unfold getLibraryMetadata. simpl.
    rewrite metadataCategory_types. apply setAdd_fold_NoDup. constructor.
  - reflexivity.
  - reflexivity.
Qed.

(** ** The STRIDE breakdown *)

Lemma lookupKey_pushTo (k c : string) (t : Threat)
  (b : list (string * list Threat)) :
  lookupKey k (pushTo c t b)
  = if String.eqb k c then (fun l => l ++ [ t ]) <$> lookupKey k b
    else lookupKey k b.
Proof.
  induction b as [|[k' l] b IH]; simpl.
  - by destruct (String.eqb k c).
  - destruct (String.eqb k' c) eqn:Ec; simpl.
    + apply String.eqb_eq in Ec as ->.
      destruct (String.eqb c k) eqn:Ek.
      * apply String.eqb_eq in Ek as ->. by rewrite String.eqb_refl.
      * rewrite String.eqb_sym in Ek. by rewrite Ek.
    + destruct (String.eqb k' k) eqn:Ek; [|done].
      apply String.eqb_eq in Ek as ->. by rewrite Ec.
Qed.

Lemma pushTo_keys (c : string) (t : Threat) (b : list (string * list Threat)) :
  map fst (pushTo c t b) = map fst b.
Proof.
  induction b as [|[k' l] b IH]; simpl; [done|].
  destruct (String.eqb k' c); simpl; by rewrite ?IH.
Qed.

Lemma Grows_refl (b : list (string * list Threat)) : Grows b b.
Proof. split; [done|]. intros k l0 H. exists l0. split; [done|apply incl_refl]. Qed.

Lemma Grows_trans (b1 b2 b3 : list (string * list Threat)) :
  Grows b1 b2 -> Grows b2 b3 -> Grows b1 b3.
Proof.
  intros [K12 G12] [K23 G23]. split; [congruence|].
  intros k l0 H. destruct (G12 _ _ H) as (l1 & H1 & I1).
  destruct (G23 _ _ H1) as (l2 & H2 & I2).
  exists l2. split; [done|]. by apply incl_tran with l1.
Qed.

Lemma Grows_pushTo (c : string) (t : Threat) (b : list (string * list Threat)) :
  Grows b (pushTo c t b).
Proof.
  split; [apply pushTo_keys|]. intros k l0 H.
  rewrite lookupKey_pushTo, H. destruct (String.eqb k c); simpl.
  - eexists. split; [done|]. by apply incl_appl, incl_refl.
  - exists l0. split; [done|apply incl_refl].
Qed.

(** One tag: the breakdown grows, and an own key receives the finding. *)
Lemma addToCategory_spec (t : Threat) (b b' : list (string * list Threat))
  (c : string) :
  addToCategory t b c = Return b' ->
  Grows b b'
  /\ (is_Some (lookupKey c b) ->
      exists l, lookupKey c b' = Some l /\ In t l).
Proof.
  unfold addToCategory. destruct (lookupKey c b) as [l0|] eqn:E.
  - intros [= <-]. split; [apply Grows_pushTo|]. intros _.
    rewrite lookupKey_pushTo, String.eqb_refl, E. simpl.
    eexists. split; [done|]. apply in_or_app. right. by left.
  - destruct (includes _ _); [discriminate|]. intros [= <-].
    split; [apply Grows_refl|]. by intros [? ?].
Qed.

Lemma addToCategory_returns (t : Threat) (b : list (string * list Threat))
  (c : string) :
  plainKey c -> exists b', addToCategory t b c = Return b'.
Proof.
  intros Hc. unfold addToCategory.
  destruct (lookupKey c b); [eauto|]. rewrite Hc. eauto.
Qed.

Lemma Grows_is_Some (b b' : list (string * list Threat)) (k : string) :
  Grows b b' -> is_Some (lookupKey k b) -> is_Some (lookupKey k b').
Proof.
  intros [_ G] [l0 H]. destruct (G _ _ H) as (l & Hl & _). by exists l.
Qed.

Lemma Grows_In (b b' : list (string * list Threat)) (k : string)
  (l : list Threat) (t : Threat) :
  Grows b b' -> lookupKey k b = Some l -> In t l ->
  exists l', lookupKey k b' = Some l' /\ In t l'.
Proof.
  intros [_ G] H Hin. destruct (G _ _ H) as (l' & Hl' & Hincl).
  exists l'. split; [done|]. by apply Hincl.
Qed.

(** All tags of one finding. *)
Lemma addTags_spec (t : Threat) (tags : list string) :
  forall b b',
    forEachM (addToCategory t) tags b = Return b' ->
    Grows b b'
    /\ forall c, In c tags -> is_Some (lookupKey c b) ->
                 exists l, lookupKey c b' = Some l /\ In t l.
Proof.
  induction tags as [|c0 tags IH]; intros b b'; simpl.
  - intros [= <-]. split; [apply Grows_refl|]. by intros c [].
  - destruct (addToCategory t b c0) as [b1|] eqn:E1; [|discriminate].
    cbn. intros Hrest.
    destruct (addToCategory_spec _ _ _ _ E1) as [G1 A1].
    destruct (IH _ _ Hrest) as [G2 A2].
    split; [by apply Grows_trans with b1|].
    intros c [<-|Hin] Hown.
    + destruct (A1 Hown) as (l1 & Hl1 & Hin1).
      by apply (Grows_In b1 b' c0 l1 t).
    + apply A2; [done|]. by apply (Grows_is_Some b b1).
Qed.

Lemma addTags_returns (t : Threat) (tags : list string) :
  (forall c, In c tags -> plainKey c) ->
  forall b, exists b', forEachM (addToCategory t) tags b = Return b'.
Proof.
  induction tags as [|c0 tags IH]; intros Hp b; simpl; [eauto|].
  destruct (addToCategory_returns t b c0) as [b1 ->]; [apply Hp; by left|].
  cbn. apply IH. intros c Hc. apply Hp. by right.
Qed.

(** All findings. *)
Lemma addThreats_spec (threats : list Threat) :
  forall b b',
    forEachM addThreat threats b = Return b' ->
    Grows b b'
    /\ forall t tags c,
        In t threats -> th_stride t = Some tags -> In c tags ->
        is_Some (lookupKey c b) ->
        exists l, lookupKey c b' = Some l /\ In t l.
Proof.
  induction threats as [|t0 threats IH]; intros b b'; simpl.
  - intros [= <-]. split; [apply Grows_refl|]. by intros t tags c [].
  - destruct (addThreat b t0) as [b1|] eqn:E1; [|discriminate].
    cbn. intros Hrest. destruct (IH _ _ Hrest) as [G2 A2].
    assert (G1 : Grows b b1
                 /\ forall tags c,
                     th_stride t0 = Some tags -> In c tags ->
                     is_Some (lookupKey c b) ->
                     exists l, lookupKey c b1 = Some l /\ In t0 l).
    { unfold addThreat in E1. destruct (th_stride t0) as [tags0|].
      - destruct (addTags_spec _ _ _ _ E1) as [G A]. split; [done|].
        intros tags c [= <-]. apply A.
      - injection E1 as <-. split; [apply Grows_refl|]. discriminate. }
    destruct G1 as [G1 A1]. split; [by apply Grows_trans with b1|].
    intros t tags c [<-|Hin] Hs Hc Hown.
    + destruct (A1 _ _ Hs Hc Hown) as (l1 & Hl1 & Hin1).
      by apply (Grows_In b1 b' c l1 t0).
    + apply (A2 t tags c); try done. by apply (Grows_is_Some b b1).
Qed.

Lemma addThreats_returns (threats : list Threat) :
  plainTags threats ->
  forall b, exists b', forEachM addThreat threats b = Return b'.
Proof.
  induction threats as [|t0 threats IH]; intros Hp b; simpl; [eauto|].
  assert (H1 : exists b1, addThreat b t0 = Return b1).
  { unfold addThreat. destruct (th_stride t0) as [tags0|] eqn:Es; [|eauto].
    apply addTags_returns. intros c Hc. apply (Hp t0 tags0); auto. by left. }
  destruct H1 as [b1 ->]. cbn. apply IH.
  intros t tags c Hin. apply (Hp t tags c). by right.
Qed.

Lemma lookupKey_emptyBreakdown (c : string) :
  In c strideCategories -> lookupKey c emptyBreakdown = Some [].
Proof.
  simpl. intros H.
  repeat (destruct H as [<-|H]; [reflexivity|]). destruct H.
Qed.

(** The breakdown of any list of findings whose tags are plain keys. *)
Lemma breakdownBySTRIDE_spec (threats : list Threat) :
  plainTags threats ->
  exists breakdown,
    breakdownBySTRIDE threats = Return breakdown
    /\ (forall k l, In (k, l) breakdown ->
                    l <> [] /\ In k strideCategories)
    /\ (forall t tags c,
           In t threats -> th_stride t = Some tags -> In c tags ->
           In c strideCategories ->
           exists l, In (c, l) breakdown /\ In t l).
Proof.
  intros Hp. unfold breakdownBySTRIDE.
  destruct (addThreats_returns threats Hp emptyBreakdown) as [b Hb].
  rewrite Hb. cbn. eexists. split; [done|].
  destruct (addThreats_spec _ _ _ Hb) as [[Hk _] Hadd]. split.
  - intros k l Hin. apply filter_In in Hin as [Hin Hlen]. simpl in Hlen.
    split.
    + intros ->. simpl in Hlen. discriminate.
    + apply (in_map fst) in Hin. simpl in Hin.
      rewrite Hk in Hin. exact Hin.
  - intros t tags c Hin Hs Hc Hsix.
    destruct (Hadd t tags c Hin Hs Hc) as (l & Hl & Hinl).
    { rewrite lookupKey_emptyBreakdown by done. by eexists. }
    exists l. split; [|done]. apply filter_In. split.
    + by apply lookupKey_In.
    + simpl. destruct l; [destruct Hinl|done].
Qed.

Lemma library_stride_tags :
  Forall (fun entry =>
            Forall (fun pattern =>
                      Forall (fun c => c ∈ strideCategories)
                             (orEmpty (pat_stride pattern)))
                   (snd entry))
         (patterns library).
Proof. apply (bool_decide_unpack _). by vm_compute. Qed.

Lemma getThreatPatterns_bucket (type : option string) (pattern : Pattern) :
  In pattern (getThreatPatterns library type) ->
  exists key bucket, In (key, bucket) (patterns library) /\ In pattern bucket.
Proof.
  unfold getThreatPatterns.
  destruct (lookupKey _ (patterns library)) as [bucket|] eqn:E; [|done].
  intros Hin. apply lookupKey_In in E. eauto.
Qed.

Lemma pattern_tags (type : option string) (pattern : Pattern)
  (tags : list string) (c : string) :
  In pattern (getThreatPatterns library type) ->
  pat_stride pattern = Some tags -> In c tags -> In c strideCategories.
Proof.
  intros Hin Hs Hc.
  destruct (getThreatPatterns_bucket _ _ Hin) as (key & bucket & Hb & Hp).
  pose proof library_stride_tags as H.
  rewrite List.Forall_forall in H. specialize (H _ Hb). simpl in H.
  rewrite List.Forall_forall in H. specialize (H _ Hp). rewrite Hs in H.
  rewrite List.Forall_forall in H. apply list_elem_of_In. by apply H.
Qed.

Lemma analyzeElement_tags (element : Element) (t : Threat)
  (tags : list string) (c : string) :
  In t (analyzeElement element) ->
  th_stride t = Some tags -> In c tags -> In c strideCategories.
Proof.
  unfold analyzeElement. rewrite in_app_iff. intros [Hin|Hin] Hs Hc.
  - apply elementPatternThreats_inv in Hin as (p & Hp & _ & ->).
    by apply (pattern_tags (el_type element) p tags c).
  - unfold elementRoleThreats in Hin.
    rewrite !in_app_iff in Hin.
    destruct Hin as [Hin|[Hin|Hin]];
      match type of Hin with
      | In _ (if ?b then _ else _) => destruct b; [|destruct Hin]
      end;
      destruct Hin as [<-|[]]; injection Hs as <-; simpl in Hc |- *; tauto.
Qed.

Lemma analyzeDataflow_tags (dataflow : Dataflow) (t : Threat)
  (tags : list string) (c : string) :
  In t (analyzeDataflow dataflow) ->
  th_stride t = Some tags -> In c tags -> In c strideCategories.
Proof.
  unfold analyzeDataflow. rewrite in_app_iff. intros [Hin|Hin] Hs Hc.
  - unfold dataflowPatternThreats in Hin. apply in_map_iff in Hin
      as (p & <- & Hp). apply filter_In in Hp as [Hp _].
    by apply (pattern_tags (Some "dataflow") p tags c).
  - unfold dataflowFixedThreats in Hin.
    rewrite in_app_iff in Hin.
    destruct Hin as [Hin|Hin];
      match type of Hin with
      | In _ (if ?b then _ else _) => destruct b; [|destruct Hin]
      end;
      destruct Hin as [<-|[]]; injection Hs as <-; simpl in Hc |- *; tauto.
Qed.

Lemma discovered_tags (elements : list Element) (dataflows : list Dataflow)
  (f : string -> Threat) (id : string) (tags : list string) (c : string) :
  In f (discoveredThreats elements dataflows) ->
  th_stride (f id) = Some tags -> In c tags -> In c strideCategories.
Proof.
  unfold discoveredThreats. rewrite in_app_iff, !in_flat_map.
  intros [(e & _ & Hin)|(d & _ & Hin)];
    apply in_map_iff in Hin as (t0 & <- & Hin); simpl.
  - by apply (analyzeElement_tags e).
  - by apply (analyzeDataflow_tags d).
Qed.

(** The tags of a generated finding are among the six categories. *)
Lemma model_tags (env : Env) (dfd : Dfd) (options : Options)
  (tm : ThreatModel) (t : Threat) (tags : list string) (c : string) :
  generateThreatModel env dfd options = Return tm ->
  In t (tm_threats tm) -> th_stride t = Some tags -> In c tags ->
  In c strideCategories.
Proof.
  intros Hgen Hin.
  destruct (model_threat_discovered _ _ _ _ _ Hgen Hin)
    as (es & ds & f & id & m & _ & _ & Hf & ->).
  simpl. by apply (discovered_tags es ds).
Qed.

Lemma strideCategories_plain (c : string) :
  In c strideCategories -> plainKey c.
Proof.
  simpl. intros H.
  repeat (destruct H as [<-|H]; [reflexivity|]). destruct H.
Qed.

(** C8: for every generated threat model the STRIDE breakdown is produced;
    it has no key with an empty list, every key is one of the six STRIDE
    categories, and a finding is in the bucket of each of its tags. *)
Theorem stride_breakdown_buckets (env : Env) (dfd : Dfd) (options : Options)
  (tm : ThreatModel) :
  generateThreatModel env dfd options = Return tm ->
  strideCategories
  = [ "Spoofing"; "Tampering"; "Repudiation"; "Information Disclosure";
      "Denial of Service"; "Elevation of Privilege" ]
  /\ exists breakdown,
    breakdownBySTRIDE (tm_threats tm) = Return breakdown
    /\ (forall k l, In (k, l) breakdown -> l <> [] /\ In k strideCategories)
    /\ (forall t tags c,
           In t (tm_threats tm) -> th_stride t = Some tags -> In c tags ->
           exists l, In (c, l) breakdown /\ In t l).
Proof.
  intros Hgen. split; [reflexivity|].
  assert (Hplain : plainTags (tm_threats tm)).
  { intros t tags c Hin Hs Hc.
    by apply strideCategories_plain, (model_tags _ _ _ _ t tags c Hgen). }
  destruct (breakdownBySTRIDE_spec _ Hplain) as (b & Hb & Hkeys & Hin).
  exists b. split; [done|]. split; [done|].
  intros t tags c Ht Hs Hc. apply (Hin t tags c); try done.
  by apply (model_tags _ _ _ _ t tags c Hgen).
Qed.

Lemma stride_breakdown_buckets_witness :
  generateThreatModel Samples.sampleEnv (validated Samples.scenario)
    Samples.noOptions = Return Samples.scenarioModel
  /\ strideCategories
     = [ "Spoofing"; "Tampering"; "Repudiation"; "Information Disclosure";
         "Denial of Service"; "Elevation of Privilege" ]
  /\ exists breakdown,
    breakdownBySTRIDE (tm_threats Samples.scenarioModel) = Return breakdown
    /\ (forall k l, In (k, l) breakdown -> l <> [] /\ In k strideCategories)
    /\ (forall t tags c,
           In t (tm_threats Samples.scenarioModel) ->
           th_stride t = Some tags -> In c tags ->
           exists l, In (c, l) breakdown /\ In t l).
Proof.
  assert (H : generateThreatModel Samples.sampleEnv
                (validated Samples.scenario) Samples.noOptions
              = Return Samples.scenarioModel) by (vm_compute; reflexivity).
  split; [exact H|]. exact (stride_breakdown_buckets _ _ _ _ H).
Defined.

(** ** The validator *)

Lemma pushIf_length {A : Type} (c : bool) (x : A) (arr : list A) :
  length arr <= length (pushIf c x arr).
Proof. destruct c; simpl; rewrite ?length_app; lia. Qed.

(** Peels the pushes off the right-hand side of [length a <= length b]. *)
Ltac grows :=
  repeat first
    [ lia
    | etrans; [|apply pushIf_length]
    | match goal with
      | |- _ <= length (if ?c then _ else _) => destruct c
      end
    | rewrite length_app; etrans; [|apply Nat.le_add_r] ].

Lemma validateElement_errors (index : nat) (element : Element)
  (st : ValidateState) :
  length (vs_errors st)
  <= length (vs_errors (fst (validateElement index element st))).
Proof.
  unfold validateElement. cbn [fst vs_errors]. grows.
Qed.

Lemma validateElement_snd (index : nat) (element : Element)
  (st : ValidateState) :
  snd (validateElement index element st) = annotate element.
Proof. reflexivity. Qed.

Lemma validateElements_spec (elements : list Element) :
  forall index st,
    snd (validateElements index elements st) = map annotate elements
    /\ length (vs_errors st)
       <= length (vs_errors (fst (validateElements index elements st))).
Proof.
  induction elements as [|e elements IH]; intros index st.
  - simpl. split; [done|lia].
  - cbn [validateElements].
    destruct (validateElement index e st) as [st1 e'] eqn:E1.
    destruct (validateElements (S index) elements st1) as [st2 rest'] eqn:E2.
    destruct (IH (S index) st1) as [Hs Hl]. rewrite E2 in Hs, Hl.
    pose proof (validateElement_errors index e st) as H1.
    pose proof (validateElement_snd index e st) as H2.
    rewrite E1 in H1, H2. simpl in *. split; [by subst|lia].
Qed.

Lemma validateDataflow_errors (elementIds : gset (option string))
  (index : nat) (dataflow : Dataflow) (st : ValidateState) :
  length (vs_errors st)
  <= length (vs_errors (validateDataflow elementIds index dataflow st)).
Proof.
  unfold validateDataflow. cbn [vs_errors]. grows.
Qed.

Lemma validateDataflows_errors (elementIds : gset (option string))
  (dataflows : list Dataflow) :
  forall index st,
    length (vs_errors st)
    <= length (vs_errors (validateDataflows elementIds index dataflows st)).
Proof.
  induction dataflows as [|d dataflows IH]; intros index st; simpl; [lia|].
  etrans; [apply (validateDataflow_errors elementIds index d st)|apply IH].
Qed.

(** [validate] leaves the DFD with its elements annotated. *)
Lemma validateObject_dfd (dfd : Dfd) :
  snd (validateObject dfd)
  = withElements dfd (map annotate <$> dfd_elements dfd).
Proof.
  unfold validateObject.
  destruct (dfd_elements dfd) as [es|]; [|done].
  pose proof (validateElements_spec es 0
    {| vs_errors :=
         pushIf (match dfd_dataflows dfd with Some _ => false | None => true end)
           "DFD must have dataflows array"
           (pushIf (length es =? 0)%nat "DFD must have at least one element"
              (pushIf (negb (truthyStr (dfd_name dfd))) "DFD name is required"
                 (pushIf (negb (truthyStr (dfd_id dfd))) "DFD ID is required"
                    [])));
       vs_warnings := []; vs_ids := ∅ |}) as [Hs _].
  destruct (validateElements _ _ _) as [st es']. simpl in Hs. subst es'.
  done.
Qed.

(** A DFD reported valid has its two arrays, and at least one element. *)
Lemma validateObject_valid (dfd : Dfd) :
  valid (fst (validateObject dfd)) = true ->
  exists elements dataflows,
    dfd_elements dfd = Some elements
    /\ dfd_dataflows dfd = Some dataflows
    /\ elements <> [].
Proof.
  unfold validateObject.
  set (e0 := pushIf (negb (truthyStr (dfd_name dfd))) _
               (pushIf (negb (truthyStr (dfd_id dfd))) _ [])).
  destruct (dfd_elements dfd) as [es|]; cycle 1.
  { (* no elements: the error is there from the start *)
    destruct (dfd_dataflows dfd) as [ds|]; cbn.
    - pose proof (validateDataflows_errors
                    (list_to_set (el_id <$> [])) ds 0
                    {| vs_errors :=
                         pushIf false "DFD must have dataflows array"
                           (pushIf true "DFD must have at least one element" e0);
                       vs_warnings := []; vs_ids := ∅ |}) as H.
      cbn in H. rewrite length_app in H. cbn in H.
      destruct (length _) eqn:E in |- *; [|done].
      cbn in E. rewrite E in H. lia.
    - rewrite !length_app. cbn. intros H.
      apply Nat.eqb_eq in H. lia. }
  destruct (dfd_dataflows dfd) as [ds|]; cycle 1.
  { pose proof (validateElements_spec es 0
      {| vs_errors :=
           pushIf true "DFD must have dataflows array"
             (pushIf (length es =? 0)%nat
                "DFD must have at least one element" e0);
         vs_warnings := []; vs_ids := ∅ |}) as [_ H].
    destruct (validateElements _ _ _) as [st es']. cbn in *.
    rewrite length_app in H. cbn in H. intros Hv.
    apply Nat.eqb_eq in Hv. lia. }
  destruct es as [|e es]; cycle 1.
  { intros _. by exists (e :: es), ds. }
  cbn. intros Hv. apply Nat.eqb_eq in Hv.
  pose proof (validateDataflows_errors (list_to_set (el_id <$> [])) ds 0
                {| vs_errors := e0 ++ [ "DFD must have at least one element" ];
                   vs_warnings := []; vs_ids := ∅ |}) as H.
  cbn in H. rewrite length_app in H. cbn in H, Hv. lia.
Qed.

(** A DFD that passed validation is accepted by the generator. *)
Lemma valid_dfd_accepted (env : Env) (dfd : Dfd) (options : Options) :
  valid (fst (validateObject dfd)) = true ->
  exists tm,
    generateThreatModel env (validated dfd) options = Return tm.
Proof.
  intros Hv. destruct (validateObject_valid dfd Hv) as (es & ds & He & Hd & _).
  unfold validated. rewrite validateObject_dfd.
  apply (generateThreatModel_returns env _ options (map annotate es) ds).
  - simpl. by rewrite He.
  - done.
Qed.

Lemma validateObject_fullShape (dfd : Dfd) :
  fullShape (fst (validateObject dfd)).
Proof.
  unfold validateObject.
  destruct (dfd_elements dfd) as [es|].
  - destruct (validateElements _ _ _) as [st es'].
    repeat split; simpl; eauto.
  - repeat split; simpl; eauto.
Qed.

Lemma validateObject_counts (dfd : Dfd) :
  elementCount (fst (validateObject dfd))
  = Some (length (orEmpty (dfd_elements dfd)))
  /\ dataflowCount (fst (validateObject dfd))
     = Some (length (orEmpty (dfd_dataflows dfd)))
  /\ trustBoundaryCount (fst (validateObject dfd))
     = Some (length (orEmpty (dfd_trustBoundaries dfd)))
  /\ valid (fst (validateObject dfd))
     = (length (errors (fst (validateObject dfd))) =? 0)%nat.
Proof.
  pose proof (validateObject_dfd dfd) as Hd. revert Hd.
  unfold validateObject.
  destruct (dfd_elements dfd) as [es|].
  - destruct (validateElements _ _ _) as [st es']. simpl.
    unfold withElements. intros [= ->]. by rewrite length_map.
  - done.
Qed.

(** C5, as the code has it: [validate] returns on a missing DFD and on
    every DFD object typed as the schema declares.  For a missing DFD the
    result is [valid: false] with the single error and no other property;
    for a DFD object it has [valid], [errors], [warnings] and the three
    counts, [valid] tells whether [errors] is empty, and the counts are the
    lengths of the arrays (0 for a missing array). *)
Theorem validate_result_shape :
  fst (validate None)
  = {| valid := false; errors := [ "DFD object is required" ];
       warnings := None; elementCount := None; dataflowCount := None;
       trustBoundaryCount := None |}
  /\ forall dfd : Dfd,
      let r := fst (validate (Some dfd)) in
      fullShape r
      /\ valid r = (length (errors r) =? 0)%nat
      /\ elementCount r = Some (length (orEmpty (dfd_elements dfd)))
      /\ dataflowCount r = Some (length (orEmpty (dfd_dataflows dfd)))
      /\ trustBoundaryCount r
         = Some (length (orEmpty (dfd_trustBoundaries dfd))).
Proof.
  split; [reflexivity|]. intros dfd r.
  assert (Hr : r = fst (validateObject dfd)).
  { unfold r, validate. by destruct (validateObject dfd). }
  rewrite Hr. split; [apply validateObject_fullShape|].
  destruct (validateObject_counts dfd) as (H1 & H2 & H3 & H4). done.
Qed.

(** C5 as stated fails on a missing DFD: the result has no [warnings] and
    none of the three counts. *)
Lemma validate_missing_dfd_not_full_shape :
  ~ fullShape (fst (validate None))
  /\ warnings (fst (validate None)) = None
  /\ elementCount (fst (validate None)) = None
  /\ dataflowCount (fst (validate None)) = None
  /\ trustBoundaryCount (fst (validate None)) = None.
Proof.
  repeat split; try reflexivity.
  intros [[w Hw] _]. discriminate.
Qed.

(** C7: the DFD [scenario] has one untrusted actor, one process and one
    sensitive dataflow over "http" between them.  [validate] reports it
    valid and warns that the dataflow is not encrypted; on the validated
    DFD the generator returns a model with at least three findings, among
    them a [Critical] man-in-the-middle finding and a [Critical] data
    exposure finding that refer to the dataflow, and counts at least two
    critical findings. *)
Theorem scenario_validates_and_generates :
  dfd_elements Samples.scenario = Some [ Samples.customer; Samples.webServer ]
  /\ dfd_dataflows Samples.scenario = Some [ Samples.login ]
  /\ el_type Samples.customer = Some "actor"
  /\ el_trustLevel Samples.customer = Some "untrusted"
  /\ el_type Samples.webServer = Some "process"
  /\ df_protocol Samples.login = Some "http"
  /\ df_hasSensitiveData Samples.login = Some true
  /\ df_from Samples.login = el_id Samples.customer
  /\ df_to Samples.login = el_id Samples.webServer
  /\ valid (fst (validate (Some Samples.scenario))) = true
  /\ (exists w,
         warnings (fst (validate (Some Samples.scenario))) = Some w
         /\ In "Dataflow 'Login' carries sensitive data but is not encrypted"
               w)
  /\ snd (validate (Some Samples.scenario))
     = Some (validated Samples.scenario)
  /\ forall env : Env,
      exists tm,
        generateThreatModel env (validated Samples.scenario)
          Samples.noOptions = Return tm
        /\ 3 <= length (tm_threats tm)
        /\ (exists t,
               In t (tm_threats tm)
               /\ th_title t = "Man-in-the-Middle Attack"
               /\ th_severity t = Critical
               /\ th_dataflowId t = df_id Samples.login)
        /\ (exists t,
               In t (tm_threats tm)
               /\ th_title t = "Data Exposure During Transit"
               /\ th_severity t = Critical
               /\ th_dataflowId t = df_id Samples.login)
        /\ 2 <= critical (tm_riskSummary tm).
Proof.
  do 10 (split; [reflexivity|]).
  split.
  { eexists. split; [by vm_compute|]. left. reflexivity. }
  split; [reflexivity|].
  intros env. eexists. split; [by vm_compute|]. cbn [tm_threats tm_riskSummary].
  split; [simpl; lia|]. split; [|split].
  - exists (stampDataflow (uuidv4 env 11) Samples.login manInTheMiddle).
    split; [|done]. do 7 right. left. reflexivity.
  - exists (stampDataflow (uuidv4 env 12) Samples.login dataExposure).
    split; [|done]. do 8 right. left. reflexivity.
  - simpl. lia.
Qed.

(** ** Role flags *)

Lemma annotate_external (element : Element) :
  el_type element = Some "actor" \/ el_type element = Some "user" ->
  annotate element = setExternalEntity element.
Proof.
  intros [H|H]; unfold annotate, isDatastoreType, isExternalType,
    isProcessType; rewrite H; cbn; rewrite H; cbn; rewrite H; reflexivity.
Qed.

Lemma roleThreat_discovered (elements : list Element)
  (dataflows : list Dataflow) (element : Element) (t : Threat) :
  In element elements ->
  In t (elementRoleThreats element) ->
  In (fun id => stampElement id element t)
     (discoveredThreats elements dataflows).
Proof.
  intros He Ht. unfold discoveredThreats. apply in_or_app. left.
  apply in_flat_map. exists element. split; [done|].
  apply (in_map (fun t id => stampElement id element t)).
  unfold analyzeElement. apply in_or_app. by right.
Qed.

(** C10: validation sets [isExternalEntity] on every element of type
    'actor' or 'user', and the model generated from the validated DFD has
    for that element the supplementary "Malicious External Actor" finding
    (Spoofing, Repudiation; High). *)
Theorem actor_elements_get_external_actor_finding (env : Env) (dfd : Dfd)
  (options : Options) (tm : ThreatModel) (elements : list Element)
  (i : nat) (element : Element) :
  dfd_elements dfd = Some elements ->
  nth_error elements i = Some element ->
  el_type element = Some "actor" \/ el_type element = Some "user" ->
  generateThreatModel env (validated dfd) options = Return tm ->
  exists elements' element',
    dfd_elements (validated dfd) = Some elements'
    /\ nth_error elements' i = Some element'
    /\ el_isExternalEntity element' = Some true
    /\ el_id element' = el_id element
    /\ el_type element' = el_type element
    /\ In maliciousExternalActor (analyzeElement element')
    /\ exists t,
        In t (tm_threats tm)
        /\ th_title t = "Malicious External Actor"
        /\ th_description t
           = "External entity may be compromised or act maliciously"
        /\ th_references t = None
        /\ th_stride t = Some [ "Spoofing"; "Repudiation" ]
        /\ th_severity t = High
        /\ th_elementId t = el_id element
        /\ th_elementName t = el_name element
        /\ th_elementType t = el_type element.
Proof.
  intros He Hi Hty Hgen.
  assert (Hv : dfd_elements (validated dfd) = Some (map annotate elements)).
  { unfold validated. rewrite validateObject_dfd. simpl. by rewrite He. }
  assert (Hrole : In maliciousExternalActor
                     (elementRoleThreats (annotate element))).
  { rewrite annotate_external by done. unfold elementRoleThreats. simpl.
    by left. }
  exists (map annotate elements), (annotate element).
  split; [done|]. split; [by apply map_nth_error|].
  rewrite (annotate_external element Hty) in *.
  do 3 (split; [done|]).
  split; [unfold analyzeElement; apply in_or_app; by right|].
  destruct (generateThreatModel_inv _ _ _ _ Hgen)
    as (es & ds & He' & Hd & _).
  rewrite Hv in He'. injection He' as <-.
  assert (Hin : In (setExternalEntity element) (map annotate elements)).
  { rewrite <- (annotate_external element Hty). apply in_map.
    by apply nth_error_In with i. }
  destruct (discovered_in_model _ _ _ _ _ ds _ Hgen Hv Hd
              (roleThreat_discovered _ ds _ _ Hin Hrole)) as (id & m & Ht).
  eexists. split; [exact Ht|]. by repeat split.
Qed.

Lemma actor_elements_get_external_actor_finding_witness :
  dfd_elements Samples.scenario = Some [ Samples.customer; Samples.webServer ]
  /\ nth_error [ Samples.customer; Samples.webServer ] 0
     = Some Samples.customer
  /\ (el_type Samples.customer = Some "actor"
      \/ el_type Samples.customer = Some "user")
  /\ generateThreatModel Samples.sampleEnv (validated Samples.scenario)
       Samples.noOptions = Return Samples.scenarioModel
  /\ exists elements' element',
    dfd_elements (validated Samples.scenario) = Some elements'
    /\ nth_error elements' 0 = Some element'
    /\ el_isExternalEntity element' = Some true
    /\ el_id element' = el_id Samples.customer
    /\ el_type element' = el_type Samples.customer
    /\ In maliciousExternalActor (analyzeElement element')
    /\ exists t,
        In t (tm_threats Samples.scenarioModel)
        /\ th_title t = "Malicious External Actor"
        /\ th_description t
           = "External entity may be compromised or act maliciously"
        /\ th_references t = None
        /\ th_stride t = Some [ "Spoofing"; "Repudiation" ]
        /\ th_severity t = High
        /\ th_elementId t = el_id Samples.customer
        /\ th_elementName t = el_name Samples.customer
        /\ th_elementType t = el_type Samples.customer.
Proof.
  assert (He : dfd_elements Samples.scenario
               = Some [ Samples.customer; Samples.webServer ])
    by reflexivity.
  assert (Hi : nth_error [ Samples.customer; Samples.webServer ] 0
               = Some Samples.customer) by reflexivity.
  assert (Hty : el_type Samples.customer = Some "actor"
                \/ el_type Samples.customer = Some "user")
    by (left; reflexivity).
  assert (H : generateThreatModel Samples.sampleEnv
                (validated Samples.scenario) Samples.noOptions
              = Return Samples.scenarioModel) by (vm_compute; reflexivity).
  repeat (split; [first [exact He | exact Hi | exact Hty | exact H]|]).
  exact (actor_elements_get_external_actor_finding _ _ _ _ _ _ _
           He Hi Hty H).
Defined.

(** * Further properties of the library *)

Lemma includes_In (arr : list string) (x : string) :
  includes arr (Some x) = true <-> In x arr.
Proof.
  unfold includes. rewrite existsb_exists. split.
  - intros (y & Hy & E). simpl in E. apply String.eqb_eq in E. by subst.
  - intros H. exists x. split; [done|]. simpl. apply String.eqb_refl.
Qed.

Lemma includes_None (arr : list string) : includes arr None = false.
Proof. unfold includes. by induction arr. Qed.

Lemma lookupKey_None {A : Type} (k : string) (o : list (string * A)) :
  lookupKey k o = None <-> ~ In k (map fst o).
Proof.
  induction o as [|[k' v] o IH]; simpl; [tauto|].
  destruct (String.eqb k' k) eqn:E.
  - apply String.eqb_eq in E. split; [discriminate|]. tauto.
  - apply String.eqb_neq in E. rewrite IH. tauto.
Qed.

Lemma findInBuckets_spec (id : option string)
  (entries : list (string * list Pattern)) :
  match findInBuckets id entries with
  | Some p => id = Some (pat_id p) /\ In p (flat_map snd entries)
  | None => forall p, In p (flat_map snd entries) -> Some (pat_id p) <> id
  end.
Proof.
  induction entries as [|[k bucket] entries IH]; simpl; [by intros p []|].
  destruct (List.find _ bucket) as [found|] eqn:E.
  - apply find_some in E as [Hin Heq]. split.
    + destruct id as [id|]; simpl in Heq; [|done].
      apply String.eqb_eq in Heq. by subst.
    + apply in_or_app. by left.
  - destruct (findInBuckets id entries) as [p|].
    + destruct IH as [-> Hin]. split; [done|]. apply in_or_app. by right.
    + intros p Hin. apply in_app_or in Hin as [Hin|Hin]; [|by apply IH].
      pose proof (find_none _ _ E p Hin) as Hne. simpl in Hne.
      intros <-. simpl in Hne. by rewrite String.eqb_refl in Hne.
Qed.

(** [getThreatById] finds a pattern that has the identifier and is in the
    library, and reports [null] only when no pattern has it; each of the
    fifteen patterns of the library is found again by its own identifier. *)
Theorem getThreatById_lookup :
  (forall (this : Library) (id : option string),
      match getThreatById this id with
      | Some p => id = Some (pat_id p) /\ In p (allPatterns this)
      | None => forall p, In p (allPatterns this) -> Some (pat_id p) <> id
      end)
  /\ length (allPatterns library) = 15
  /\ Forall (fun p => getThreatById library (Some (pat_id p)) = Some p)
            (allPatterns library).
Proof.
  split; [|split].
  - intros this id. apply findInBuckets_spec.
  - reflexivity.
  - repeat constructor.
Qed.

Lemma metadataPattern_fold (ps : list Pattern) (st : MetadataState) :
  let st' := fold_left metadataPattern ps st in
  ms_totalPatterns st' = ms_totalPatterns st + length ps
  /\ ms_categories st'
     = fold_left (fun acc k => setAdd k acc) (map pat_category ps)
                 (ms_categories st)
  /\ ms_strideCoverage st'
     = fold_left (fun acc k => setAdd k acc)
                 (flat_map (fun p => orEmpty (pat_stride p)) ps)
                 (ms_strideCoverage st).
Proof.
  revert st. induction ps as [|p ps IH]; intros st; simpl.
  - repeat split; lia.
  - destruct (IH (metadataPattern st p)) as (H1 & H2 & H3).
    rewrite H1, H2, H3. simpl. repeat split; [lia|].
    by rewrite fold_left_app.
Qed.

Lemma metadataCategory_fold (entries : list (string * list Pattern))
  (st : MetadataState) :
  let st' := fold_left metadataCategory entries st in
  ms_totalPatterns st' = ms_totalPatterns st + length (flat_map snd entries)
  /\ ms_categories st'
     = fold_left (fun acc k => setAdd k acc)
                 (map pat_category (flat_map snd entries))
                 (ms_categories st)
  /\ ms_strideCoverage st'
     = fold_left (fun acc k => setAdd k acc)
                 (flat_map (fun p => orEmpty (pat_stride p))
                           (flat_map snd entries))
                 (ms_strideCoverage st).
Proof.
  revert st. induction entries as [|e entries IH]; intros st; simpl.
  - repeat split; lia.
  - destruct (IH (metadataCategory st e)) as (H1 & H2 & H3).
    rewrite H1, H2, H3. unfold metadataCategory.
    destruct (metadataPattern_fold (snd e)
                {| ms_categories := ms_categories st;
                   ms_totalPatterns := ms_totalPatterns st;
                   ms_strideCoverage := ms_strideCoverage st;
                   ms_types := setAdd (fst e) (ms_types st) |})
      as (P1 & P2 & P3).
    rewrite P1, P2, P3. simpl.
    rewrite length_app, map_app, flat_map_app, !fold_left_app.
    repeat split. lia.
Qed.

Lemma metadata_spec (this : Library) :
  let md := getLibraryMetadata this in
  md_totalPatterns md = length (allPatterns this)
  /\ NoDup (md_categories md)
  /\ NoDup (md_strideCoverage md)
  /\ (forall c, In c (md_categories md)
                <-> exists p, In p (allPatterns this) /\ pat_category p = c)
  /\ (forall c, In c (md_strideCoverage md)
                <-> exists p tags, In p (allPatterns this)
                                   /\ pat_stride p = Some tags
                                   /\ In c tags).
Proof.
  intros md.
  destruct (metadataCategory_fold (patterns this)
              {| ms_categories := []; ms_totalPatterns := 0;
                 ms_strideCoverage := []; ms_types := [] |})
    as (H1 & H2 & H3).
  unfold md, getLibraryMetadata, allPatterns. simpl.
  rewrite H1, H2, H3. simpl.
  split; [done|].
  split; [apply setAdd_fold_NoDup; constructor|].
  split; [apply setAdd_fold_NoDup; constructor|].
  split.
  - intros c. rewrite setAdd_fold_In, in_map_iff. simpl. split.
    + intros [[]|(p & <- & Hp)]. by exists p.
    + intros (p & Hp & <-). right. by exists p.
  - intros c. rewrite setAdd_fold_In, in_flat_map. simpl. split.
    + intros [[]|(p & Hp & Hc)].
      destruct (pat_stride p) as [tags|] eqn:E; [|done]. by exists p, tags.
    + intros (p & tags & Hp & Hs & Hc). right. exists p.
      by rewrite Hs.
Qed.

(** [getLibraryMetadata] counts every pattern of every bucket, and lists
    each category and each STRIDE tag that some pattern carries exactly
    once; the library of the source has fifteen patterns. *)
Theorem metadata_aggregates :
  (forall this : Library,
      let md := getLibraryMetadata this in
      md_totalPatterns md = length (allPatterns this)
      /\ NoDup (md_categories md)
      /\ NoDup (md_strideCoverage md)
      /\ (forall c, In c (md_categories md)
                    <-> exists p, In p (allPatterns this)
                                  /\ pat_category p = c)
      /\ (forall c, In c (md_strideCoverage md)
                    <-> exists p tags, In p (allPatterns this)
                                       /\ pat_stride p = Some tags
                                       /\ In c tags))
  /\ md_totalPatterns (getLibraryMetadata library) = 15.
Proof. split; [apply metadata_spec|reflexivity]. Qed.

Lemma getThreatsBySTRIDE_In (this : Library) (c : option string)
  (p : Pattern) :
  In p (getThreatsBySTRIDE this c)
  <-> In p (allPatterns this) /\ hasStride c p = true.
Proof.
  unfold getThreatsBySTRIDE, allPatterns. rewrite !in_flat_map. split.
  - intros (e & He & Hp). apply filter_In in Hp as [Hp Hs]. split; eauto.
  - intros [(e & He & Hp) Hs]. exists e. split; [done|].
    by apply filter_In.
Qed.

(** [getThreatsBySTRIDE] returns the patterns of the library that carry
    the tag, and nothing else; it returns a pattern for a category exactly
    when [getLibraryMetadata] lists that category in [strideCoverage], and
    none for a missing category. *)
Theorem getThreatsBySTRIDE_coverage :
  (forall (this : Library) (c : string) (p : Pattern),
      In p (getThreatsBySTRIDE this (Some c))
      <-> In p (allPatterns this)
          /\ exists tags, pat_stride p = Some tags /\ In c tags)
  /\ (forall (this : Library) (c : string),
         In c (md_strideCoverage (getLibraryMetadata this))
         <-> getThreatsBySTRIDE this (Some c) <> [])
  /\ (forall this : Library, getThreatsBySTRIDE this None = []).
Proof.
  assert (Hs : forall c p, hasStride (Some c) p = true
                           <-> exists tags, pat_stride p = Some tags
                                            /\ In c tags).
  { intros c p. unfold hasStride. destruct (pat_stride p) as [tags|].
    - rewrite includes_In. split; [eauto|]. by intros (? & [= <-] & ?).
    - split; [done|]. by intros (? & ? & ?). }
  split; [|split].
  - intros this c p. by rewrite getThreatsBySTRIDE_In, Hs.
  - intros this c.
    destruct (metadata_spec this) as (_ & _ & _ & _ & Hcov).
    rewrite Hcov. split.
    + intros (p & tags & Hp & Ht & Hc) Hnil.
      assert (Hin : In p (getThreatsBySTRIDE this (Some c))).
      { apply getThreatsBySTRIDE_In. split; [done|]. apply Hs. eauto. }
      rewrite Hnil in Hin. destruct Hin.
    + intros Hne. destruct (getThreatsBySTRIDE this (Some c)) as [|p l] eqn:E;
        [done|].
      assert (Hin : In p (getThreatsBySTRIDE this (Some c)))
        by (rewrite E; by left).
      apply getThreatsBySTRIDE_In in Hin as [Hp Hh].
      apply Hs in Hh as (tags & Ht & Hc). by exists p, tags.
  - intros this. unfold getThreatsBySTRIDE.
    induction (patterns this) as [|e es IH]; simpl; [done|].
    rewrite IH, app_nil_r. induction (snd e) as [|p ps IHp]; simpl; [done|].
    unfold hasStride at 1. destruct (pat_stride p); by rewrite ?includes_None.
Qed.

Lemma getThreatPatterns_unknown (t : string) :
  ~ In t (map fst threatLibrary.typeMap) ->
  getThreatPatterns library (Some t) = [].
Proof.
  intros Hn. unfold getThreatPatterns. simpl interp.
  assert (H1 : lookupKey t threatLibrary.typeMap = None)
    by by apply lookupKey_None.
  rewrite H1.
  assert (H2 : lookupKey t (patterns library) = None).
  { apply lookupKey_None. intros Hin. apply Hn. simpl in Hin |- *. tauto. }
  by rewrite H2.
Qed.

(** [getThreatPatterns] treats 'user' as 'actor' and 'database' as
    'datastore' in every library; in the library of the source a type that
    is no key of [typeMap], and a missing type, have no patterns. *)
Theorem getThreatPatterns_aliases :
  (forall this : Library,
      getThreatPatterns this (Some "user")
      = getThreatPatterns this (Some "actor")
      /\ getThreatPatterns this (Some "database")
         = getThreatPatterns this (Some "datastore"))
  /\ (forall t : string,
         getThreatPatterns library (Some t) <> [] ->
         In t [ "process"; "datastore"; "database"; "actor";
                "external_entity"; "user"; "dataflow" ])
  /\ getThreatPatterns library None = [].
Proof.
  split; [by intros this|]. split; [|reflexivity].
  intros t Hne.
  destruct (decide (In t (map fst threatLibrary.typeMap))) as [Hin|Hn];
    [exact Hin|].
  by apply getThreatPatterns_unknown in Hn.
Qed.

Lemma elementPatternThreats_titles (element : Element) :
  map th_title (elementPatternThreats element)
  = map pat_title
        (List.filter (matchesElement element)
           (getThreatPatterns library (el_type element))).
Proof.
  unfold elementPatternThreats. rewrite map_map. by apply map_ext.
Qed.

(** The type of an element alone decides which patterns give it findings:
    both actor patterns for 'actor' but only the first for 'user', the four
    process patterns, the four datastore patterns for 'datastore' and
    'database', the third-party pattern for 'external_entity', the four
    dataflow patterns for an element typed 'dataflow', and none for any
    other or missing type. *)
Theorem pattern_findings_by_type (element : Element) :
  map th_title (elementPatternThreats element)
  = if strictEq (el_type element) (Some "actor")
    then [ "Malicious External Actor"; "Account Compromise" ]
    else if strictEq (el_type element) (Some "user")
    then [ "Malicious External Actor" ]
    else if strictEq (el_type element) (Some "process")
    then [ "Input Validation Bypass"; "Privilege Escalation";
           "Broken Authentication"; "Business Logic Bypass" ]
    else if strictEq (el_type element) (Some "datastore")
            || strictEq (el_type element) (Some "database")
    then [ "Unauthorized Data Access"; "Data Tampering"; "Data Loss";
           "SQL Injection via Database" ]
    else if strictEq (el_type element) (Some "external_entity")
    then [ "Compromised Third-Party" ]
    else if strictEq (el_type element) (Some "dataflow")
    then [ "Man-in-the-Middle Attack"; "Eavesdropping"; "Replay Attack";
           "Denial of Service" ]
    else [].
Proof.
  rewrite elementPatternThreats_titles. unfold matchesElement.
  destruct (el_type element) as [t|]; [|reflexivity]. simpl strictEq.
  repeat match goal with
         | |- context [String.eqb t ?lit] =>
             destruct (String.eqb_spec t lit) as [->|?]; [reflexivity|]
         end.
  simpl. rewrite getThreatPatterns_unknown; [done|].
  simpl. intuition congruence.
Qed.

(** * Further properties of the generator *)

Lemma tally_counts (threats : list Threat) (r : RiskSummary) :
  critical (tally threats r) = critical r + countSeverity Critical threats
  /\ high (tally threats r) = high r + countSeverity High threats
  /\ medium (tally threats r) = medium r + countSeverity Medium threats
  /\ low (tally threats r) = low r + countSeverity Low threats.
Proof.
  revert r. induction threats as [|t threats IH]; intros r.
  - unfold countSeverity. simpl. lia.
  - unfold tally in *. simpl fold_left.
    destruct (IH (bump (th_severity t) r)) as (H1 & H2 & H3 & H4).
    rewrite H1, H2, H3, H4. unfold countSeverity, hasSeverity. simpl.
    destruct (th_severity t); simpl; lia.
Qed.

Lemma countSeverity_map (s : Severity) (l1 l2 : list Threat) :
  map th_severity l1 = map th_severity l2 ->
  countSeverity s l1 = countSeverity s l2.
Proof.
  unfold countSeverity, hasSeverity. revert l2.
  induction l1 as [|a l1 IH]; intros [|b l2] H; try discriminate; [done|].
  injection H as Hab H. simpl. rewrite Hab.
  destruct (severityEqb (th_severity b) s); simpl; by rewrite (IH l2).
Qed.

Lemma countSeverity_sort (s : Severity) (l : list Threat) :
  countSeverity s (sort compareThreats l) = countSeverity s l.
Proof.
  unfold countSeverity.
  rewrite (sort_filter (fun t => severityOrder (th_severity t))); [done|done|].
  apply hasSeverity_key.
Qed.

Lemma model_risk_counts (env : Env) (dfd : Dfd) (options : Options)
  (tm : ThreatModel) :
  generateThreatModel env dfd options = Return tm ->
  critical (tm_riskSummary tm) = countSeverity Critical (tm_threats tm)
  /\ high (tm_riskSummary tm) = countSeverity High (tm_threats tm)
  /\ medium (tm_riskSummary tm) = countSeverity Medium (tm_threats tm)
  /\ low (tm_riskSummary tm) = countSeverity Low (tm_threats tm).
Proof.
  intros Hgen.
  destruct (generateThreatModel_inv _ _ _ _ Hgen)
    as (es & ds & _ & _ & Ht & _ & Hr).
  assert (Hc : forall s,
             countSeverity s (tm_threats tm)
             = countSeverity s (assignIds env 0 (discoveredThreats es ds))).
  { intros s. rewrite Ht, countSeverity_sort. unfold discoveryOrder.
    apply countSeverity_map, applyCustomRules_severity. }
  rewrite Hr, !Hc.
  destruct (tally_counts (assignIds env 0 (discoveredThreats es ds))
              (gs_riskSummary initialState)) as (H1 & H2 & H3 & H4).
  by rewrite H1, H2, H3, H4.
Qed.

(** Each count of [riskSummary] is the number of findings of that severity
    in the returned list. *)
Theorem risk_summary_counts (env : Env) (dfd : Dfd) (options : Options)
  (tm : ThreatModel) :
  generateThreatModel env dfd options = Return tm ->
  critical (tm_riskSummary tm) = countSeverity Critical (tm_threats tm)
  /\ high (tm_riskSummary tm) = countSeverity High (tm_threats tm)
  /\ medium (tm_riskSummary tm) = countSeverity Medium (tm_threats tm)
  /\ low (tm_riskSummary tm) = countSeverity Low (tm_threats tm).
Proof. apply model_risk_counts. Qed.

Lemma risk_summary_counts_witness :
  generateThreatModel Samples.sampleEnv (validated Samples.scenario)
    Samples.noOptions = Return Samples.scenarioModel
  /\ critical (tm_riskSummary Samples.scenarioModel)
     = countSeverity Critical (tm_threats Samples.scenarioModel)
  /\ high (tm_riskSummary Samples.scenarioModel)
     = countSeverity High (tm_threats Samples.scenarioModel)
  /\ medium (tm_riskSummary Samples.scenarioModel)
     = countSeverity Medium (tm_threats Samples.scenarioModel)
  /\ low (tm_riskSummary Samples.scenarioModel)
     = countSeverity Low (tm_threats Samples.scenarioModel).
Proof.
  assert (H : generateThreatModel Samples.sampleEnv
                (validated Samples.scenario) Samples.noOptions
              = Return Samples.scenarioModel) by (vm_compute; reflexivity).
  split; [exact H|]. exact (risk_summary_counts _ _ _ _ H).
Defined.

(** ** Identifiers *)

Lemma discovered_id (elements : list Element) (dataflows : list Dataflow) :
  Forall (fun f => forall id, th_id (f id) = Some id)
         (discoveredThreats elements dataflows).
Proof.
  apply List.Forall_forall. intros f Hin. unfold discoveredThreats in Hin.
  rewrite in_app_iff, !in_flat_map in Hin.
  destruct Hin as [(e & _ & Hin)|(d & _ & Hin)];
    apply in_map_iff in Hin as (t0 & <- & _); done.
Qed.

Lemma assignIds_ids (env : Env) (fs : list (string -> Threat)) (n : nat) :
  Forall (fun f => forall id, th_id (f id) = Some id) fs ->
  map th_id (assignIds env n fs)
  = map (fun k => Some (uuidv4 env k)) (seq n (length fs)).
Proof.
  revert n. induction fs as [|f fs IH]; intros n Hf; simpl; [done|].
  inversion Hf as [|? ? Hhd Htl]; subst. by rewrite Hhd, IH.
Qed.

Lemma applyCustomRules_ids (options : Options) (threats : list Threat) :
  map th_id (applyCustomRules options threats) = map th_id threats.
Proof.
  unfold applyCustomRules. destruct (customRules options) as [rules|]; [|done].
  rewrite map_map. apply map_ext. intros t. by destruct (th_id t ≫= _).
Qed.

Lemma generateThreatModel_id (env : Env) (dfd : Dfd) (options : Options)
  (tm : ThreatModel) :
  generateThreatModel env dfd options = Return tm ->
  exists elements dataflows,
    dfd_elements dfd = Some elements
    /\ dfd_dataflows dfd = Some dataflows
    /\ tm_id tm = uuidv4 env (length (discoveredThreats elements dataflows))
    /\ tm_dfdId tm = dfd_id dfd
    /\ tm_dfdName tm = dfd_name dfd.
Proof.
  unfold generateThreatModel.
  destruct (dfd_elements dfd) as [elements|]; [|discriminate].
  destruct (dfd_dataflows dfd) as [dataflows|]; [|discriminate].
  cbn. intros [= <-]. exists elements, dataflows. cbn.
  pose proof (Collected_dataflows env dataflows _ _
                (Collected_elements env elements _ _ (Collected_initial env)))
    as (_ & Hn & _).
  cbn [app] in Hn. fold (discoveredThreats elements dataflows) in Hn.
  by rewrite Hn.
Qed.

(** When [uuidv4] never returns the same value twice, every finding of the
    model has an identifier, the identifiers are pairwise distinct, and
    none of them is the identifier of the model. *)
Theorem finding_ids_unique (env : Env) (dfd : Dfd) (options : Options)
  (tm : ThreatModel) :
  (forall n m, uuidv4 env n = uuidv4 env m -> n = m) ->
  generateThreatModel env dfd options = Return tm ->
  Forall (fun t => is_Some (th_id t)) (tm_threats tm)
  /\ NoDup (map th_id (tm_threats tm))
  /\ ~ In (Some (tm_id tm)) (map th_id (tm_threats tm)).
Proof.
  intros Hinj Hgen.
  destruct (generateThreatModel_inv _ _ _ _ Hgen)
    as (es & ds & He & Hd & Ht & _).
  destruct (generateThreatModel_id _ _ _ _ Hgen)
    as (es' & ds' & He' & Hd' & Hid & _).
  rewrite He in He'. rewrite Hd in Hd'.
  injection He' as <-. injection Hd' as <-.
  assert (Hids : map th_id (tm_threats tm)
                 ≡ₚ map (fun k => Some (uuidv4 env k))
                        (seq 0 (length (discoveredThreats es ds)))).
  { rewrite Ht, (sort_Permutation compareThreats). unfold discoveryOrder.
    rewrite applyCustomRules_ids. rewrite assignIds_ids; [done|].
    apply discovered_id. }
  split; [|split].
  - apply List.Forall_forall. intros t Hin.
    apply (in_map th_id) in Hin.
    apply (Permutation_in _ Hids) in Hin.
    apply in_map_iff in Hin as (k & <- & _). by eexists.
  - rewrite Hids. apply NoDup_fmap_2; [|apply NoDup_seq].
    intros n m [= H]. by apply Hinj.
  - intros Hin. apply (Permutation_in _ Hids) in Hin.
    apply in_map_iff in Hin as (k & [= Hk] & Hseq).
    rewrite Hid in Hk. apply Hinj in Hk. apply in_seq in Hseq. lia.
Qed.

Lemma sampleEnv_injective (n m : nat) :
  uuidv4 Samples.sampleEnv n = uuidv4 Samples.sampleEnv m -> n = m.
Proof.
  simpl. intros H. injection H as H. by apply (inj pretty).
Qed.

Lemma finding_ids_unique_witness :
  (forall n m,
      uuidv4 Samples.sampleEnv n = uuidv4 Samples.sampleEnv m -> n = m)
  /\ generateThreatModel Samples.sampleEnv (validated Samples.scenario)
       Samples.noOptions = Return Samples.scenarioModel
  /\ Forall (fun t => is_Some (th_id t)) (tm_threats Samples.scenarioModel)
  /\ NoDup (map th_id (tm_threats Samples.scenarioModel))
  /\ ~ In (Some (tm_id Samples.scenarioModel))
          (map th_id (tm_threats Samples.scenarioModel)).
Proof.
  assert (H : generateThreatModel Samples.sampleEnv
                (validated Samples.scenario) Samples.noOptions
              = Return Samples.scenarioModel) by (vm_compute; reflexivity).
  split; [exact sampleEnv_injective|]. split; [exact H|].
  exact (finding_ids_unique _ _ _ _ sampleEnv_injective H).
Defined.

(** ** The custom rules *)

Lemma insertSorted_map {A : Type} (cmp : A -> A -> Z) (g : A -> A) (x : A)
  (l : list A) :
  (forall a b, cmp (g a) (g b) = cmp a b) ->
  insertSorted cmp (g x) (map g l) = map g (insertSorted cmp x l).
Proof.
  intros Hg. induction l as [|y l IH]; simpl; [done|].
  rewrite Hg. destruct (0 <? cmp x y)%Z; simpl; by rewrite ?IH.
Qed.

Lemma sort_map {A : Type} (cmp : A -> A -> Z) (g : A -> A) (l : list A) :
  (forall a b, cmp (g a) (g b) = cmp a b) ->
  sort cmp (map g l) = map g (sort cmp l).
Proof.
  intros Hg. induction l as [|x l IH]; simpl; [done|].
  fold (sort cmp (map g l)). fold (sort cmp l).
  rewrite IH. by apply insertSorted_map.
Qed.

Lemma applyCustomRules_map (options : Options) (threats : list Threat) :
  applyCustomRules options threats
  = map (fun t => withMitigations t
                    (th_mitigations t ++ customMitigations options t))
        threats.
Proof.
  unfold applyCustomRules, customMitigations.
  destruct (customRules options) as [rules|].
  - apply map_ext. intros t. destruct (th_id t ≫= _); [done|].
    by rewrite app_nil_r, withMitigations_same.
  - rewrite <- (map_id threats) at 1. apply map_ext. intros t.
    by rewrite app_nil_r, withMitigations_same.
Qed.

(** The custom rules change nothing but mitigations: a call with rules
    returns the model of the call without rules, where each finding has the
    rule stored under its identifier appended to its mitigations; the
    order of the findings, their severities and the risk summary are the
    same. *)
Theorem custom_rules_extend_mitigations (env : Env) (dfd : Dfd)
  (options : Options) (tm : ThreatModel) :
  generateThreatModel env dfd options = Return tm ->
  exists tm0,
    generateThreatModel env dfd {| customRules := None |} = Return tm0
    /\ tm_threats tm
       = map (fun t => withMitigations t
                         (th_mitigations t ++ customMitigations options t))
             (tm_threats tm0)
    /\ tm_riskSummary tm = tm_riskSummary tm0
    /\ tm_totalThreats tm = tm_totalThreats tm0
    /\ tm_id tm = tm_id tm0.
Proof.
  intros Hgen.
  destruct (generateThreatModel_inv _ _ _ _ Hgen)
    as (es & ds & He & Hd & Ht & Hn & Hr).
  destruct (generateThreatModel_id _ _ _ _ Hgen)
    as (es1 & ds1 & He1 & Hd1 & Hid & _).
  destruct (generateThreatModel_returns env dfd {| customRules := None |}
              es ds He Hd) as [tm0 Hgen0].
  destruct (generateThreatModel_inv _ _ _ _ Hgen0)
    as (es' & ds' & He' & Hd' & Ht0 & Hn0 & Hr0).
  destruct (generateThreatModel_id _ _ _ _ Hgen0)
    as (es2 & ds2 & He2 & Hd2 & Hid0 & _).
  rewrite He in He', He1, He2. rewrite Hd in Hd', Hd1, Hd2.
  injection He' as <-. injection Hd' as <-.
  injection He1 as <-. injection Hd1 as <-.
  injection He2 as <-. injection Hd2 as <-.
  exists tm0. split; [done|].
  assert (Hthreats :
            tm_threats tm
            = map (fun t => withMitigations t
                              (th_mitigations t ++ customMitigations options t))
                  (tm_threats tm0)).
  { rewrite Ht, Ht0. unfold discoveryOrder.
    rewrite (applyCustomRules_map options).
    rewrite (applyCustomRules_map {| customRules := None |}).
    rewrite sort_map by done.
    f_equal. f_equal. rewrite <- (map_id (assignIds _ _ _)) at 1.
    apply map_ext. intros t. unfold customMitigations. simpl.
    by rewrite app_nil_r, withMitigations_same. }
  split; [done|]. split; [by rewrite Hr, Hr0|].
  split; [|by rewrite Hid, Hid0].
  by rewrite Hn, Hn0, Hthreats, length_map.
Qed.

Lemma custom_rules_extend_mitigations_witness :
  generateThreatModel Samples.sampleEnv (validated Samples.scenario)
    Samples.loginRule = Return Samples.scenarioRuleModel
  /\ exists tm0,
    generateThreatModel Samples.sampleEnv (validated Samples.scenario)
      {| customRules := None |} = Return tm0
    /\ tm_threats Samples.scenarioRuleModel
       = map (fun t =>
                withMitigations t
                  (th_mitigations t
                   ++ customMitigations Samples.loginRule t))
             (tm_threats tm0)
    /\ tm_riskSummary Samples.scenarioRuleModel = tm_riskSummary tm0
    /\ tm_totalThreats Samples.scenarioRuleModel = tm_totalThreats tm0
    /\ tm_id Samples.scenarioRuleModel = tm_id tm0.
Proof.
  assert (H : generateThreatModel Samples.sampleEnv
                (validated Samples.scenario) Samples.loginRule
              = Return Samples.scenarioRuleModel) by (vm_compute; reflexivity).
  split; [exact H|]. exact (custom_rules_extend_mitigations _ _ _ _ H).
Defined.

(** ** Subjects of the findings *)

(** A finding as [analyzeElement] or [analyzeDataflow] returns it carries
    no identifier and no subject yet. *)
Lemma analyzeElement_unstamped (element : Element) (t : Threat) :
  In t (analyzeElement element) ->
  th_id t = None /\ th_elementId t = None /\ th_dataflowId t = None.
Proof.
  unfold analyzeElement. rewrite in_app_iff. intros [Hin|Hin].
  - by apply elementPatternThreats_inv in Hin as (p & _ & _ & ->).
  - unfold elementRoleThreats in Hin. rewrite !in_app_iff in Hin.
    destruct Hin as [Hin|[Hin|Hin]];
      match type of Hin with
      | In _ (if ?b then _ else _) => destruct b; [|destruct Hin]
      end;
      by destruct Hin as [<-|[]].
Qed.

Lemma analyzeDataflow_unstamped (dataflow : Dataflow) (t : Threat) :
  In t (analyzeDataflow dataflow) ->
  th_id t = None /\ th_elementId t = None /\ th_dataflowId t = None.
Proof.
  unfold analyzeDataflow. rewrite in_app_iff. intros [Hin|Hin].
  - unfold dataflowPatternThreats in Hin.
    by apply in_map_iff in Hin as (p & <- & _).
  - unfold dataflowFixedThreats in Hin. rewrite in_app_iff in Hin.
    destruct Hin as [Hin|Hin];
      match type of Hin with
      | In _ (if ?b then _ else _) => destruct b; [|destruct Hin]
      end;
      by destruct Hin as [<-|[]].
Qed.

Lemma analyzeElement_no_dataflow (element : Element) (t : Threat) :
  In t (analyzeElement element) ->
  th_dataflowName t = None /\ th_dataflowType t = None.
Proof.
  unfold analyzeElement. rewrite in_app_iff. intros [H|H].
  - by apply elementPatternThreats_inv in H as (p & _ & _ & ->).
  - unfold elementRoleThreats in H. rewrite !in_app_iff in H.
    destruct H as [H|[H|H]];
      match type of H with
      | In _ (if ?b then _ else _) => destruct b; [|destruct H]
      end;
      by destruct H as [<-|[]].
Qed.

Lemma analyzeDataflow_no_element (dataflow : Dataflow) (t : Threat) :
  In t (analyzeDataflow dataflow) ->
  th_elementName t = None /\ th_elementType t = None.
Proof.
  unfold analyzeDataflow. rewrite in_app_iff. intros [H|H].
  - unfold dataflowPatternThreats in H.
    by apply in_map_iff in H as (p & <- & _).
  - unfold dataflowFixedThreats in H. rewrite in_app_iff in H.
    destruct H as [H|H];
      match type of H with
      | In _ (if ?b then _ else _) => destruct b; [|destruct H]
      end;
      by destruct H as [<-|[]].
Qed.

(** The titles of the findings of a dataflow, and of the findings of an
    element without type: no title is in both lists. *)
Lemma analyzeDataflow_titles (dataflow : Dataflow) (t : Threat) :
  In t (analyzeDataflow dataflow) ->
  In (th_title t)
     [ "Man-in-the-Middle Attack"; "Eavesdropping"; "Replay Attack";
       "Denial of Service"; "Data Exposure During Transit" ].
Proof.
  unfold analyzeDataflow. rewrite in_app_iff. intros [H|H].
  - unfold dataflowPatternThreats in H.
    apply in_map_iff in H as (p & <- & Hp).
    apply filter_In in Hp as [Hp _].
    change (In p [ DF01; DF02; DF03; DF04 ]) in Hp.
    cbn [In] in Hp.
    destruct Hp as [<-|[<-|[<-|[<-|[]]]]]; cbn; tauto.
  - unfold dataflowFixedThreats in H. rewrite in_app_iff in H.
    destruct H as [H|H];
      match type of H with
      | In _ (if ?b then _ else _) => destruct b; [|destruct H]
      end;
      destruct H as [<-|[]]; cbn; tauto.
Qed.

Lemma analyzeElement_untyped_titles (element : Element) (t : Threat) :
  el_type element = None ->
  In t (analyzeElement element) ->
  In (th_title t)
     [ "Malicious External Actor"; "Unauthorized Data Access";
       "Privilege Escalation" ].
Proof.
  intros Hty. unfold analyzeElement, elementPatternThreats. rewrite Hty.
  change (getThreatPatterns library None) with (@nil Pattern).
  cbn [List.filter map app].
  unfold elementRoleThreats. rewrite !in_app_iff.
  intros [H|[H|H]];
    match type of H with
    | In _ (if ?b then _ else _) => destruct b; [|destruct H]
    end;
    destruct H as [<-|[]]; cbn; tauto.
Qed.

Lemma assignIds_origin (env : Env) (fs : list (string -> Threat)) (n : nat)
  (t : Threat) :
  In t (assignIds env n fs) ->
  exists f k, In f fs /\ t = f (uuidv4 env k).
Proof.
  revert n. induction fs as [|g fs IH]; intros n; simpl; [done|].
  intros [<-|Hin].
  - exists g, n. split; [by left|done].
  - destruct (IH _ Hin) as (f & k & Hf & ->). exists f, k. split; auto.
Qed.

(** No finding is both a finding of an element and one of a dataflow. *)
Lemma finding_kinds_exclusive (env : Env) (options : Options)
  (elements : list Element) (dataflows : list Dataflow) (t : Threat) :
  elementFinding env options elements t ->
  dataflowFinding env options dataflows t ->
  False.
Proof.
  intros (e & t0 & n & _ & Ht0 & ->) (d & t1 & m & _ & Ht1 & Heq).
  destruct (analyzeDataflow_no_element _ _ Ht1) as [_ Hty].
  assert (Htype : el_type e = None).
  { apply (f_equal th_elementType) in Heq. cbn in Heq. congruence. }
  assert (Htitle : th_title t0 = th_title t1).
  { apply (f_equal th_title) in Heq. exact Heq. }
  pose proof (analyzeElement_untyped_titles _ _ Htype Ht0) as He.
  pose proof (analyzeDataflow_titles _ _ Ht1) as Hd.
  rewrite Htitle in He. cbn [In] in He, Hd.
  destruct He as [He|[He|[He|[]]]];
    rewrite <- He in Hd;
    destruct Hd as [Hd|[Hd|[Hd|[Hd|[Hd|[]]]]]]; discriminate Hd.
Qed.

Lemma model_threat_subject (env : Env) (dfd : Dfd) (options : Options)
  (tm : ThreatModel) (t : Threat) :
  generateThreatModel env dfd options = Return tm ->
  In t (tm_threats tm) ->
  exists elements dataflows,
    dfd_elements dfd = Some elements
    /\ dfd_dataflows dfd = Some dataflows
    /\ ((exists element t0,
            In element elements
            /\ In t0 (analyzeElement element)
            /\ th_title t = th_title t0
            /\ th_severity t = th_severity t0
            /\ th_elementId t = el_id element
            /\ th_elementName t = el_name element
            /\ th_elementType t = el_type element
            /\ th_dataflowId t = None
            /\ th_dataflowName t = None)
        \/ (exists dataflow t0,
               In dataflow dataflows
               /\ In t0 (analyzeDataflow dataflow)
               /\ th_title t = th_title t0
               /\ th_severity t = th_severity t0
               /\ th_dataflowId t = df_id dataflow
               /\ th_dataflowName t = df_name dataflow
               /\ th_dataflowType t = df_type dataflow
               /\ th_elementId t = None
               /\ th_elementName t = None)).
Proof.
  intros Hgen Hin.
  destruct (model_threat_discovered _ _ _ _ _ Hgen Hin)
    as (es & ds & f & id & m & He & Hd & Hf & ->).
  exists es, ds. split; [done|]. split; [done|].
  unfold discoveredThreats in Hf. rewrite in_app_iff, !in_flat_map in Hf.
  destruct Hf as [(e & Hine & Hf)|(d & Hind & Hf)];
    apply in_map_iff in Hf as (t0 & <- & Ht0).
  - left. exists e, t0.
    destruct (analyzeElement_unstamped _ _ Ht0) as (_ & _ & Hdf).
    assert (Hn : th_dataflowName t0 = None).
    { revert Ht0. unfold analyzeElement. rewrite in_app_iff.
      intros [H|H].
      - by apply elementPatternThreats_inv in H as (p & _ & _ & ->).
      - unfold elementRoleThreats in H. rewrite !in_app_iff in H.
        destruct H as [H|[H|H]];
          match type of H with
          | In _ (if ?b then _ else _) => destruct b; [|destruct H]
          end;
          by destruct H as [<-|[]]. }
    by repeat split.
  - right. exists d, t0.
    destruct (analyzeDataflow_unstamped _ _ Ht0) as (_ & Hel & _).
    assert (Hn : th_elementName t0 = None).
    { revert Ht0. unfold analyzeDataflow. rewrite in_app_iff.
      intros [H|H].
      - unfold dataflowPatternThreats in H.
        by apply in_map_iff in H as (p & <- & _).
      - unfold dataflowFixedThreats in H. rewrite in_app_iff in H.
        destruct H as [H|H];
          match type of H with
          | In _ (if ?b then _ else _) => destruct b; [|destruct H]
          end;
          by destruct H as [<-|[]]. }
    by repeat split.
Qed.

(** Every finding of the model has exactly one kind of subject.  Either it
    is a finding that [analyzeElement] returned for an element of the DFD,
    stamped with an identifier and with that element's id, name and type
    and extended by the custom rule of its identifier, and then it is no
    finding of a dataflow and carries no dataflow id, name or type; or it
    is a finding that [analyzeDataflow] returned for a dataflow, stamped
    and extended in the same way, and then it is no finding of an element
    and carries no element id, name or type. *)
Theorem finding_has_one_subject (env : Env) (dfd : Dfd) (options : Options)
  (tm : ThreatModel) (t : Threat) :
  generateThreatModel env dfd options = Return tm ->
  In t (tm_threats tm) ->
  exists elements dataflows,
    dfd_elements dfd = Some elements
    /\ dfd_dataflows dfd = Some dataflows
    /\ ((elementFinding env options elements t
         /\ ~ dataflowFinding env options dataflows t
         /\ th_dataflowId t = None
         /\ th_dataflowName t = None
         /\ th_dataflowType t = None)
        \/ (dataflowFinding env options dataflows t
            /\ ~ elementFinding env options elements t
            /\ th_elementId t = None
            /\ th_elementName t = None
            /\ th_elementType t = None)).
Proof.
  intros Hgen Hin.
  destruct (generateThreatModel_inv _ _ _ _ Hgen)
    as (es & ds & He & Hd & Ht & _).
  rewrite Ht in Hin. apply (proj1 (sort_In compareThreats _ _)) in Hin.
  unfold discoveryOrder in Hin. rewrite applyCustomRules_map in Hin.
  apply in_map_iff in Hin as (s & <- & Hin).
  apply assignIds_origin in Hin as (f & k & Hf & ->).
  exists es, ds. split; [done|]. split; [done|].
  unfold discoveredThreats in Hf. rewrite in_app_iff, !in_flat_map in Hf.
  destruct Hf as [(e & Hine & Hf)|(d & Hind & Hf)];
    apply in_map_iff in Hf as (t0 & <- & Ht0).
  - left.
    assert (HE : elementFinding env options es
                   (customised options (stampElement (uuidv4 env k) e t0)))
      by by exists e, t0, k.
    split; [exact HE|].
    split; [intros HD; exact (finding_kinds_exclusive _ _ _ _ _ HE HD)|].
    destruct (analyzeElement_unstamped _ _ Ht0) as (_ & _ & Hid).
    destruct (analyzeElement_no_dataflow _ _ Ht0) as [Hname Hty].
    by cbn.
  - right.
    assert (HD : dataflowFinding env options ds
                   (customised options (stampDataflow (uuidv4 env k) d t0)))
      by by exists d, t0, k.
    split; [exact HD|].
    split; [intros HE; exact (finding_kinds_exclusive _ _ _ _ _ HE HD)|].
    destruct (analyzeDataflow_unstamped _ _ Ht0) as (_ & Hid & _).
    destruct (analyzeDataflow_no_element _ _ Ht0) as [Hname Hty].
    by cbn.
Qed.

Lemma finding_has_one_subject_witness :
  generateThreatModel Samples.sampleEnv (validated Samples.scenario)
    Samples.noOptions = Return Samples.scenarioModel
  /\ In (stampDataflow "uuid-12" Samples.login dataExposure)
        (tm_threats Samples.scenarioModel)
  /\ exists elements dataflows,
    dfd_elements (validated Samples.scenario) = Some elements
    /\ dfd_dataflows (validated Samples.scenario) = Some dataflows
    /\ ((elementFinding Samples.sampleEnv Samples.noOptions elements
           (stampDataflow "uuid-12" Samples.login dataExposure)
         /\ ~ dataflowFinding Samples.sampleEnv Samples.noOptions dataflows
               (stampDataflow "uuid-12" Samples.login dataExposure)
         /\ th_dataflowId
              (stampDataflow "uuid-12" Samples.login dataExposure) = None
         /\ th_dataflowName
              (stampDataflow "uuid-12" Samples.login dataExposure) = None
         /\ th_dataflowType
              (stampDataflow "uuid-12" Samples.login dataExposure) = None)
        \/ (dataflowFinding Samples.sampleEnv Samples.noOptions dataflows
              (stampDataflow "uuid-12" Samples.login dataExposure)
            /\ ~ elementFinding Samples.sampleEnv Samples.noOptions elements
                  (stampDataflow "uuid-12" Samples.login dataExposure)
            /\ th_elementId
                 (stampDataflow "uuid-12" Samples.login dataExposure) = None
            /\ th_elementName
                 (stampDataflow "uuid-12" Samples.login dataExposure) = None
            /\ th_elementType
                 (stampDataflow "uuid-12" Samples.login dataExposure)
               = None)).
Proof.
  assert (H : generateThreatModel Samples.sampleEnv
                (validated Samples.scenario) Samples.noOptions
              = Return Samples.scenarioModel) by (vm_compute; reflexivity).
  assert (Hin : In (stampDataflow "uuid-12" Samples.login dataExposure)
                   (tm_threats Samples.scenarioModel)).
  { vm_compute. do 8 right. left. reflexivity. }
  split; [exact H|]. split; [exact Hin|].
  exact (finding_has_one_subject _ _ _ _ _ H Hin).
Defined.

(** ** Findings of a dataflow *)

(** Which patterns give a dataflow findings: "Eavesdropping", "Replay
    Attack" and "Denial of Service" always, and the library's
    "Man-in-the-Middle Attack" only when the protocol is written exactly
    'HTTP', 'FTP', 'SMTP' or 'TELNET'. *)
Theorem dataflow_pattern_findings (dataflow : Dataflow) :
  map th_title (dataflowPatternThreats dataflow)
  = (if includes [ "HTTP"; "FTP"; "SMTP"; "TELNET" ] (df_protocol dataflow)
     then [ "Man-in-the-Middle Attack" ] else [])
    ++ [ "Eavesdropping"; "Replay Attack"; "Denial of Service" ].
Proof.
  unfold dataflowPatternThreats.
  change (getThreatPatterns library (Some "dataflow"))
    with [ DF01; DF02; DF03; DF04 ].
  cbn [List.filter]. unfold matchesDataflow.
  cbn [pat_appliesToDataflow pat_protocols DF01 DF02 DF03 DF04 truthyBool negb].
  by destruct (includes _ (df_protocol dataflow)).
Qed.

(** Every finding of a dataflow that carries sensitive data is [Critical],
    whatever the baseline of its pattern, and there are at least four. *)
Theorem sensitive_dataflow_all_critical (dataflow : Dataflow) :
  truthyBool (df_hasSensitiveData dataflow) = true ->
  Forall (fun t => th_severity t = Critical) (analyzeDataflow dataflow)
  /\ 4 <= length (analyzeDataflow dataflow).
Proof.
  intros Hs. split.
  - apply List.Forall_forall. intros t. unfold analyzeDataflow.
    rewrite in_app_iff. intros [Hin|Hin].
    + unfold dataflowPatternThreats in Hin.
      apply in_map_iff in Hin as (p & <- & _). simpl.
      unfold calculateSeverityForDataflow. by rewrite Hs.
    + unfold dataflowFixedThreats in Hin. rewrite in_app_iff in Hin.
      destruct Hin as [Hin|Hin];
        match type of Hin with
        | In _ (if ?b then _ else _) => destruct b; [|destruct Hin]
        end;
        by destruct Hin as [<-|[]].
  - unfold analyzeDataflow. rewrite length_app.
    rewrite <- (length_map th_title (dataflowPatternThreats dataflow)).
    unfold dataflowPatternThreats.
    change (getThreatPatterns library (Some "dataflow"))
      with [ DF01; DF02; DF03; DF04 ].
    cbn [List.filter]. unfold matchesDataflow.
    cbn [pat_appliesToDataflow pat_protocols DF01 DF02 DF03 DF04 truthyBool
         negb].
    unfold dataflowFixedThreats. rewrite Hs, length_app.
    destruct (includes _ (df_protocol dataflow)); simpl; lia.
Qed.

Lemma sensitive_dataflow_all_critical_witness :
  truthyBool (df_hasSensitiveData Samples.login) = true
  /\ Forall (fun t => th_severity t = Critical)
            (analyzeDataflow Samples.login)
  /\ 4 <= length (analyzeDataflow Samples.login).
Proof.
  split; [reflexivity|].
  exact (sensitive_dataflow_all_critical Samples.login eq_refl).
Defined.

(** * Further properties of the validator *)

Lemma annotate_fields (e : Element) :
  el_id (annotate e) = el_id e
  /\ el_name (annotate e) = el_name e
  /\ el_type (annotate e) = el_type e
  /\ el_description (annotate e) = el_description e
  /\ el_trustLevel (annotate e) = el_trustLevel e.
Proof.
  unfold annotate.
  destruct (isDatastoreType (el_type e)); cbn;
    destruct (isExternalType (el_type e)); cbn;
    destruct (isProcessType (el_type e)); cbn; done.
Qed.

Lemma map_annotate_ids (elements : list Element) :
  map el_id (map annotate elements) = map el_id elements.
Proof.
  rewrite map_map. apply map_ext. intros e. apply annotate_fields.
Qed.

Lemma pushIf_nil {A : Type} (c : bool) (x : A) (arr : list A) :
  pushIf c x arr = [] <-> c = false /\ arr = [].
Proof.
  destruct c; simpl.
  - split; [|by intros [? _]]. intros H. by destruct arr.
  - tauto.
Qed.

Lemma includes_validTypes_truthy (t : option string) :
  includes validTypes t = true -> truthyStr t = true.
Proof.
  destruct t as [t|]; [|by rewrite includes_None].
  rewrite includes_In. simpl. intros H.
  repeat (destruct H as [<-|H]; [reflexivity|]). destruct H.
Qed.

(** One element leaves [errors] empty exactly when it passes the checks. *)
Lemma validateElement_clean (index : nat) (e : Element) (st : ValidateState) :
  vs_errors (fst (validateElement index e st)) = []
  <-> vs_errors st = [] /\ elementFieldsOk e /\ el_id e ∉ vs_ids st.
Proof.
  unfold validateElement, elementFieldsOk. cbn [fst vs_errors]. split.
  - intros H. apply pushIf_nil in H as [Hdup H].
    destruct (truthyStr (el_type e)) eqn:Ety; cbn [negb] in H;
      [|by destruct (pushIf _ _ _)].
    apply pushIf_nil in H as [Hinc H].
    apply pushIf_nil in H as [Hname H].
    apply pushIf_nil in H as [Hid H].
    apply negb_false_iff in Hinc, Hname, Hid. rewrite Hid in Hdup.
    cbn in Hdup. apply bool_decide_eq_false in Hdup. done.
  - intros (H0 & (Hid & Hname & Hinc) & Hnin).
    rewrite (includes_validTypes_truthy _ Hinc), Hid, Hname, Hinc, H0.
    cbn. by rewrite bool_decide_eq_false_2.
Qed.

Lemma validateElement_ids (index : nat) (e : Element) (st : ValidateState) :
  vs_ids (fst (validateElement index e st))
  = if truthyStr (el_id e) then vs_ids st ∪ {[ el_id e ]} else vs_ids st.
Proof. reflexivity. Qed.

Lemma validateElements_clean (elements : list Element) :
  forall index st,
    vs_errors (fst (validateElements index elements st)) = []
    <-> vs_errors st = []
        /\ Forall elementFieldsOk elements
        /\ NoDup (map el_id elements)
        /\ forall e, In e elements -> el_id e ∉ vs_ids st.
Proof.
  induction elements as [|e elements IH]; intros index st.
  - simpl. split; [|tauto]. intros H. repeat split; [done|constructor..|].
    by intros e [].
  - cbn [validateElements].
    destruct (validateElement index e st) as [st1 e'] eqn:E1.
    destruct (validateElements (S index) elements st1) as [st2 rest'] eqn:E2.
    cbn [fst]. specialize (IH (S index) st1). rewrite E2 in IH. cbn [fst] in IH.
    pose proof (validateElement_clean index e st) as H1.
    pose proof (validateElement_ids index e st) as H2.
    rewrite E1 in H1, H2. cbn [fst] in H1, H2.
    rewrite IH, H1. cbn [map]. rewrite List.Forall_cons_iff, NoDup_cons.
    split.
    + intros ((H0 & Hok & Hnin) & Hall & Hnd & Hfresh).
      destruct Hok as (Hid & Hname & Hinc). rewrite Hid in H2.
      repeat split; try done.
      * rewrite list_elem_of_In, in_map_iff. intros (e0 & Heq & Hin).
        apply (Hfresh e0 Hin). rewrite H2, Heq.
        apply elem_of_union_r, elem_of_singleton. done.
      * intros e0 [<-|Hin]; [done|].
        specialize (Hfresh e0 Hin). rewrite H2 in Hfresh.
        intros Hst. by apply Hfresh, elem_of_union_l.
    + intros (H0 & (Hok & Hall) & (Hnotin & Hnd) & Hfresh).
      destruct Hok as (Hid & Hname & Hinc). rewrite Hid in H2.
      repeat split; try done.
      * apply Hfresh. by left.
      * intros e0 Hin. rewrite H2.
        assert (el_id e0 <> el_id e).
        { intros Heq. apply Hnotin. rewrite list_elem_of_In, in_map_iff.
          by exists e0. }
        assert (el_id e0 ∉ vs_ids st) by (apply Hfresh; by right).
        rewrite elem_of_union, elem_of_singleton. tauto.
Qed.

(** One dataflow leaves [errors] empty exactly when it passes the checks. *)
Lemma validateDataflow_clean (elementIds : gset (option string))
  (index : nat) (d : Dataflow) (st : ValidateState) :
  vs_errors (validateDataflow elementIds index d st) = []
  <-> vs_errors st = []
      /\ truthyStr (df_id d) = true /\ truthyStr (df_from d) = true
      /\ truthyStr (df_to d) = true /\ truthyStr (df_name d) = true
      /\ df_from d ∈ elementIds /\ df_to d ∈ elementIds
      /\ df_id d ∉ vs_ids st.
Proof.
  unfold validateDataflow. cbn [vs_errors]. split.
  - intros H.
    apply pushIf_nil in H as [Hto' H]. apply pushIf_nil in H as [Hfrom' H].
    apply pushIf_nil in H as [Hdup H]. apply pushIf_nil in H as [Hname H].
    apply pushIf_nil in H as [Hto H]. apply pushIf_nil in H as [Hfrom H].
    apply pushIf_nil in H as [Hid H].
    apply negb_false_iff in Hname, Hto, Hfrom, Hid.
    rewrite Hid in Hdup. rewrite Hto in Hto'. rewrite Hfrom in Hfrom'.
    cbn in Hdup, Hto', Hfrom'.
    apply negb_false_iff, bool_decide_eq_true in Hto', Hfrom'.
    apply bool_decide_eq_false in Hdup. done.
  - intros (H0 & Hid & Hfrom & Hto & Hname & Hf & Ht & Hnin).
    rewrite H0, Hid, Hfrom, Hto, Hname. cbn.
    rewrite (bool_decide_eq_false_2 _ Hnin).
    by rewrite (bool_decide_eq_true_2 _ Hf), (bool_decide_eq_true_2 _ Ht).
Qed.

Lemma validateDataflows_clean (elementIds : gset (option string))
  (dataflows : list Dataflow) :
  forall index st,
    vs_errors (validateDataflows elementIds index dataflows st) = []
    <-> vs_errors st = []
        /\ Forall (fun d =>
                     truthyStr (df_id d) = true
                     /\ truthyStr (df_from d) = true
                     /\ truthyStr (df_to d) = true
                     /\ truthyStr (df_name d) = true
                     /\ df_from d ∈ elementIds /\ df_to d ∈ elementIds)
                  dataflows
        /\ NoDup (map df_id dataflows)
        /\ forall d, In d dataflows -> df_id d ∉ vs_ids st.
Proof.
  induction dataflows as [|d dataflows IH]; intros index st.
  - simpl. split; [|tauto]. intros H. repeat split; [done|constructor..|].
    by intros d [].
  - cbn [validateDataflows]. rewrite IH, validateDataflow_clean.
    cbn [map]. rewrite List.Forall_cons_iff, NoDup_cons.
    assert (Hids : truthyStr (df_id d) = true ->
                   vs_ids (validateDataflow elementIds index d st)
                   = vs_ids st ∪ {[ df_id d ]}).
    { intros Hid. unfold validateDataflow. cbn [vs_ids]. by rewrite Hid. }
    split.
    + intros ((H0 & Hid & Hfrom & Hto & Hname & Hf & Ht & Hnin)
              & Hall & Hnd & Hfresh).
      rewrite (Hids Hid) in Hfresh. repeat split; try done.
      * rewrite list_elem_of_In, in_map_iff. intros (d0 & Heq & Hin).
        apply (Hfresh d0 Hin). rewrite Heq.
        apply elem_of_union_r, elem_of_singleton. done.
      * intros d0 [<-|Hin]; [done|]. specialize (Hfresh d0 Hin).
        intros Hst. by apply Hfresh, elem_of_union_l.
    + intros (H0 & ((Hid & Hfrom & Hto & Hname & Hf & Ht) & Hall)
              & (Hnotin & Hnd) & Hfresh).
      rewrite (Hids Hid). repeat split; try done.
      * apply Hfresh. by left.
      * intros d0 Hin.
        assert (df_id d0 <> df_id d).
        { intros Heq. apply Hnotin. rewrite list_elem_of_In, in_map_iff.
          by exists d0. }
        assert (df_id d0 ∉ vs_ids st) by (apply Hfresh; by right).
        rewrite elem_of_union, elem_of_singleton. tauto.
Qed.

Lemma elementIds_In (elements : list Element) (x : option string) :
  x ∈ (list_to_set (el_id <$> map annotate elements) : gset (option string))
  <-> In x (map el_id elements).
Proof.
  rewrite elem_of_list_to_set, list_elem_of_In.
  change (el_id <$> map annotate elements)
    with (map el_id (map annotate elements)).
  by rewrite map_annotate_ids.
Qed.

Lemma validateObject_errors_nil (dfd : Dfd) :
  errors (fst (validateObject dfd)) = [] <-> wellFormed dfd.
Proof.
  unfold validateObject, wellFormed.
  set (e2 := pushIf (negb (truthyStr (dfd_name dfd))) _
               (pushIf (negb (truthyStr (dfd_id dfd))) _ [])).
  assert (He2 : e2 = [] <-> truthyStr (dfd_id dfd) = true
                            /\ truthyStr (dfd_name dfd) = true).
  { unfold e2. rewrite !pushIf_nil, !negb_false_iff. tauto. }
  destruct (dfd_elements dfd) as [es|]; cycle 1.
  { split; [|by intros (_ & _ & es & ds & [=] & _)].
    intros H. exfalso. destruct (dfd_dataflows dfd) as [ds|]; cbn in H.
    - apply validateDataflows_clean in H as [H _]. cbn in H.
      by destruct e2.
    - by destruct e2. }
  pose proof (validateElements_clean es 0
    {| vs_errors :=
         pushIf (match dfd_dataflows dfd with Some _ => false | None => true end)
           "DFD must have dataflows array"
           (pushIf (length es =? 0)%nat "DFD must have at least one element"
              e2);
       vs_warnings := []; vs_ids := ∅ |}) as Hclean.
  pose proof (validateElements_spec es 0
    {| vs_errors :=
         pushIf (match dfd_dataflows dfd with Some _ => false | None => true end)
           "DFD must have dataflows array"
           (pushIf (length es =? 0)%nat "DFD must have at least one element"
              e2);
       vs_warnings := []; vs_ids := ∅ |}) as [Hsnd _].
  destruct (validateElements _ _ _) as [st es']. cbn [fst snd] in Hclean, Hsnd.
  subst es'. cbn [vs_errors vs_ids] in Hclean.
  rewrite !pushIf_nil, He2 in Hclean.
  destruct (dfd_dataflows dfd) as [ds|]; cycle 1.
  { split; [|by intros (_ & _ & es0 & ds & _ & [=] & _)].
    cbn. intros H. apply Hclean in H as ((? & _) & _). discriminate. }
  cbn [fst errors orEmpty]. rewrite validateDataflows_clean.
  cbn [vs_errors vs_ids]. rewrite Hclean. split.
  - intros (((_ & Hlen & Hid & Hname) & Hok & Hnd & _) & Hdf & Hndd & _).
    split; [done|]. split; [done|]. exists es, ds.
    repeat split; try done.
    + intros ->. discriminate.
    + eapply List.Forall_impl; [|exact Hdf].
      intros d (H1 & H2 & H3 & H4 & H5 & H6).
      apply elementIds_In in H5, H6. by repeat split.
  - intros (Hid & Hname & es0 & ds0 & [= <-] & [= <-] & Hne & Hok & Hnd
            & Hdf & Hndd).
    repeat split; try done.
    + by destruct es.
    + eapply List.Forall_impl; [|exact Hdf].
      intros d (H1 & H2 & H3 & H4 & H5 & H6).
      apply elementIds_In in H5, H6. by repeat split.
Qed.

(** [validate] reports a DFD object valid exactly when it is well formed:
    it has an id and a name, a non-empty array of elements that each have
    an id, a name and a recognised type and whose ids are distinct, and an
    array of dataflows that each have an id, a source, a destination and a
    name, with distinct ids and with endpoints that are ids of elements.
    Warnings never enter the verdict. *)
Theorem valid_iff_well_formed (dfd : Dfd) :
  valid (fst (validate (Some dfd))) = true <-> wellFormed dfd.
Proof.
  rewrite <- validateObject_errors_nil.
  assert (Hr : fst (validate (Some dfd)) = fst (validateObject dfd)).
  { unfold validate. by destruct (validateObject dfd). }
  rewrite Hr. destruct (validateObject_counts dfd) as (_ & _ & _ & Hv).
  rewrite Hv, Nat.eqb_eq. apply length_zero_iff_nil.
Qed.

(** ** Error and warning messages *)

Lemma pushIf_In {A : Type} (c : bool) (x m : A) (arr : list A) :
  In m arr -> In m (pushIf c x arr).
Proof. destruct c; simpl; [|done]. intros H. apply in_or_app. by left. Qed.

Lemma pushIf_true_In {A : Type} (x : A) (arr : list A) :
  In x (pushIf true x arr).
Proof. simpl. apply in_or_app. right. by left. Qed.

(** Keeps a message through the pushes that follow. *)
Ltac keeps :=
  repeat first
    [ assumption
    | apply pushIf_In
    | match goal with
      | |- In _ (if ?c then _ else _) => destruct c
      end
    | apply in_or_app; left ].

Lemma validateElement_keeps (index : nat) (e : Element) (st : ValidateState)
  (m : string) :
  In m (vs_errors st) -> In m (vs_errors (fst (validateElement index e st))).
Proof. intros H. unfold validateElement. cbn [fst vs_errors]. keeps. Qed.

Lemma validateElements_keeps (elements : list Element) (m : string) :
  forall index st,
    In m (vs_errors st) ->
    In m (vs_errors (fst (validateElements index elements st))).
Proof.
  induction elements as [|e elements IH]; intros index st H; [done|].
  cbn [validateElements].
  pose proof (validateElement_keeps index e st m H) as H1.
  destruct (validateElement index e st) as [st1 e'].
  specialize (IH (S index) st1 H1).
  by destruct (validateElements (S index) elements st1).
Qed.

Lemma validateDataflow_keeps (elementIds : gset (option string))
  (index : nat) (d : Dataflow) (st : ValidateState) (m : string) :
  In m (vs_errors st) ->
  In m (vs_errors (validateDataflow elementIds index d st)).
Proof. intros H. unfold validateDataflow. cbn [vs_errors]. keeps. Qed.

Lemma validateDataflows_keeps (elementIds : gset (option string))
  (dataflows : list Dataflow) (m : string) :
  forall index st,
    In m (vs_errors st) ->
    In m (vs_errors (validateDataflows elementIds index dataflows st)).
Proof.
  induction dataflows as [|d dataflows IH]; intros index st H; [done|].
  cbn [validateDataflows]. by apply IH, validateDataflow_keeps.
Qed.

Lemma validateElements_ids_keep (elements : list Element)
  (x : option string) :
  forall index st,
    x ∈ vs_ids st -> x ∈ vs_ids (fst (validateElements index elements st)).
Proof.
  induction elements as [|e elements IH]; intros index st H; [done|].
  cbn [validateElements].
  pose proof (validateElement_ids index e st) as H1.
  destruct (validateElement index e st) as [st1 e']. cbn [fst] in H1.
  assert (H2 : x ∈ vs_ids st1).
  { rewrite H1. destruct (truthyStr (el_id e)); [|done].
    by apply elem_of_union_l. }
  specialize (IH (S index) st1 H2).
  by destruct (validateElements (S index) elements st1).
Qed.

(** An element whose id was seen before gets the duplicate error. *)
Lemma validateElements_seen (elements : list Element) :
  forall index st j e,
    nth_error elements j = Some e ->
    truthyStr (el_id e) = true ->
    el_id e ∈ vs_ids st ->
    In ("Duplicate element ID: " +:+ interp (el_id e))
       (vs_errors (fst (validateElements index elements st))).
Proof.
  induction elements as [|e0 elements IH]; intros index st j e Hj Ht Hseen.
  { by destruct j. }
  cbn [validateElements].
  destruct j as [|j]; simpl in Hj.
  - injection Hj as ->.
    assert (H1 : In ("Duplicate element ID: " +:+ interp (el_id e))
                    (vs_errors (fst (validateElement index e st)))).
    { unfold validateElement. cbn [fst vs_errors].
      rewrite Ht, (bool_decide_eq_true_2 _ Hseen). apply pushIf_true_In. }
    destruct (validateElement index e st) as [st1 e'].
    pose proof (validateElements_keeps elements _ (S index) st1 H1) as H2.
    by destruct (validateElements (S index) elements st1).
  - pose proof (validateElement_ids index e0 st) as H1.
    destruct (validateElement index e0 st) as [st1 e']. cbn [fst] in H1.
    assert (H2 : el_id e ∈ vs_ids st1).
    { rewrite H1. destruct (truthyStr (el_id e0)); [|done].
      by apply elem_of_union_l. }
    specialize (IH (S index) st1 j e Hj Ht H2).
    by destruct (validateElements (S index) elements st1).
Qed.

Lemma validateElements_duplicate (elements : list Element) :
  forall index st i j e1 e2,
    nth_error elements i = Some e1 ->
    nth_error elements j = Some e2 ->
    i < j ->
    el_id e1 = el_id e2 ->
    truthyStr (el_id e1) = true ->
    In ("Duplicate element ID: " +:+ interp (el_id e1))
       (vs_errors (fst (validateElements index elements st))).
Proof.
  induction elements as [|e0 elements IH];
    intros index st i j e1 e2 Hi Hj Hlt Heq Ht.
  { by destruct i. }
  cbn [validateElements].
  destruct j as [|j]; [lia|]. simpl in Hj.
  pose proof (validateElement_ids index e0 st) as H1.
  destruct (validateElement index e0 st) as [st1 e'] eqn:E1. cbn [fst] in H1.
  destruct i as [|i]; simpl in Hi.
  - injection Hi as ->. rewrite Ht in H1.
    assert (H2 : el_id e2 ∈ vs_ids st1).
    { rewrite H1, <- Heq. by apply elem_of_union_r, elem_of_singleton. }
    rewrite Heq in Ht |- *.
    pose proof (validateElements_seen elements (S index) st1 j e2 Hj Ht H2).
    by destruct (validateElements (S index) elements st1).
  - assert (Hlt' : i < j) by lia.
    specialize (IH (S index) st1 i j e1 e2 Hi Hj Hlt' Heq Ht).
    by destruct (validateElements (S index) elements st1).
Qed.

(** The errors of the element loop are errors of the result. *)
Lemma validateObject_element_errors (dfd : Dfd) (elements : list Element)
  (m : string) :
  dfd_elements dfd = Some elements ->
  (forall st, In m (vs_errors (fst (validateElements 0 elements st)))) ->
  In m (errors (fst (validateObject dfd))).
Proof.
  intros He Hm. unfold validateObject. rewrite He.
  match goal with
  | |- context [validateElements 0 elements ?st0] =>
      specialize (Hm st0); destruct (validateElements 0 elements st0)
        as [st es']
  end.
  cbn [fst] in Hm. destruct (dfd_dataflows dfd) as [ds|]; cbn [fst errors].
  - by apply validateDataflows_keeps.
  - done.
Qed.

(** Two elements with the same id make the DFD invalid, and the errors
    name the id. *)
Theorem duplicate_element_id_rejected (dfd : Dfd) (elements : list Element)
  (i j : nat) (e1 e2 : Element) :
  dfd_elements dfd = Some elements ->
  nth_error elements i = Some e1 ->
  nth_error elements j = Some e2 ->
  i < j ->
  el_id e1 = el_id e2 ->
  truthyStr (el_id e1) = true ->
  valid (fst (validate (Some dfd))) = false
  /\ In ("Duplicate element ID: " +:+ interp (el_id e1))
        (errors (fst (validate (Some dfd)))).
Proof.
  intros He Hi Hj Hlt Heq Ht.
  assert (Hr : fst (validate (Some dfd)) = fst (validateObject dfd)).
  { unfold validate. by destruct (validateObject dfd). }
  rewrite Hr.
  assert (Hin : In ("Duplicate element ID: " +:+ interp (el_id e1))
                   (errors (fst (validateObject dfd)))).
  { apply (validateObject_element_errors dfd elements); [done|].
    intros st. by apply (validateElements_duplicate elements 0 st i j e1 e2). }
  split; [|done].
  destruct (validateObject_counts dfd) as (_ & _ & _ & ->).
  by destruct (errors (fst (validateObject dfd))).
Qed.

Lemma validateDataflows_missing_endpoint (elementIds : gset (option string))
  (dataflows : list Dataflow) (d : Dataflow) :
  In d dataflows ->
  forall index st,
    (truthyStr (df_from d) = true -> df_from d ∉ elementIds ->
     In ("Dataflow '" +:+ interp (df_name d) +:+ "': source element '"
         +:+ interp (df_from d) +:+ "' not found")
        (vs_errors (validateDataflows elementIds index dataflows st)))
    /\ (truthyStr (df_to d) = true -> df_to d ∉ elementIds ->
        In ("Dataflow '" +:+ interp (df_name d)
            +:+ "': destination element '"
            +:+ interp (df_to d) +:+ "' not found")
           (vs_errors (validateDataflows elementIds index dataflows st))).
Proof.
  induction dataflows as [|d0 dataflows IH]; intros Hin index st; [done|].
  cbn [validateDataflows]. destruct Hin as [->|Hin]; [|by apply IH].
  split; intros Ht Hn; apply validateDataflows_keeps;
    unfold validateDataflow; cbn [vs_errors];
    rewrite Ht, (bool_decide_eq_false_2 _ Hn); cbn [negb andb].
  - apply pushIf_In, pushIf_true_In.
  - apply pushIf_true_In.
Qed.

Lemma validateObject_dataflow_errors (dfd : Dfd) (dataflows : list Dataflow)
  (m : string) :
  dfd_dataflows dfd = Some dataflows ->
  (forall st,
      In m (vs_errors
              (validateDataflows
                 (list_to_set
                    (el_id <$> map annotate (orEmpty (dfd_elements dfd))))
                 0 dataflows st))) ->
  In m (errors (fst (validateObject dfd))).
Proof.
  intros Hd Hm. unfold validateObject. rewrite Hd.
  destruct (dfd_elements dfd) as [es|]; cbn [orEmpty] in Hm.
  - pose proof (validateElements_spec es 0
      {| vs_errors :=
           pushIf false "DFD must have dataflows array"
             (pushIf (length es =? 0)%nat
                "DFD must have at least one element"
                (pushIf (negb (truthyStr (dfd_name dfd)))
                   "DFD name is required"
                   (pushIf (negb (truthyStr (dfd_id dfd)))
                      "DFD ID is required" [])));
         vs_warnings := []; vs_ids := ∅ |}) as [Hs _].
    destruct (validateElements _ _ _) as [st es']. cbn [snd] in Hs.
    subst es'. cbn [fst errors orEmpty]. apply Hm.
  - cbn [fst errors orEmpty]. apply Hm.
Qed.

(** A dataflow whose source or destination is not the id of an element
    makes the DFD invalid, and the errors name the dataflow and the
    missing element. *)
Theorem unknown_endpoint_rejected (dfd : Dfd) (dataflows : list Dataflow)
  (d : Dataflow) :
  dfd_dataflows dfd = Some dataflows ->
  In d dataflows ->
  (truthyStr (df_from d) = true
   /\ ~ In (df_from d) (map el_id (orEmpty (dfd_elements dfd))))
  \/ (truthyStr (df_to d) = true
      /\ ~ In (df_to d) (map el_id (orEmpty (dfd_elements dfd)))) ->
  valid (fst (validate (Some dfd))) = false
  /\ (truthyStr (df_from d) = true ->
      ~ In (df_from d) (map el_id (orEmpty (dfd_elements dfd))) ->
      In ("Dataflow '" +:+ interp (df_name d) +:+ "': source element '"
          +:+ interp (df_from d) +:+ "' not found")
         (errors (fst (validate (Some dfd)))))
  /\ (truthyStr (df_to d) = true ->
      ~ In (df_to d) (map el_id (orEmpty (dfd_elements dfd))) ->
      In ("Dataflow '" +:+ interp (df_name d)
          +:+ "': destination element '"
          +:+ interp (df_to d) +:+ "' not found")
         (errors (fst (validate (Some dfd))))).
Proof.
  intros Hd Hin Hbad.
  assert (Hr : fst (validate (Some dfd)) = fst (validateObject dfd)).
  { unfold validate. by destruct (validateObject dfd). }
  rewrite Hr.
  assert (Hset : forall x,
             x ∈ (list_to_set
                    (el_id <$> map annotate (orEmpty (dfd_elements dfd)))
                  : gset (option string))
             <-> In x (map el_id (orEmpty (dfd_elements dfd))))
    by (intros x; apply elementIds_In).
  assert (Hfrom : truthyStr (df_from d) = true ->
                  ~ In (df_from d) (map el_id (orEmpty (dfd_elements dfd))) ->
                  In ("Dataflow '" +:+ interp (df_name d)
                      +:+ "': source element '"
                      +:+ interp (df_from d) +:+ "' not found")
                     (errors (fst (validateObject dfd)))).
  { intros Ht Hn.
    apply (validateObject_dataflow_errors dfd dataflows); [done|].
    intros st. apply (validateDataflows_missing_endpoint _ _ d);
      [done|done|]. by rewrite Hset. }
  assert (Hto : truthyStr (df_to d) = true ->
                ~ In (df_to d) (map el_id (orEmpty (dfd_elements dfd))) ->
                In ("Dataflow '" +:+ interp (df_name d)
                    +:+ "': destination element '"
                    +:+ interp (df_to d) +:+ "' not found")
                   (errors (fst (validateObject dfd)))).
  { intros Ht Hn.
    apply (validateObject_dataflow_errors dfd dataflows); [done|].
    intros st. apply (validateDataflows_missing_endpoint _ _ d);
      [done|done|]. by rewrite Hset. }
  split; [|by split].
  destruct (validateObject_counts dfd) as (_ & _ & _ & ->).
  destruct Hbad as [[Ht Hn]|[Ht Hn]];
    [specialize (Hfrom Ht Hn)|specialize (Hto Ht Hn)];
    by destruct (errors (fst (validateObject dfd))).
Qed.

Lemma connectedElements_spec (dataflows : list Dataflow)
  (x : option string) :
  x ∈ connectedElements dataflows
  <-> exists d, In d dataflows /\ (df_from d = x \/ df_to d = x).
Proof.
  unfold connectedElements.
  assert (H : forall acc : gset (option string),
             x ∈ fold_left
                   (fun acc df => acc ∪ {[ df_from df ]} ∪ {[ df_to df ]})
                   dataflows acc
             <-> x ∈ acc
                 \/ exists d, In d dataflows
                              /\ (df_from d = x \/ df_to d = x)).
  { induction dataflows as [|d0 dataflows IH]; intros acc; simpl.
    - split; [auto|]. intros [H|(d & [] & _)]. done.
    - rewrite IH, !elem_of_union, !elem_of_singleton. split.
      + intros [[[H|H]|H]|(d & Hd & H)]; eauto 6.
      + intros [H|(d & [<-|Hd] & H)]; [tauto| |eauto 6].
        destruct H as [<-|<-]; tauto. }
  rewrite H. split; [|auto]. intros [Hx|Hx]; [|done].
  by apply elem_of_empty in Hx.
Qed.

Lemma orphanWarnings_keeps (connected : gset (option string))
  (elements : list Element) (m : string) :
  forall warnings,
    In m warnings -> In m (orphanWarnings connected elements warnings).
Proof.
  unfold orphanWarnings.
  induction elements as [|e elements IH]; intros warnings H; [done|].
  simpl. by apply IH, pushIf_In.
Qed.

Lemma orphanWarnings_orphan (connected : gset (option string))
  (elements : list Element) (e : Element) :
  In e elements ->
  el_id e ∉ connected ->
  forall warnings,
    In ("Element '" +:+ interp (el_name e)
        +:+ "' is not connected to any dataflow")
       (orphanWarnings connected elements warnings).
Proof.
  intros Hin Hn. induction elements as [|e0 elements IH]; [done|].
  intros warnings. destruct Hin as [->|Hin].
  - unfold orphanWarnings. simpl.
    apply (orphanWarnings_keeps connected elements).
    rewrite (bool_decide_eq_false_2 _ Hn). apply pushIf_true_In.
  - unfold orphanWarnings in *. simpl. by apply IH.
Qed.

(** The warnings of a DFD with both arrays end with the orphan warnings
    and the trust-boundary warning. *)
Lemma validateObject_warnings (dfd : Dfd) (elements : list Element)
  (dataflows : list Dataflow) :
  dfd_elements dfd = Some elements ->
  dfd_dataflows dfd = Some dataflows ->
  exists w0,
    warnings (fst (validateObject dfd))
    = Some (pushIf (match dfd_trustBoundaries dfd with
                    | Some tbs => (length tbs =? 0)%nat
                    | None => true
                    end)
              "No trust boundaries defined. Consider adding trust boundaries to your DFD"
              (orphanWarnings (connectedElements dataflows)
                 (map annotate elements) w0)).
Proof.
  intros He Hd. unfold validateObject. rewrite He, Hd.
  pose proof (validateElements_spec elements 0
    {| vs_errors :=
         pushIf false "DFD must have dataflows array"
           (pushIf (length elements =? 0)%nat
              "DFD must have at least one element"
              (pushIf (negb (truthyStr (dfd_name dfd)))
                 "DFD name is required"
                 (pushIf (negb (truthyStr (dfd_id dfd)))
                    "DFD ID is required" [])));
       vs_warnings := []; vs_ids := ∅ |}) as [Hs _].
  destruct (validateElements _ _ _) as [st es']. cbn [snd] in Hs. subst es'.
  cbn [fst warnings]. eauto.
Qed.

Lemma prefix_app (n b : string) : String.prefix n (n +:+ b) = true.
Proof.
  induction n as [|c n IH]; simpl; [by destruct b|].
  by destruct (Ascii.ascii_dec c c).
Qed.

Lemma includesStr_prefix (n h : string) :
  String.prefix n h = true -> includesStr n h = true.
Proof. intros H. destruct h; cbn [includesStr]; by rewrite H. Qed.

Lemma includesStr_cons (n h : string) (c : ascii) :
  includesStr n (String c h)
  = String.prefix n (String c h) || includesStr n h.
Proof. reflexivity. Qed.

Lemma includesStr_app (n a b : string) : includesStr n (a +:+ n +:+ b) = true.
Proof.
  induction a as [|c a IH].
  - change ("" +:+ n +:+ b) with (n +:+ b).
    apply includesStr_prefix, prefix_app.
  - change (String c a +:+ n +:+ b) with (String c (a +:+ n +:+ b)).
    rewrite includesStr_cons, IH. apply orb_true_r.
Qed.

Lemma append_assoc (a b c : string) : (a +:+ b) +:+ c = a +:+ (b +:+ c).
Proof.
  induction a as [|x a IH]; [reflexivity|].
  change ((String x a +:+ b) +:+ c) with (String x ((a +:+ b) +:+ c)).
  change (String x a +:+ (b +:+ c)) with (String x (a +:+ (b +:+ c))).
  by rewrite IH.
Qed.

Lemma orphan_message_includes (name : string) :
  includesStr "not connected"
    ("Element '" +:+ name +:+ "' is not connected to any dataflow") = true.
Proof.
  change ("Element '" +:+ name +:+ "' is not connected to any dataflow")
    with ("Element '" +:+ (name +:+ ("' is " +:+ "not connected"
                                      +:+ " to any dataflow"))).
  replace ("Element '" +:+ (name +:+ ("' is " +:+ "not connected"
                                      +:+ " to any dataflow")))
    with (("Element '" +:+ name +:+ "' is ") +:+ "not connected"
          +:+ " to any dataflow").
  - apply includesStr_app.
  - by rewrite !append_assoc.
Qed.

(** An element that is neither source nor destination of any dataflow is
    reported in the warnings, and [getSummary] then reports
    [allElementsConnected: false]. *)
Theorem orphan_element_warned (dfd : Dfd) (elements : list Element)
  (dataflows : list Dataflow) (e : Element) :
  dfd_elements dfd = Some elements ->
  dfd_dataflows dfd = Some dataflows ->
  In e elements ->
  ~ connected dataflows e ->
  (exists w,
      warnings (fst (validate (Some dfd))) = Some w
      /\ In ("Element '" +:+ interp (el_name e)
             +:+ "' is not connected to any dataflow") w)
  /\ exists summary dfd',
      getSummary (Some dfd) = Return (summary, dfd')
      /\ allElementsConnected (sm_completeness summary) = false.
Proof.
  intros He Hd Hin Hn.
  destruct (validateObject_warnings dfd elements dataflows He Hd)
    as [w0 Hw].
  assert (Hmsg : In ("Element '" +:+ interp (el_name e)
                     +:+ "' is not connected to any dataflow")
                    (pushIf (match dfd_trustBoundaries dfd with
                             | Some tbs => (length tbs =? 0)%nat
                             | None => true
                             end)
                       "No trust boundaries defined. Consider adding trust boundaries to your DFD"
                       (orphanWarnings (connectedElements dataflows)
                          (map annotate elements) w0))).
  { apply pushIf_In.
    destruct (annotate_fields e) as (Hid & Hname & _).
    rewrite <- Hname.
    apply (orphanWarnings_orphan _ _ (annotate e)); [by apply in_map|].
    rewrite Hid, connectedElements_spec. exact Hn. }
  unfold getSummary, validate.
  destruct (validateObject dfd) as [r d'] eqn:E. cbn [fst] in Hw |- *.
  rewrite Hw. split; [eauto|]. cbn.
  eexists _, _. split; [done|]. cbn.
  apply Nat.eqb_neq. intros Hlen. apply length_zero_iff_nil in Hlen.
  assert (Hf : In ("Element '" +:+ interp (el_name e)
                   +:+ "' is not connected to any dataflow")
                  (List.filter (includesStr "not connected")
                     (pushIf (match dfd_trustBoundaries dfd with
                              | Some tbs => (length tbs =? 0)%nat
                              | None => true
                              end)
                        "No trust boundaries defined. Consider adding trust boundaries to your DFD"
                        (orphanWarnings (connectedElements dataflows)
                           (map annotate elements) w0)))).
  { apply filter_In. split; [done|]. apply orphan_message_includes. }
  rewrite Hlen in Hf. destruct Hf.
Qed.

Lemma duplicate_element_id_rejected_witness :
  dfd_elements Samples.duplicateIds
  = Some [ Samples.customer; Samples.clerk ]
  /\ nth_error [ Samples.customer; Samples.clerk ] 0 = Some Samples.customer
  /\ nth_error [ Samples.customer; Samples.clerk ] 1 = Some Samples.clerk
  /\ 0 < 1
  /\ el_id Samples.customer = el_id Samples.clerk
  /\ truthyStr (el_id Samples.customer) = true
  /\ valid (fst (validate (Some Samples.duplicateIds))) = false
  /\ In ("Duplicate element ID: " +:+ interp (el_id Samples.customer))
        (errors (fst (validate (Some Samples.duplicateIds)))).
Proof.
  assert (Hlt : 0 < 1) by lia.
  do 3 (split; [reflexivity|]). split; [exact Hlt|].
  do 2 (split; [reflexivity|]).
  exact (duplicate_element_id_rejected Samples.duplicateIds _ 0 1
           Samples.customer Samples.clerk eq_refl eq_refl eq_refl Hlt
           eq_refl eq_refl).
Defined.

Lemma unknown_endpoint_rejected_witness :
  dfd_dataflows Samples.danglingScenario
  = Some [ Samples.login; Samples.dangling ]
  /\ In Samples.dangling [ Samples.login; Samples.dangling ]
  /\ ((truthyStr (df_from Samples.dangling) = true
       /\ ~ In (df_from Samples.dangling)
               (map el_id (orEmpty (dfd_elements Samples.danglingScenario))))
      \/ (truthyStr (df_to Samples.dangling) = true
          /\ ~ In (df_to Samples.dangling)
                  (map el_id
                     (orEmpty (dfd_elements Samples.danglingScenario)))))
  /\ valid (fst (validate (Some Samples.danglingScenario))) = false
  /\ (truthyStr (df_from Samples.dangling) = true ->
      ~ In (df_from Samples.dangling)
           (map el_id (orEmpty (dfd_elements Samples.danglingScenario))) ->
      In ("Dataflow '" +:+ interp (df_name Samples.dangling)
          +:+ "': source element '"
          +:+ interp (df_from Samples.dangling) +:+ "' not found")
         (errors (fst (validate (Some Samples.danglingScenario)))))
  /\ (truthyStr (df_to Samples.dangling) = true ->
      ~ In (df_to Samples.dangling)
           (map el_id (orEmpty (dfd_elements Samples.danglingScenario))) ->
      In ("Dataflow '" +:+ interp (df_name Samples.dangling)
          +:+ "': destination element '"
          +:+ interp (df_to Samples.dangling) +:+ "' not found")
         (errors (fst (validate (Some Samples.danglingScenario))))).
Proof.
  assert (Hin : In Samples.dangling [ Samples.login; Samples.dangling ])
    by (right; left; reflexivity).
  assert (Hbad :
            (truthyStr (df_from Samples.dangling) = true
             /\ ~ In (df_from Samples.dangling)
                     (map el_id
                        (orEmpty (dfd_elements Samples.danglingScenario))))
            \/ (truthyStr (df_to Samples.dangling) = true
                /\ ~ In (df_to Samples.dangling)
                        (map el_id
                           (orEmpty
                              (dfd_elements Samples.danglingScenario))))).
  { right. split; [reflexivity|]. simpl. intros [H|[H|[]]]; discriminate. }
  split; [reflexivity|]. split; [exact Hin|]. split; [exact Hbad|].
  exact (unknown_endpoint_rejected Samples.danglingScenario _
           Samples.dangling eq_refl Hin Hbad).
Defined.

Lemma orphan_element_warned_witness :
  dfd_elements Samples.lonelyScenario
  = Some [ Samples.customer; Samples.webServer; Samples.partner ]
  /\ dfd_dataflows Samples.lonelyScenario = Some [ Samples.login ]
  /\ In Samples.partner
        [ Samples.customer; Samples.webServer; Samples.partner ]
  /\ ~ connected [ Samples.login ] Samples.partner
  /\ (exists w,
         warnings (fst (validate (Some Samples.lonelyScenario))) = Some w
         /\ In ("Element '" +:+ interp (el_name Samples.partner)
                +:+ "' is not connected to any dataflow") w)
  /\ exists summary dfd',
      getSummary (Some Samples.lonelyScenario) = Return (summary, dfd')
      /\ allElementsConnected (sm_completeness summary) = false.
Proof.
  assert (Hin : In Samples.partner
                   [ Samples.customer; Samples.webServer; Samples.partner ])
    by (right; right; left; reflexivity).
  assert (Hn : ~ connected [ Samples.login ] Samples.partner).
  { intros (d & [<-|[]] & [H|H]); discriminate. }
  do 2 (split; [reflexivity|]). split; [exact Hin|]. split; [exact Hn|].
  exact (orphan_element_warned Samples.lonelyScenario _ _ Samples.partner
           eq_refl eq_refl Hin Hn).
Defined.

(** ** Validating twice *)

Lemma annotate_idem (e : Element) : annotate (annotate e) = annotate e.
Proof.
  destruct e as [id name type desc trust ext ds pr].
  destruct (isDatastoreType type) eqn:E1, (isExternalType type) eqn:E2,
    (isProcessType type) eqn:E3;
    unfold annotate, setProcess, setExternalEntity, setDatastore;
    repeat (simpl; rewrite ?E1, ?E2, ?E3); reflexivity.
Qed.

Lemma validateElement_annotate (index : nat) (e : Element)
  (st : ValidateState) :
  validateElement index (annotate e) st
  = (fst (validateElement index e st), annotate e).
Proof.
  unfold validateElement. cbn [fst].
  destruct (annotate_fields e) as (H1 & H2 & H3 & H4 & _).
  by rewrite H1, H2, H3, H4, annotate_idem.
Qed.

Lemma validateElements_annotate (elements : list Element) :
  forall index st,
    validateElements index (map annotate elements) st
    = (fst (validateElements index elements st), map annotate elements).
Proof.
  induction elements as [|e elements IH]; intros index st; [done|].
  cbn [map validateElements]. rewrite validateElement_annotate.
  destruct (validateElement index e st) as [st1 e']. cbn [fst].
  rewrite IH. by destruct (validateElements (S index) elements st1).
Qed.

(** Validating a DFD that [validate] has already annotated returns the same
    result and leaves the DFD as it is. *)
Theorem validate_idempotent (dfd : option Dfd) :
  validate (snd (validate dfd))
  = (fst (validate dfd), snd (validate dfd)).
Proof.
  destruct dfd as [dfd|]; [|reflexivity].
  unfold validate at 2 3 4.
  pose proof (validateObject_dfd dfd) as Hd.
  destruct (validateObject dfd) as [r d'] eqn:E. cbn [fst snd] in *.
  subst d'. unfold validate.
  assert (H : validateObject
                (withElements dfd (map annotate <$> dfd_elements dfd))
              = (r, withElements dfd (map annotate <$> dfd_elements dfd)));
    [|by rewrite H].
  revert E. unfold validateObject.
  destruct dfd as [id name desc elems flows tbs]. cbn.
  destruct elems as [es|]; cbn.
  - rewrite length_map, validateElements_annotate.
    pose proof (validateElements_spec es 0
      {| vs_errors :=
           pushIf (match flows with Some _ => false | None => true end)
             "DFD must have dataflows array"
             (pushIf (length es =? 0)%nat
                "DFD must have at least one element"
                (pushIf (negb (truthyStr name)) "DFD name is required"
                   (pushIf (negb (truthyStr id)) "DFD ID is required" [])));
         vs_warnings := []; vs_ids := ∅ |}) as [Hs _].
    destruct (validateElements 0 es _) as [st es']. cbn [fst snd] in *.
    subst es'. unfold withElements. cbn. intros [= <-]. reflexivity.
  - unfold withElements. cbn. intros [= <-]. reflexivity.
Qed.

(** ** [getSummary] *)

Lemma getSummary_present (dfd : Dfd) :
  exists summary,
    getSummary (Some dfd) = Return (summary, Some (validated dfd))
    /\ sm_validation summary = fst (validate (Some dfd))
    /\ validateSecurity (Some (validated dfd))
       = Return (sm_security summary)
    /\ allDataflowsSecured (sm_completeness summary)
       = (length (issues (sm_security summary)) =? 0)%nat.
Proof.
  unfold getSummary, validate, validated.
  destruct (validateObject_fullShape dfd) as [[w Hw] _].
  destruct (validateObject dfd) as [r d']. cbn [fst snd] in *.
  cbn [validateSecurity]. rewrite Hw. eexists. split; [done|]. by cbn.
Qed.

(** [getSummary] throws on a missing DFD, which [validate] alone reports
    as an error; on a DFD object it returns, its security part is
    [validateSecurity] of the annotated DFD, and [allDataflowsSecured] is
    the negation of [hasSecurityIssues], issues about elements included. *)
Theorem getSummary_outcome :
  valid (fst (validate None)) = false
  /\ (exists message, getSummary None = Throw message)
  /\ forall dfd : Dfd,
      exists summary,
        getSummary (Some dfd) = Return (summary, Some (validated dfd))
        /\ sm_validation summary = fst (validate (Some dfd))
        /\ validateSecurity (Some (validated dfd))
           = Return (sm_security summary)
        /\ allDataflowsSecured (sm_completeness summary)
           = negb (hasSecurityIssues (sm_security summary)).
Proof.
  split; [reflexivity|]. split; [by eexists|]. intros dfd.
  destruct (getSummary_present dfd) as (s & H1 & H2 & H3 & H4).
  exists s. repeat split; try done. rewrite H4.
  unfold validated in H3. cbn in H3. injection H3 as <-. cbn.
  by destruct (length (_ ++ _)).
Qed.

Lemma validateSecurity_flag (dfd : option Dfd) (r : SecurityValidation) :
  validateSecurity dfd = Return r ->
  hasSecurityIssues r = (0 <? length (issues r))%nat.
Proof. destruct dfd; [|discriminate]. by intros [= <-]. Qed.

(** A datastore or database element without trust level gives no security
    issue before validation unless the caller supplied [isDatastore], and
    in [getSummary], which validates first, it gives a medium issue and
    [allDataflowsSecured: false], whatever the dataflows are. *)
Theorem datastore_without_trust_level (dfd : Dfd) (elements : list Element)
  (e : Element) :
  dfd_elements dfd = Some elements ->
  In e elements ->
  isDatastoreType (el_type e) = true ->
  truthyStr (el_trustLevel e) = false ->
  (truthyBool (el_isDatastore e) = false ->
   truthyBool (el_isExternalEntity e) = false ->
   elementSecurityIssues e = [])
  /\ exists summary dfd',
      getSummary (Some dfd) = Return (summary, dfd')
      /\ In {| si_severity := "medium";
               si_message := "Datastore '" +:+ interp (el_name e)
                             +:+ "' has no trust level defined";
               si_recommendation :=
                 "Define appropriate trust level (trusted/partially-trusted/untrusted)" |}
            (issues (sm_security summary))
      /\ hasSecurityIssues (sm_security summary) = true
      /\ allDataflowsSecured (sm_completeness summary) = false.
Proof.
  intros He Hin Hty Htl. split.
  { intros H1 H2. unfold elementSecurityIssues. by rewrite H1, H2. }
  destruct (getSummary_present dfd) as (s & H1 & _ & H3 & H4).
  exists s, (Some (validated dfd)). split; [done|].
  assert (Hissue :
            In {| si_severity := "medium";
                  si_message := "Datastore '" +:+ interp (el_name e)
                                +:+ "' has no trust level defined";
                  si_recommendation :=
                    "Define appropriate trust level (trusted/partially-trusted/untrusted)" |}
               (issues (sm_security s))).
  { unfold validated in H3. rewrite validateObject_dfd in H3.
    cbn in H3. injection H3 as <-. cbn [issues]. rewrite He. cbn [orEmpty].
    apply in_or_app. right. apply in_flat_map. exists (annotate e).
    split; [by apply in_map|].
    destruct (annotate_fields e) as (_ & Hname & _ & _ & Htrust).
    unfold elementSecurityIssues. rewrite Hname, Htrust, Htl.
    assert (Hds : el_isDatastore (annotate e) = Some true).
    { unfold annotate. rewrite Hty.
      unfold setProcess, setExternalEntity, setDatastore.
      by repeat (simpl; match goal with
                        | |- context [if ?c then _ else _] => destruct c
                        end). }
    rewrite Hds. cbn. by left. }
  split; [done|].
  assert (Hlen : 0 < length (issues (sm_security s))).
  { destruct (issues (sm_security s)); [destruct Hissue|simpl; lia]. }
  split.
  - rewrite (validateSecurity_flag _ _ H3). by apply Nat.ltb_lt.
  - rewrite H4. apply Nat.eqb_neq. lia.
Qed.

Lemma datastore_without_trust_level_witness :
  dfd_elements Samples.storeScenario
  = Some [ Samples.customer; Samples.webServer; Samples.orders ]
  /\ In Samples.orders
        [ Samples.customer; Samples.webServer; Samples.orders ]
  /\ isDatastoreType (el_type Samples.orders) = true
  /\ truthyStr (el_trustLevel Samples.orders) = false
  /\ (truthyBool (el_isDatastore Samples.orders) = false ->
      truthyBool (el_isExternalEntity Samples.orders) = false ->
      elementSecurityIssues Samples.orders = [])
  /\ exists summary dfd',
      getSummary (Some Samples.storeScenario) = Return (summary, dfd')
      /\ In {| si_severity := "medium";
               si_message := "Datastore '" +:+ interp (el_name Samples.orders)
                             +:+ "' has no trust level defined";
               si_recommendation :=
                 "Define appropriate trust level (trusted/partially-trusted/untrusted)" |}
            (issues (sm_security summary))
      /\ hasSecurityIssues (sm_security summary) = true
      /\ allDataflowsSecured (sm_completeness summary) = false.
Proof.
  assert (Hin : In Samples.orders
                   [ Samples.customer; Samples.webServer; Samples.orders ])
    by (right; right; left; reflexivity).
  split; [reflexivity|]. split; [exact Hin|]. do 2 (split; [reflexivity|]).
  exact (datastore_without_trust_level Samples.storeScenario _
           Samples.orders eq_refl Hin eq_refl eq_refl).
Defined.

(** * Properties of the report *)

Lemma generateReport_returns (env : Env) (tm : ThreatModel) (dfd : Dfd)
  (elements : list Element) (dataflows : list Dataflow) :
  plainTags (tm_threats tm) ->
  dfd_elements dfd = Some elements ->
  dfd_dataflows dfd = Some dataflows ->
  exists stride,
    breakdownBySTRIDE (tm_threats tm) = Return stride
    /\ generateReport env tm dfd
       = Return {| rp_title := "Threat Model Report: "
                               +:+ interp (dfd_name dfd);
                   rp_description := dfd_description dfd;
                   rp_generatedAt := now env;
                   rp_executive_summary := executiveSummary tm;
                   rp_elements_analysis :=
                     elementsAnalysis (tm_threats tm) elements;
                   rp_dataflow_analysis :=
                     dataflowAnalysis (tm_threats tm) dataflows;
                   rp_recommendations := generateRecommendations tm;
                   rp_stride_breakdown := stride |}.
Proof.
  intros Hp He Hd.
  destruct (breakdownBySTRIDE_spec _ Hp) as (b & Hb & _).
  exists b. split; [done|]. unfold generateReport. rewrite Hb, He, Hd. done.
Qed.

Lemma model_plainTags (env : Env) (dfd : Dfd) (options : Options)
  (tm : ThreatModel) :
  generateThreatModel env dfd options = Return tm ->
  plainTags (tm_threats tm).
Proof.
  intros Hgen t tags c Hin Hs Hc.
  by apply strideCategories_plain, (model_tags _ _ _ _ t tags c Hgen).
Qed.

(** For a DFD that [validate] reports valid, generating the model from the
    validated DFD and the report from that model both return: neither
    call throws. *)
Theorem valid_dfd_gets_report (env env' : Env) (dfd : Dfd)
  (options : Options) :
  valid (fst (validate (Some dfd))) = true ->
  exists tm report,
    generateThreatModel env (validated dfd) options = Return tm
    /\ generateReport env' tm (validated dfd) = Return report
    /\ rp_title report = "Threat Model Report: " +:+ interp (dfd_name dfd)
    /\ total_threats (rp_executive_summary report) = length (tm_threats tm).
Proof.
  intros Hv.
  assert (Hv' : valid (fst (validateObject dfd)) = true).
  { revert Hv. unfold validate. by destruct (validateObject dfd). }
  destruct (valid_dfd_accepted env dfd options Hv') as [tm Hgen].
  destruct (generateThreatModel_inv _ _ _ _ Hgen)
    as (es & ds & He & Hd & _ & Hn & _).
  destruct (generateReport_returns env' tm (validated dfd) es ds
              (model_plainTags _ _ _ _ Hgen) He Hd) as (b & _ & Hrep).
  exists tm. eexists. split; [done|]. split; [exact Hrep|].
  cbn. split; [|done]. unfold validated. by rewrite validateObject_dfd.
Qed.

Lemma valid_dfd_gets_report_witness :
  valid (fst (validate (Some Samples.scenario))) = true
  /\ exists tm report,
    generateThreatModel Samples.sampleEnv (validated Samples.scenario)
      Samples.noOptions = Return tm
    /\ generateReport Samples.sampleEnv tm (validated Samples.scenario)
       = Return report
    /\ rp_title report
       = "Threat Model Report: " +:+ interp (dfd_name Samples.scenario)
    /\ total_threats (rp_executive_summary report) = length (tm_threats tm).
Proof.
  split; [reflexivity|].
  exact (valid_dfd_gets_report Samples.sampleEnv Samples.sampleEnv
           Samples.scenario Samples.noOptions eq_refl).
Defined.

(** The executive summary and the recommendations of a report agree with
    the findings of the generated model: the counts are the numbers of
    findings of each severity, the overall risk is [Critical] when there
    is a critical finding, else [High] when there is a high finding, and
    [Medium] otherwise, also for a model without findings; the
    recommendations quote the same counts and end with the two standing
    ones. *)
Theorem report_agrees_with_findings (env env' : Env) (dfd : Dfd)
  (options : Options) (tm : ThreatModel) (report : Report) :
  generateThreatModel env dfd options = Return tm ->
  generateReport env' tm dfd = Return report ->
  let s := rp_executive_summary report in
  total_threats s = length (tm_threats tm)
  /\ critical_threats s = countSeverity Critical (tm_threats tm)
  /\ high_threats s = countSeverity High (tm_threats tm)
  /\ medium_threats s = countSeverity Medium (tm_threats tm)
  /\ low_threats s = countSeverity Low (tm_threats tm)
  /\ overall_risk s
     = (if (0 <? countSeverity Critical (tm_threats tm))%nat then Critical
        else if (0 <? countSeverity High (tm_threats tm))%nat then High
        else Medium)
  /\ rp_recommendations report
     = (if (0 <? critical_threats s)%nat
        then [ {| rec_priority := "Critical";
                  rec_action := "Address " +:+ pretty (critical_threats s)
                                +:+ " critical threats immediately";
                  rec_details :=
                    "Critical threats pose immediate risk to system security and data integrity";
                  rec_timeline := "Immediate (within 24-48 hours)" |} ]
        else [])
       ++ (if (0 <? high_threats s)%nat
           then [ {| rec_priority := "High";
                     rec_action := "Implement mitigations for "
                                   +:+ pretty (high_threats s)
                                   +:+ " high-severity threats";
                     rec_details :=
                       "High threats should be addressed in the next development cycle";
                     rec_timeline := "Within 1-2 sprints" |} ]
           else [])
       ++ standingRecommendations.
Proof.
  intros Hgen Hrep s.
  destruct (generateThreatModel_inv _ _ _ _ Hgen)
    as (es & ds & He & Hd & _ & Hn & _).
  destruct (generateReport_returns env' tm dfd es ds
              (model_plainTags _ _ _ _ Hgen) He Hd) as (b & _ & Hrep').
  rewrite Hrep' in Hrep. injection Hrep as <-. unfold s. cbn.
  destruct (model_risk_counts _ _ _ _ Hgen) as (H1 & H2 & H3 & H4).
  rewrite H1, H2, H3, H4. repeat split; done.
Qed.

Lemma report_agrees_with_findings_witness :
  generateThreatModel Samples.sampleEnv (validated Samples.scenario)
    Samples.noOptions = Return Samples.scenarioModel
  /\ generateReport Samples.sampleEnv Samples.scenarioModel
       (validated Samples.scenario) = Return Samples.scenarioReport
  /\ let s := rp_executive_summary Samples.scenarioReport in
     total_threats s = length (tm_threats Samples.scenarioModel)
     /\ critical_threats s
        = countSeverity Critical (tm_threats Samples.scenarioModel)
     /\ high_threats s
        = countSeverity High (tm_threats Samples.scenarioModel)
     /\ medium_threats s
        = countSeverity Medium (tm_threats Samples.scenarioModel)
     /\ low_threats s = countSeverity Low (tm_threats Samples.scenarioModel)
     /\ overall_risk s
        = (if (0 <? countSeverity Critical
                      (tm_threats Samples.scenarioModel))%nat
           then Critical
           else if (0 <? countSeverity High
                           (tm_threats Samples.scenarioModel))%nat
                then High
                else Medium)
     /\ rp_recommendations Samples.scenarioReport
        = (if (0 <? critical_threats s)%nat
           then [ {| rec_priority := "Critical";
                     rec_action := "Address " +:+ pretty (critical_threats s)
                                   +:+ " critical threats immediately";
                     rec_details :=
                       "Critical threats pose immediate risk to system security and data integrity";
                     rec_timeline := "Immediate (within 24-48 hours)" |} ]
           else [])
          ++ (if (0 <? high_threats s)%nat
              then [ {| rec_priority := "High";
                        rec_action := "Implement mitigations for "
                                      +:+ pretty (high_threats s)
                                      +:+ " high-severity threats";
                        rec_details :=
                          "High threats should be addressed in the next development cycle";
                        rec_timeline := "Within 1-2 sprints" |} ]
              else [])
          ++ standingRecommendations.
Proof.
  assert (H : generateThreatModel Samples.sampleEnv
                (validated Samples.scenario) Samples.noOptions
              = Return Samples.scenarioModel) by (vm_compute; reflexivity).
  assert (Hr : generateReport Samples.sampleEnv Samples.scenarioModel
                 (validated Samples.scenario)
               = Return Samples.scenarioReport) by (vm_compute; reflexivity).
  split; [exact H|]. split; [exact Hr|].
  exact (report_agrees_with_findings _ _ _ _ _ _ H Hr).
Defined.

(** ** Every finding is reported once *)

Lemma strictEq_eq (a b : option string) : strictEq a b = true <-> a = b.
Proof.
  destruct a as [a|], b as [b|]; simpl; try (split; congruence).
  rewrite String.eqb_eq. split; congruence.
Qed.

Lemma list_sum_cons (a : nat) (l : list nat) :
  list_sum (a :: l) = a + list_sum l.
Proof. reflexivity. Qed.

Lemma elementsAnalysis_sum (threats : list Threat) (elements : list Element) :
  list_sum (map ea_threat_count (elementsAnalysis threats elements))
  = list_sum (map (fun e => length (threatsOfElement threats e)) elements).
Proof.
  induction elements as [|e elements IH]; [done|].
  unfold elementsAnalysis in *. cbn [flat_map map].
  rewrite map_app, list_sum_app, IH, list_sum_cons.
  generalize (list_sum (map (fun e => length (threatsOfElement threats e))
                            elements)).
  intros rest. destruct (length (threatsOfElement threats e)); cbn; lia.
Qed.

Lemma dataflowAnalysis_sum (threats : list Threat)
  (dataflows : list Dataflow) :
  list_sum (map da_threat_count (dataflowAnalysis threats dataflows))
  = list_sum (map (fun d => length (threatsOfDataflow threats d)) dataflows).
Proof.
  induction dataflows as [|d dataflows IH]; [done|].
  unfold dataflowAnalysis in *. cbn [flat_map map].
  rewrite map_app, list_sum_app, IH, list_sum_cons.
  generalize (list_sum (map (fun d => length (threatsOfDataflow threats d))
                            dataflows)).
  intros rest. destruct (length (threatsOfDataflow threats d)); cbn; lia.
Qed.

Lemma elementsAnalysis_entries (threats : list Threat)
  (elements : list Element) :
  Forall (fun a => 0 < ea_threat_count a
                   /\ ea_threat_count a = length (ea_threats a))
         (elementsAnalysis threats elements).
Proof.
  apply List.Forall_forall. intros a Hin. unfold elementsAnalysis in Hin.
  apply in_flat_map in Hin as (e & _ & Hin).
  destruct (0 <? length (threatsOfElement threats e))%nat eqn:E;
    [|destruct Hin].
  destruct Hin as [<-|[]]. cbn. by apply Nat.ltb_lt in E.
Qed.

Lemma dataflowAnalysis_entries (threats : list Threat)
  (dataflows : list Dataflow) :
  Forall (fun a => 0 < da_threat_count a
                   /\ da_threat_count a = length (da_threats a))
         (dataflowAnalysis threats dataflows).
Proof.
  apply List.Forall_forall. intros a Hin. unfold dataflowAnalysis in Hin.
  apply in_flat_map in Hin as (d & _ & Hin).
  destruct (0 <? length (threatsOfDataflow threats d))%nat eqn:E;
    [|destruct Hin].
  destruct Hin as [<-|[]]. cbn. by apply Nat.ltb_lt in E.
Qed.

(** Counting the pairs that satisfy [p] row by row or column by column. *)
Lemma filter_count_swap {A B : Type} (p : A -> B -> bool) (xs : list A)
  (ts : list B) :
  list_sum (map (fun x => length (List.filter (p x) ts)) xs)
  = list_sum (map (fun t => length (List.filter (fun x => p x t) xs)) ts).
Proof.
  induction ts as [|t ts IH].
  - induction xs as [|x xs IHx]; [done|].
    cbn [map]. rewrite list_sum_cons, IHx. done.
  - cbn [map]. rewrite list_sum_cons, <- IH. clear IH.
    induction xs as [|x xs IHx]; [done|].
    cbn [map]. rewrite !list_sum_cons, IHx. cbn [List.filter].
    destruct (p x t); cbn [length]; lia.
Qed.

Lemma list_sum_map_add {A : Type} (f g : A -> nat) (l : list A) :
  list_sum (map (fun x => f x + g x) l)
  = list_sum (map f l) + list_sum (map g l).
Proof.
  induction l as [|x l IH]; [done|].
  cbn [map]. rewrite !list_sum_cons, IH. lia.
Qed.

Lemma list_sum_ones {A : Type} (l : list A) :
  list_sum (map (fun _ => 1) l) = length l.
Proof.
  induction l as [|x l IH]; [done|].
  cbn [map length]. by rewrite list_sum_cons, IH.
Qed.

Lemma count_zero {A : Type} (key : A -> option string) (l : list A)
  (k : option string) :
  (forall y, In y l -> key y <> k) ->
  length (List.filter (fun y => strictEq k (key y)) l) = 0.
Proof.
  intros H. induction l as [|y l IH]; [done|]. cbn.
  destruct (strictEq k (key y)) eqn:E.
  - apply strictEq_eq in E. exfalso. apply (H y); [by left|done].
  - apply IH. intros z Hz. apply H. by right.
Qed.

Lemma count_unique {A : Type} (key : A -> option string) (l : list A)
  (x : A) :
  NoDup (map key l) -> In x l ->
  length (List.filter (fun y => strictEq (key x) (key y)) l) = 1.
Proof.
  induction l as [|y l IH]; [done|]. cbn [map]. rewrite NoDup_cons.
  intros [Hnin Hnd] [->|Hin]; cbn [List.filter].
  - rewrite (proj2 (strictEq_eq _ _) eq_refl). cbn. f_equal.
    apply count_zero. intros z Hz Heq. apply Hnin.
    rewrite list_elem_of_In, in_map_iff. by exists z.
  - destruct (strictEq (key x) (key y)) eqn:E; [|by apply IH].
    apply strictEq_eq in E. exfalso. apply Hnin.
    rewrite list_elem_of_In, in_map_iff. by exists x.
Qed.

Lemma truthyStr_Some (s : option string) : truthyStr s = true -> s <> None.
Proof. by destruct s. Qed.

(** In the report of a DFD that [validate] reports valid, every entry of
    the element and dataflow analyses has at least one finding, and the
    counts of all entries add up to [totalThreats]: each finding is
    reported under exactly one subject. *)
Theorem report_accounts_for_every_finding (env env' : Env) (dfd : Dfd)
  (options : Options) (tm : ThreatModel) (report : Report) :
  valid (fst (validate (Some dfd))) = true ->
  generateThreatModel env (validated dfd) options = Return tm ->
  generateReport env' tm (validated dfd) = Return report ->
  list_sum (map ea_threat_count (rp_elements_analysis report))
  + list_sum (map da_threat_count (rp_dataflow_analysis report))
  = tm_totalThreats tm
  /\ Forall (fun a => 0 < ea_threat_count a
                      /\ ea_threat_count a = length (ea_threats a))
            (rp_elements_analysis report)
  /\ Forall (fun a => 0 < da_threat_count a
                      /\ da_threat_count a = length (da_threats a))
            (rp_dataflow_analysis report).
Proof.
  intros Hv Hgen Hrep.
  assert (Hwf : wellFormed dfd).
  { apply validateObject_errors_nil.
    revert Hv. unfold validate.
    destruct (validateObject_counts dfd) as (_ & _ & _ & Hval).
    destruct (validateObject dfd) as [r d']. cbn [fst] in *. rewrite Hval.
    rewrite Nat.eqb_eq. apply length_zero_iff_nil. }
  destruct Hwf as (_ & _ & es & ds & He & Hd & _ & Hok & Hnd & Hdok & Hndd).
  assert (He' : dfd_elements (validated dfd) = Some (map annotate es)).
  { unfold validated. rewrite validateObject_dfd. cbn. by rewrite He. }
  assert (Hd' : dfd_dataflows (validated dfd) = Some ds).
  { unfold validated. by rewrite validateObject_dfd. }
  destruct (generateThreatModel_inv _ _ _ _ Hgen)
    as (es0 & ds0 & He0 & Hd0 & _ & Hn & _).
  rewrite He' in He0. rewrite Hd' in Hd0.
  injection He0 as <-. injection Hd0 as <-.
  destruct (generateReport_returns env' tm (validated dfd) _ _
              (model_plainTags _ _ _ _ Hgen) He' Hd') as (b & _ & Hrep').
  rewrite Hrep' in Hrep. injection Hrep as <-. cbn.
  split; [|split;
           [apply elementsAnalysis_entries|apply dataflowAnalysis_entries]].
  rewrite elementsAnalysis_sum, dataflowAnalysis_sum, Hn.
  unfold threatsOfElement, threatsOfDataflow.
  rewrite (filter_count_swap
             (fun e t => strictEq (th_elementId t) (el_id e))).
  rewrite (filter_count_swap
             (fun d t => strictEq (th_dataflowId t) (df_id d))).
  rewrite <- list_sum_map_add, <- list_sum_ones.
  f_equal. apply map_ext_in. intros t Ht.
  assert (Hids : forall e, In e (map annotate es) -> el_id e <> None).
  { intros e Hin. apply in_map_iff in Hin as (e0 & <- & Hin0).
    destruct (annotate_fields e0) as (-> & _).
    rewrite List.Forall_forall in Hok.
    destruct (Hok e0 Hin0) as (Hid & _). by apply truthyStr_Some. }
  assert (Hdids : forall d, In d ds -> df_id d <> None).
  { intros d Hin. rewrite List.Forall_forall in Hdok.
    destruct (Hdok d Hin) as (Hid & _). by apply truthyStr_Some. }
  destruct (model_threat_subject _ _ _ _ t Hgen Ht)
    as (es1 & ds1 & He1 & Hd1 & Hsub).
  rewrite He' in He1. rewrite Hd' in Hd1.
  injection He1 as <-. injection Hd1 as <-.
  destruct Hsub as [(e & t0 & Hin & _ & _ & _ & Hel & _ & _ & Hdf & _)
                   |(d & t0 & Hin & _ & _ & _ & Hdf & _ & _ & Hel & _)].
  - rewrite Hel, Hdf.
    rewrite (count_unique el_id); [|by rewrite map_annotate_ids|done].
    by rewrite (count_zero df_id).
  - rewrite Hel, Hdf.
    rewrite (count_unique df_id); [|done|done].
    by rewrite (count_zero el_id).
Qed.

Lemma report_accounts_for_every_finding_witness :
  valid (fst (validate (Some Samples.scenario))) = true
  /\ generateThreatModel Samples.sampleEnv (validated Samples.scenario)
       Samples.noOptions = Return Samples.scenarioModel
  /\ generateReport Samples.sampleEnv Samples.scenarioModel
       (validated Samples.scenario) = Return Samples.scenarioReport
  /\ list_sum (map ea_threat_count
                   (rp_elements_analysis Samples.scenarioReport))
     + list_sum (map da_threat_count
                     (rp_dataflow_analysis Samples.scenarioReport))
     = tm_totalThreats Samples.scenarioModel
  /\ Forall (fun a => 0 < ea_threat_count a
                      /\ ea_threat_count a = length (ea_threats a))
            (rp_elements_analysis Samples.scenarioReport)
  /\ Forall (fun a => 0 < da_threat_count a
                      /\ da_threat_count a = length (da_threats a))
            (rp_dataflow_analysis Samples.scenarioReport).
Proof.
  assert (H : generateThreatModel Samples.sampleEnv
                (validated Samples.scenario) Samples.noOptions
              = Return Samples.scenarioModel) by (vm_compute; reflexivity).
  assert (Hr : generateReport Samples.sampleEnv Samples.scenarioModel
                 (validated Samples.scenario)
               = Return Samples.scenarioReport) by (vm_compute; reflexivity).
  split; [reflexivity|]. split; [exact H|]. split; [exact Hr|].
  exact (report_accounts_for_every_finding _ _ Samples.scenario _ _ _
           eq_refl H Hr).
Defined.

(** * Properties of the diagram normalisation *)

Import diagramRecognizer.

Lemma lowerAscii_idem (c : ascii) : lowerAscii (lowerAscii c) = lowerAscii c.
Proof. destruct c as [[] [] [] [] [] [] [] []]; reflexivity. Qed.

Lemma toLowerCase_idem (s : string) :
  toLowerCase (toLowerCase s) = toLowerCase s.
Proof.
  induction s as [|c s IH]; [done|]. simpl. by rewrite lowerAscii_idem, IH.
Qed.

Lemma toLowerCase_key (type : option string) :
  toLowerCase (interp (toLowerCase <$> type)) = interp (toLowerCase <$> type).
Proof. destruct type as [s|]; [apply toLowerCase_idem|reflexivity]. Qed.

(** What [normalizeElementType] returns for every type, by the lower-case
    spelling of the type: 'process' for 'process', 'proc' and 'function';
    'datastore' for 'datastore', 'data store', 'database' and 'db'; 'actor'
    for 'actor', 'user' and 'person'; 'external_system' for
    'external_system', 'external system', 'system' and 'service'; for
    'constructor' and '__proto__' the value inherited from
    [Object.prototype] instead of a type name; and 'process' for every
    other type, also a missing one.  So the result is one of the four
    standard names, each of which is mapped to itself, or an inherited
    value, and it does not depend on the letter case of the type. *)
Theorem normalizeElementType_cases :
  (forall type : option string,
      let key := interp (toLowerCase <$> type) in
      normalizeElementType type
      = if includes [ "process"; "proc"; "function" ] (Some key)
        then TypeName "process"
        else if includes [ "datastore"; "data store"; "database"; "db" ]
                  (Some key)
        then TypeName "datastore"
        else if includes [ "actor"; "user"; "person" ] (Some key)
        then TypeName "actor"
        else if includes [ "external_system"; "external system"; "system";
                           "service" ] (Some key)
        then TypeName "external_system"
        else if includes [ "constructor"; "__proto__" ] (Some key)
        then Inherited key
        else TypeName "process")
  /\ (forall type : option string,
         (exists name,
             normalizeElementType type = TypeName name
             /\ In name standardTypes)
         \/ (exists key,
                normalizeElementType type = Inherited key
                /\ toLowerCase <$> type = Some key
                /\ (key = "constructor" \/ key = "__proto__")))
  /\ Forall (fun name => normalizeElementType (Some name) = TypeName name)
            standardTypes
  /\ normalizeElementType None = TypeName "process"
  /\ forall s : string,
      normalizeElementType (Some (toLowerCase s))
      = normalizeElementType (Some s).
Proof.
  split; [|split; [|split; [|split]]].
  - intros type key. unfold normalizeElementType. fold key.
    pose proof (toLowerCase_key type) as Hfix. fold key in Hfix.
    clearbody key.
    unfold diagramRecognizer.typeMap, objectPrototypeKeys.
    cbn [lookupKey includes existsb strictEq orb].
    repeat match goal with
           | |- context [String.eqb ?a key] =>
               let E := fresh "E" in
               destruct (String.eqb a key) eqn:E; cbn [orb];
               [ first [ reflexivity
                       | exfalso; apply String.eqb_eq in E;
                         rewrite <- E in Hfix; cbv in Hfix;
                         discriminate Hfix ] | ]
           end.
    reflexivity.
  - intros type. unfold normalizeElementType.
    destruct (lookupKey _ diagramRecognizer.typeMap) as [name|] eqn:E.
    + left. exists name. split; [done|].
      apply lookupKey_In in E. apply (in_map snd) in E. simpl in E |- *.
      intuition (subst; auto).
    + destruct (includes objectPrototypeKeys _) eqn:Ei.
      * right. destruct type as [s|]; [|discriminate].
        change (interp (toLowerCase <$> Some s)) with (toLowerCase s) in *.
        exists (toLowerCase s). split; [done|]. split; [done|].
        apply includes_In in Ei. pose proof (toLowerCase_idem s) as Hidem.
        unfold objectPrototypeKeys in Ei. cbn [In] in Ei.
        repeat (destruct Ei as [Ei|Ei];
                [rewrite <- Ei in Hidem; first [discriminate|auto]|]).
        destruct Ei.
      * left. exists "process". split; [done|]. simpl. auto.
  - repeat constructor.
  - reflexivity.
  - intros s. unfold normalizeElementType. simpl.
    by rewrite toLowerCase_idem.
Qed.

Lemma mapCounting_length {A B : Type} (f : A -> nat -> B * nat)
  (arr : list A) :
  forall calls, length (fst (mapCounting f arr calls)) = length arr.
Proof.
  induction arr as [|a arr IH]; intros calls; [done|]. cbn [mapCounting].
  destruct (f a calls) as [b calls1]. specialize (IH calls1).
  destruct (mapCounting f arr calls1) as [bs calls2]. cbn in *. by rewrite IH.
Qed.

Lemma missing_id_error (dfd : Dfd) :
  truthyStr (dfd_id dfd) = false ->
  In "DFD ID is required" (errors (fst (validateObject dfd))).
Proof.
  intros Hid. unfold validateObject. rewrite Hid. cbn [negb].
  set (e4 := pushIf _ "DFD must have dataflows array" _).
  assert (H4 : In "DFD ID is required" e4).
  { unfold e4. do 3 apply pushIf_In. apply pushIf_true_In. }
  clearbody e4.
  destruct (dfd_elements dfd) as [es|].
  - pose proof (validateElements_keeps es _ 0
                  {| vs_errors := e4; vs_warnings := []; vs_ids := ∅ |} H4)
      as H5.
    destruct (validateElements _ _ _) as [st es']. cbn [fst] in H5.
    destruct (dfd_dataflows dfd) as [ds|]; cbn [fst errors]; [|done].
    by apply validateDataflows_keeps.
  - destruct (dfd_dataflows dfd) as [ds|]; cbn [fst errors]; [|done].
    by apply validateDataflows_keeps.
Qed.

Lemma validateDataflows_missing_name (elementIds : gset (option string))
  (dataflows : list Dataflow) :
  forall index st i d,
    nth_error dataflows i = Some d ->
    truthyStr (df_name d) = false ->
    In ("Dataflow " +:+ pretty (index + i) +:+ " missing required field: name")
       (vs_errors (validateDataflows elementIds index dataflows st)).
Proof.
  induction dataflows as [|d0 dataflows IH]; intros index st i d Hi Hn.
  { by destruct i. }
  cbn [validateDataflows]. destruct i as [|i]; simpl in Hi.
  - injection Hi as ->. rewrite Nat.add_0_r.
    apply validateDataflows_keeps. unfold validateDataflow.
    cbn [vs_errors]. rewrite Hn. cbn [negb].
    do 3 apply pushIf_In. apply pushIf_true_In.
  - replace (index + S i) with (S index + i) by lia.
    by apply (IH (S index) _ i d).
Qed.

(** [validate] rejects every diagram that [validateAndNormalizeDFD]
    returns: the normalised object has no [id], and its dataflows have a
    [label] but no [name]; so the import routes, which validate it
    unchanged, answer with the validation errors. *)
Theorem normalized_diagram_rejected (env : Env) (dfdData : RawDfd) :
  let dfd := asDfd (validateAndNormalizeDFD env dfdData) in
  valid (fst (validate (Some dfd))) = false
  /\ In "DFD ID is required" (errors (fst (validate (Some dfd))))
  /\ length (nd_elements (validateAndNormalizeDFD env dfdData))
     = length (orEmpty (rd_elements dfdData))
  /\ length (nd_dataflows (validateAndNormalizeDFD env dfdData))
     = length (orEmpty (rd_dataflows dfdData))
  /\ Forall (fun i =>
               In ("Dataflow " +:+ pretty i
                   +:+ " missing required field: name")
                  (errors (fst (validate (Some dfd)))))
            (seq 0 (length (orEmpty (rd_dataflows dfdData)))).
Proof.
  intros dfd.
  assert (Hr : fst (validate (Some dfd)) = fst (validateObject dfd)).
  { unfold validate. by destruct (validateObject dfd). }
  rewrite Hr.
  assert (Hid : In "DFD ID is required" (errors (fst (validateObject dfd))))
    by by apply missing_id_error.
  assert (Hlens :
            length (nd_elements (validateAndNormalizeDFD env dfdData))
            = length (orEmpty (rd_elements dfdData))
            /\ length (nd_dataflows (validateAndNormalizeDFD env dfdData))
               = length (orEmpty (rd_dataflows dfdData))).
  { unfold validateAndNormalizeDFD.
    pose proof (mapCounting_length (normalizeElement env)
                  (orEmpty (rd_elements dfdData)) 0) as H1.
    destruct (mapCounting (normalizeElement env) _ 0) as [els calls].
    pose proof (mapCounting_length (normalizeDataflow env)
                  (orEmpty (rd_dataflows dfdData)) calls) as H2.
    destruct (mapCounting (normalizeDataflow env) _ calls) as [dfs calls'].
    by cbn in *. }
  destruct Hlens as [Hle Hld].
  split.
  { destruct (validateObject_counts dfd) as (_ & _ & _ & ->).
    by destruct (errors (fst (validateObject dfd))). }
  split; [done|]. split; [done|]. split; [done|].
  apply List.Forall_forall. intros i Hi. apply in_seq in Hi as [_ Hi].
  cbn in Hi. rewrite <- Hld in Hi.
  destruct (nth_error (nd_dataflows (validateAndNormalizeDFD env dfdData)) i)
    as [f|] eqn:Ef; [|apply nth_error_None in Ef; lia].
  apply (validateObject_dataflow_errors dfd
           (map (fun f =>
                   {| df_id := Some (nf_id f); df_name := None;
                      df_from := nf_from f; df_to := nf_to f;
                      df_protocol := None; df_hasSensitiveData := None;
                      df_isCrossNetwork := None; df_isEncrypted := None;
                      df_authentication := None; df_type := None |})
                (nd_dataflows (validateAndNormalizeDFD env dfdData))));
    [done|].
  intros st.
  apply (validateDataflows_missing_name _ _ 0 st i
           {| df_id := Some (nf_id f); df_name := None;
              df_from := nf_from f; df_to := nf_to f;
              df_protocol := None; df_hasSensitiveData := None;
              df_isCrossNetwork := None; df_isEncrypted := None;
              df_authentication := None; df_type := None |}); [|done].
  by rewrite nth_error_map, Ef.
Qed.
